(** * arthur_bench.run.testsuite: the batched scoring-run pipeline

    A shallow embedding of [src/arthur_bench/run/testsuite.py]:
    [TestSuite.__init__], [TestSuite.run] and [TestSuite.save].

    The collaborators the module imports ([arthur_bench.run.utils],
    [arthur_bench.scoring], [TestRun.save], pydantic's [.json()]) are not part
    of the file; they are taken as parameters (record [Collaborators]), each a
    function on an abstract outside world that returns a value or raises.
    Every call to a collaborator is recorded, with its outcome, in a trace, so
    that the order of effects can be stated. *)

From Stdlib Require Import String Ascii DecimalString.
From Stdlib Require Import List ZArith Arith Bool Lia.
Import ListNotations.

Set Implicit Arguments.
Local Open Scope list_scope.

(* ===================================================================== *)
(** ** The Python the module relies on *)
(* ===================================================================== *)

Module Py.

(** Classes of exceptions.  The first five are subclasses of [Exception];
    [KeyboardInterrupt], [SystemExit], [GeneratorExit] and the classes of
    [OtherBaseException] derive from [BaseException] without being
    subclasses of [Exception]. *)
Inductive exn_class : Type :=
| UserValueError
| UserInputError
| ArthurInternalError
| ValueError
| OtherError (class_name : string)
| KeyboardInterrupt
| SystemExit
| GeneratorExit
| OtherBaseException (class_name : string).

(** [issubclass(cls, Exception)]. *)
Definition subclass_of_Exception (cls : exn_class) : bool :=
  match cls with
  | KeyboardInterrupt | SystemExit | GeneratorExit | OtherBaseException _ =>
      false
  | UserValueError | UserInputError | ArthurInternalError | ValueError
  | OtherError _ => true
  end.

(** An exception instance: its class and its message ([str(e)]);
    [ExnFrom] is one raised by [raise ... from cause], whose [__cause__] is
    set. *)
Inductive exn : Type :=
| Exn (cls : exn_class) (msg : string)
| ExnFrom (cls : exn_class) (msg : string) (cause : exn).

Definition exn_cls (e : exn) : exn_class :=
  match e with Exn c _ => c | ExnFrom c _ _ => c end.
Definition str (e : exn) : string :=
  match e with Exn _ m => m | ExnFrom _ m _ => m end.
Definition exn_cause (e : exn) : option exn :=
  match e with Exn _ _ => None | ExnFrom _ _ c => Some c end.

(** [isinstance(e, Exception)]: what an [except Exception] clause
    catches. *)
Definition is_Exception (e : exn) : bool :=
  subclass_of_Exception (exn_cls e).

(** What a call does: it returns a value or raises. *)
Inductive outcome (A : Type) : Type :=
| Returned (a : A)
| Raised (e : exn).
Arguments Returned {A} a.
Arguments Raised {A} e.

Definition returned {A} (o : outcome A) : bool :=
  match o with Returned _ => true | Raised _ => false end.

(** [str(n)] of a non-negative int, as an f-string formats [len(...)]. *)
Definition str_of_nat (n : nat) : string :=
  NilEmpty.string_of_uint (Nat.to_uint n).

(** [len(range(lo, hi, step))] for a non-zero step (CPython's
    [compute_range_length]). *)
Definition range_length (lo hi step : Z) : nat :=
  if (0 <? step)%Z then
    if (lo <? hi)%Z then Z.to_nat (1 + (hi - 1 - lo) / step) else 0
  else
    if (hi <? lo)%Z then Z.to_nat (1 + (lo - 1 - hi) / (- step)) else 0.

(** [range(lo, hi, step)]: a zero step raises [ValueError]; otherwise the
    items are [lo + k * step] for [k] below the length. *)
Definition range (lo hi step : Z) : outcome (list Z) :=
  if (step =? 0)%Z then
    Raised (Exn ValueError "range() arg 3 must not be zero")
  else
    Returned (map (fun k => (lo + Z.of_nat k * step)%Z)
                  (seq 0 (range_length lo hi step))).

(** A slice bound brought into [0 .. len], as [PySlice_AdjustIndices] does
    for a step of 1: a negative bound counts from the end. *)
Definition adjust_index (len : nat) (k : Z) : nat :=
  if (k <? 0)%Z then Z.to_nat (Z.max 0 (k + Z.of_nat len))
  else Z.to_nat (Z.min k (Z.of_nat len)).

(** [l[start:stop]]: never raises; empty when the bounds cross. *)
Definition slice {A} (l : list A) (start stop : Z) : list A :=
  let a := adjust_index (length l) start in
  let b := adjust_index (length l) stop in
  firstn (b - a) (skipn a l).

(** [x, y = zip( *batch )] for a list of pairs: with an empty [batch],
    [zip()] yields nothing and the unpacking raises [ValueError]. *)
Definition unpack_zip_star {A B} (batch : list (A * B))
  : outcome (list A * list B) :=
  match batch with
  | [] => Raised (Exn ValueError
                    "not enough values to unpack (expected 2, got 0)")
  | _ :: _ => Returned (split batch)
  end.

(** [zip(xs, ys)] consumed by a list comprehension: stops at the shorter. *)
Definition zip {A B} (xs : list A) (ys : list B) : list (A * B) :=
  combine xs ys.

End Py.
Import Py.

(* ===================================================================== *)
(** ** Data model, collaborators and the effect monad *)
(* ===================================================================== *)

(** [pathlib.Path]: the sequence of its components; [p / name] appends one. *)
Definition Path : Type := list string.
Definition path_div (p : Path) (name : string) : Path := p ++ [name].

(** [arthur_bench.models.models.ScoringMethod], imported as [ScoringEnum]:
    the module names one member, [QACorrectness]. *)
Inductive ScoringEnum : Type :=
| QACorrectness
| OtherScoring (method_name : string).

Definition ScoringEnum_eqb (a b : ScoringEnum) : bool :=
  match a, b with
  | QACorrectness, QACorrectness => true
  | OtherScoring x, OtherScoring y => String.eqb x y
  | _, _ => false
  end.

(** A test case of a suite: [case.input], [case.reference_output]. *)
Record TestCase : Type := {
  input : string;
  reference_output : option string
}.

Section Model.

(** Values the module only passes along: a score, a dataframe, the metadata
    dict of [_initialize_metadata()], the object [load_scoring_method]
    returns, and the world outside the process (disk, clock). *)
Context {Score DataFrame Metadata ScoringMethod World : Type}.

Record TestSuiteRequest : Type := {
  name : string;
  scoring_method : ScoringEnum;
  description : option string;
  test_cases : list TestCase;
  suite_metadata : Metadata
}.

Record TestCaseOutput : Type := {
  output : string;
  score : Score
}.

Record TestRun : Type := {
  run_name : string;
  test_case_outputs : list TestCaseOutput;
  model_name : option string;
  model_version : option string;
  foundation_model : option string;
  prompt_template : option string;
  run_dir : option Path;
  run_metadata : Metadata
}.

(** The attributes [__init__] sets on [self]. *)
Record TestSuite : Type := {
  self_id : option string;
  self_suite : TestSuiteRequest;
  self_test_suite_dir : Path
}.

(** The keyword arguments of [_load_suite_from_args]. *)
Record SuiteDataArgs : Type := {
  sd_reference_data : option DataFrame;
  sd_reference_data_path : option string;
  sd_input_column : string;
  sd_reference_column : option string;
  sd_input_text_list : option (list string);
  sd_reference_output_list : option (list string)
}.

(** The keyword arguments of [_load_run_data_from_args]. *)
Record RunDataArgs : Type := {
  rd_candidate_data : option DataFrame;
  rd_candidate_data_path : option string;
  rd_candidate_column : string;
  rd_candidate_output_list : option (list string);
  rd_context_column : option string;
  rd_context_list : option (list string)
}.

(** The arguments of [TestSuite.__init__]. *)
Record InitArgs : Type := {
  init_name : string;
  init_scoring_method : ScoringEnum + string;
  init_description : option string;
  init_reference_data : option DataFrame;
  init_reference_data_path : option string;
  init_input_column : string;
  init_reference_column : string;
  init_input_text_list : option (list string);
  init_reference_output_list : option (list string)
}.

(** The arguments of [TestSuite.run]. *)
Record RunArgs : Type := {
  arg_run_name : string;
  arg_candidate_data : option DataFrame;
  arg_candidate_data_path : option string;
  arg_candidate_column : string;
  arg_candidate_output_list : option (list string);
  arg_context_column : option string;
  arg_context_list : option (list string);
  arg_save : bool;
  arg_batch_size : Z;
  arg_model_name : option string;
  arg_model_version : option string;
  arg_foundation_model : option string;
  arg_prompt_template : option string
}.

(** One call of [scoring_method.run_batch]: with three positional arguments,
    or with the context slice as the fourth. *)
Inductive batch_call : Type :=
| Call3 (ref_batch : list (option string)) (candidates : list string)
        (input_batch : list string)
| Call4 (ref_batch : list (option string)) (candidates : list string)
        (input_batch : list string) (context : list string).

Definition call_refs (c : batch_call) : list (option string) :=
  match c with Call3 r _ _ => r | Call4 r _ _ _ => r end.
Definition call_candidates (c : batch_call) : list string :=
  match c with Call3 _ c _ => c | Call4 _ c _ _ => c end.
Definition call_inputs (c : batch_call) : list string :=
  match c with Call3 _ _ i => i | Call4 _ _ i _ => i end.
Definition call_context (c : batch_call) : option (list string) :=
  match c with Call3 _ _ _ => None | Call4 _ _ _ x => Some x end.

(** A collaborator acts on the world and returns or raises. *)
Definition action (R : Type) : Type := World -> outcome R * World.

(** The functions and methods the module calls and does not define. *)
Record Collaborators : Type := {
  (* [_test_suite_dir(name)] is the path convention of a suite's directory:
     it reads the world and has no effect on it. *)
  _get_suite_if_exists : string -> action (option TestSuiteRequest);
  _get_scoring_method : ScoringEnum + string -> action ScoringEnum;
  _load_suite_from_args : SuiteDataArgs -> action (list TestCase);
  _initialize_metadata : action Metadata;
  _create_test_suite_dir : string -> action Path;
  _test_suite_dir : string -> World -> Path;
  _load_run_data_from_args :
    RunDataArgs -> action (list string * option (list string));
  load_scoring_method : ScoringEnum -> action ScoringMethod;
  run_batch : ScoringMethod -> batch_call -> action (list Score);
  _create_run_dir : string -> string -> action Path;
  _clean_up_run : Path -> action unit;
  suite_json : TestSuiteRequest -> string;
  write_text : Path -> string -> action unit;
  TestRun_save : TestRun -> action unit
}.

(** What the module does to the outside, in order: each collaborator call
    with its outcome, and each log record. *)
Inductive event : Type :=
| Ev_get_suite_if_exists (suite_name : string)
    (r : outcome (option TestSuiteRequest))
| Ev_get_scoring_method (m : ScoringEnum + string) (r : outcome ScoringEnum)
| Ev_load_suite_from_args (a : SuiteDataArgs) (r : outcome (list TestCase))
| Ev_initialize_metadata (r : outcome Metadata)
| Ev_create_test_suite_dir (suite_name : string) (r : outcome Path)
| Ev_logger_info (msg : string)
| Ev_load_run_data_from_args (a : RunDataArgs)
    (r : outcome (list string * option (list string)))
| Ev_load_scoring_method (m : ScoringEnum) (r : outcome ScoringMethod)
| Ev_create_run_dir (suite_name run : string) (r : outcome Path)
| Ev_run_batch (c : batch_call) (r : outcome (list Score))
| Ev_logger_error (msg : string)
| Ev_clean_up_run (dir : Path) (r : outcome unit)
| Ev_write_text (file : Path) (content : string) (r : outcome unit)
| Ev_TestRun_save (run : TestRun) (r : outcome unit).

(** The state a method runs in: the world, and the trace of its effects. *)
Record state : Type := {
  world : World;
  trace : list event
}.

(** A computation: effects persist when it raises, as in Python. *)
Definition M (A : Type) : Type := state -> outcome A * state.

Definition ret {A} (a : A) : M A := fun st => (Returned a, st).

Definition raise {A} (e : exn) : M A := fun st => (Raised e, st).

Definition bind {A B} (m : M A) (k : A -> M B) : M B :=
  fun st =>
    match m st with
    | (Returned a, st') => k a st'
    | (Raised e, st') => (Raised e, st')
    end.

(** [try: body / except Exception as e: handler e]: an exception that is
    not an instance of [Exception] is not caught. *)
Definition try_except {A} (body : M A) (handler : exn -> M A) : M A :=
  fun st =>
    match body st with
    | (Returned a, st') => (Returned a, st')
    | (Raised e, st') =>
        if is_Exception e then handler e st' else (Raised e, st')
    end.

Definition lift {A} (o : outcome A) : M A := fun st => (o, st).

(** Calling a collaborator: the world moves on, the call is recorded. *)
Definition call {R} (ev : outcome R -> event) (f : action R) : M R :=
  fun st =>
    let '(r, w) := f (world st) in
    (r, {| world := w; trace := trace st ++ [ev r] |}).

(** The state a method is invoked in: nothing recorded yet. *)
Definition start (w : World) : state := {| world := w; trace := [] |}.

(** Reading the world without acting on it. *)
Definition read {R} (f : World -> R) : M R :=
  fun st => (Returned (f (world st)), st).

(** [logger.info] and [logger.error] only leave a record. *)
Definition log (ev : event) : M unit :=
  fun st => (Returned tt, {| world := world st; trace := trace st ++ [ev] |}).

End Model.

Arguments TestSuiteRequest : clear implicits.
Arguments TestCaseOutput : clear implicits.
Arguments TestRun : clear implicits.
Arguments TestSuite : clear implicits.
Arguments SuiteDataArgs : clear implicits.
Arguments RunDataArgs : clear implicits.
Arguments InitArgs : clear implicits.
Arguments RunArgs : clear implicits.
Arguments action : clear implicits.
Arguments Collaborators : clear implicits.
Arguments event : clear implicits.
Arguments state : clear implicits.
Arguments M : clear implicits.

Declare Scope py_scope.
Delimit Scope py_scope with py.
Notation "x <- c1 ;; c2" := (bind c1 (fun x => c2))
  (at level 61, c1 at next level, right associativity) : py_scope.
Notation "' pat <- c1 ;; c2" := (bind c1 (fun x => match x with pat => c2 end))
  (at level 61, pat pattern, c1 at next level, right associativity) : py_scope.
Notation "c1 ;; c2" := (bind c1 (fun _ => c2))
  (at level 61, right associativity) : py_scope.

(* ===================================================================== *)
(** ** The methods of [TestSuite] *)
(* ===================================================================== *)

(** [DEFAULT_BATCH_SIZE] (line 18), the default of [run]'s [batch_size]. *)
Definition DEFAULT_BATCH_SIZE : Z := 32.

Section Methods.

Context {Score DataFrame Metadata ScoringMethod World : Type}.
Variable env : Collaborators Score DataFrame Metadata ScoringMethod World.

Local Abbreviation Comp := (M Score DataFrame Metadata ScoringMethod World).
Local Open Scope py_scope.

(** [for x in items: s = body(x, s)], with [s] the variables the body
    updates. *)
Fixpoint for_each {A S : Type} (items : list A) (body : A -> S -> Comp S)
  (s : S) : Comp S :=
  match items with
  | [] => ret s
  | x :: rest => s' <- body x s ;; for_each rest body s'
  end.

(** [TestSuite.__init__] (lines 48-74). *)
Definition __init__ (a : InitArgs DataFrame) : Comp (TestSuite Metadata) :=
  existing <- call (Ev_get_suite_if_exists (init_name a))
                   (_get_suite_if_exists env (init_name a)) ;;
  match existing with
  | None =>
      scoring_method <- call (Ev_get_scoring_method (init_scoring_method a))
                             (_get_scoring_method env (init_scoring_method a)) ;;
      let reference_column :=
        if ScoringEnum_eqb scoring_method QACorrectness then None
        else Some (init_reference_column a) in
      let data_args :=
        {| sd_reference_data := init_reference_data a;
           sd_reference_data_path := init_reference_data_path a;
           sd_input_column := init_input_column a;
           sd_reference_column := reference_column;
           sd_input_text_list := init_input_text_list a;
           sd_reference_output_list := init_reference_output_list a |} in
      cases <- call (Ev_load_suite_from_args data_args)
                    (_load_suite_from_args env data_args) ;;
      metadata <- call Ev_initialize_metadata (_initialize_metadata env) ;;
      let suite :=
        {| name := init_name a;
           scoring_method := scoring_method;
           description := init_description a;
           test_cases := cases;
           suite_metadata := metadata |} in
      dir <- call (Ev_create_test_suite_dir (init_name a))
                  (_create_test_suite_dir env (init_name a)) ;;
      ret {| self_id := None; self_suite := suite;
             self_test_suite_dir := dir |}
  | Some suite =>
      log (Ev_logger_info ("Found existing test suite with name "
                           ++ init_name a ++ ". Using existing suite")%string) ;;
      dir <- read (_test_suite_dir env (init_name a)) ;;
      ret {| self_id := None; self_suite := suite;
             self_test_suite_dir := dir |}
  end.

(** The same constructor call with another [reference_column]. *)
Definition with_reference_column (a : InitArgs DataFrame) (column : string)
  : InitArgs DataFrame :=
  {| init_name := init_name a;
     init_scoring_method := init_scoring_method a;
     init_description := init_description a;
     init_reference_data := init_reference_data a;
     init_reference_data_path := init_reference_data_path a;
     init_input_column := init_input_column a;
     init_reference_column := column;
     init_input_text_list := init_input_text_list a;
     init_reference_output_list := init_reference_output_list a |}.

(** The same constructor call with another [reference_column] and another
    [reference_output_list]. *)
Definition with_references (a : InitArgs DataFrame) (column : string)
  (references : option (list string)) : InitArgs DataFrame :=
  {| init_name := init_name a;
     init_scoring_method := init_scoring_method a;
     init_description := init_description a;
     init_reference_data := init_reference_data a;
     init_reference_data_path := init_reference_data_path a;
     init_input_column := init_input_column a;
     init_reference_column := column;
     init_input_text_list := init_input_text_list a;
     init_reference_output_list := references |}.

(** [TestSuite.save] (lines 179-182). *)
Definition save (self : TestSuite Metadata) : Comp unit :=
  let suite_file := path_div (self_test_suite_dir self) "suite.json" in
  let content := suite_json env (self_suite self) in
  call (Ev_write_text suite_file content) (write_text env suite_file content).

(** The call of [run_batch] for the chunk that starts at [i] (lines
    139-151): the signature depends on [context_list]. *)
Definition batch_call_at (candidate_output_list : list string)
  (context_list : option (list string)) (batch_size i : Z)
  (ref_batch : list (option string)) (input_batch : list string)
  : batch_call :=
  match context_list with
  | Some context =>
      Call4 ref_batch
            (slice candidate_output_list i (i + batch_size))
            input_batch
            (slice context i (i + batch_size))
  | None =>
      Call3 ref_batch
            (slice candidate_output_list i (i + batch_size))
            input_batch
  end.

(** The body of the [for] loop (lines 136-153). *)
Definition score_batch (self : TestSuite Metadata)
  (scoring : ScoringMethod) (candidate_output_list : list string)
  (context_list : option (list string)) (batch_size : Z)
  (i : Z) (all_scores : list Score) : Comp (list Score) :=
  let batch :=
    map (fun case => (input case, reference_output case))
        (slice (test_cases (self_suite self)) i (i + batch_size)) in
  ' (input_batch, ref_batch) <- lift (unpack_zip_star batch) ;;
  let c := batch_call_at candidate_output_list context_list batch_size i
                         ref_batch input_batch in
  scores <- call (Ev_run_batch c) (run_batch env scoring c) ;;
  ret (all_scores ++ scores).

(** The body of the [try] (lines 133-153). *)
Definition score_all (self : TestSuite Metadata)
  (scoring : ScoringMethod) (candidate_output_list : list string)
  (context_list : option (list string)) (batch_size : Z)
  : Comp (list Score) :=
  indices <- lift (range 0 (Z.of_nat (length (test_cases (self_suite self))))
                         batch_size) ;;
  for_each indices
           (score_batch self scoring candidate_output_list context_list
                        batch_size)
           [].

(** The [except Exception as e] handler (lines 154-158). *)
Definition on_failure (run_name : string) (run_dir : option Path) (e : exn)
  : Comp (list Score) :=
  log (Ev_logger_error ("failed to create run: " ++ str e)%string) ;;
  match run_dir with
  | Some dir => call (Ev_clean_up_run dir) (_clean_up_run env dir)
  | None => ret tt
  end ;;
  raise (ExnFrom ArthurInternalError
                 ("failed to create run " ++ run_name)%string e).

(** [test_case_outputs] of line 160. *)
Definition pair_outputs (candidate_output_list : list string)
  (all_scores : list Score) : list (TestCaseOutput Score) :=
  map (fun '(output, score) => {| output := output; score := score |})
      (zip candidate_output_list all_scores).

(** The message of the [UserValueError] of lines 122-123. *)
Definition mismatch_message (n_candidates n_cases : nat) : string :=
  ("candidate data has " ++ str_of_nat n_candidates
   ++ " tests but expected " ++ str_of_nat n_cases ++ " tests")%string.

(** The keyword arguments [run] passes to [_load_run_data_from_args] (lines
    112-119). *)
Definition run_data_args (a : RunArgs DataFrame) : RunDataArgs DataFrame :=
  {| rd_candidate_data := arg_candidate_data a;
     rd_candidate_data_path := arg_candidate_data_path a;
     rd_candidate_column := arg_candidate_column a;
     rd_candidate_output_list := arg_candidate_output_list a;
     rd_context_column := arg_context_column a;
     rd_context_list := arg_context_list a |}.

(** The [TestRun(...)] of lines 162-171. *)
Definition assemble (a : RunArgs DataFrame)
  (test_case_outputs : list (TestCaseOutput Score)) (run_dir : option Path)
  (metadata : Metadata) : TestRun Score Metadata :=
  {| run_name := arg_run_name a;
     test_case_outputs := test_case_outputs;
     model_name := arg_model_name a;
     model_version := arg_model_version a;
     foundation_model := arg_foundation_model a;
     prompt_template := arg_prompt_template a;
     run_dir := run_dir;
     run_metadata := metadata |}.

(** [TestSuite.run] (lines 112-177). *)
Definition run (self : TestSuite Metadata) (a : RunArgs DataFrame)
  : Comp (TestRun Score Metadata) :=
  ' (candidate_output_list, context_list) <-
      call (Ev_load_run_data_from_args (run_data_args a))
           (_load_run_data_from_args env (run_data_args a)) ;;
  if negb (length candidate_output_list
           =? length (test_cases (self_suite self))) then
    raise (Exn UserValueError
               (mismatch_message (length candidate_output_list)
                                 (length (test_cases (self_suite self)))))
  else
    scoring <- call (Ev_load_scoring_method (scoring_method (self_suite self)))
                    (load_scoring_method env
                                         (scoring_method (self_suite self))) ;;
    run_dir <- (if arg_save a then
                  dir <- call (Ev_create_run_dir (name (self_suite self))
                                                 (arg_run_name a))
                              (_create_run_dir env (name (self_suite self))
                                               (arg_run_name a)) ;;
                  ret (Some dir)
                else ret None) ;;
    all_scores <- try_except
                    (score_all self scoring candidate_output_list
                               context_list (arg_batch_size a))
                    (on_failure (arg_run_name a) run_dir) ;;
    let test_case_outputs := pair_outputs candidate_output_list all_scores in
    metadata <- call Ev_initialize_metadata (_initialize_metadata env) ;;
    let run := assemble a test_case_outputs run_dir metadata in
    (if arg_save a then
       save self ;;
       call (Ev_TestRun_save run) (TestRun_save env run)
     else ret tt) ;;
    ret run.

End Methods.


(* ===================================================================== *)
(** ** Reading a trace *)
(* ===================================================================== *)

Section Traces.

Context {Score DataFrame Metadata ScoringMethod World : Type}.

Local Abbreviation Event := (event Score DataFrame Metadata ScoringMethod).

(** The [run_batch] calls of a trace, in order, each with its outcome. *)
Definition batch_events (t : list Event)
  : list (batch_call * outcome (list Score)) :=
  flat_map (fun ev => match ev with
                      | Ev_run_batch c r => [(c, r)]
                      | _ => []
                      end) t.

(** The score lists the [run_batch] calls of a trace returned, in order. *)
Definition batch_returns (t : list Event) : list (list Score) :=
  flat_map (fun cr => match snd cr with
                      | Returned scores => [scores]
                      | Raised _ => []
                      end) (batch_events t).

(** The collaborator call behind the event returned (a log record counts as
    returned). *)
Definition event_returned (ev : Event) : bool :=
  match ev with
  | Ev_get_suite_if_exists _ r => returned r
  | Ev_get_scoring_method _ r => returned r
  | Ev_load_suite_from_args _ r => returned r
  | Ev_initialize_metadata r => returned r
  | Ev_create_test_suite_dir _ r => returned r
  | Ev_logger_info _ => true
  | Ev_load_run_data_from_args _ r => returned r
  | Ev_load_scoring_method _ r => returned r
  | Ev_create_run_dir _ _ r => returned r
  | Ev_run_batch _ r => returned r
  | Ev_logger_error _ => true
  | Ev_clean_up_run _ r => returned r
  | Ev_write_text _ _ r => returned r
  | Ev_TestRun_save _ r => returned r
  end.

(** The event is a call that creates, writes or deletes something in the
    persistence layer. *)
Definition touches_disk (ev : Event) : bool :=
  match ev with
  | Ev_create_test_suite_dir _ _ => true
  | Ev_create_run_dir _ _ _ => true
  | Ev_clean_up_run _ _ => true
  | Ev_write_text _ _ _ => true
  | Ev_TestRun_save _ _ => true
  | _ => false
  end.

(** What [_load_run_data_from_args] returned, when the trace starts with
    its call: the resolved candidate outputs and the resolved context. *)
Definition resolved (t : list Event)
  : option (list string * option (list string)) :=
  match t with
  | Ev_load_run_data_from_args _ (Returned data) :: _ => Some data
  | _ => None
  end.

Definition is_run_batch (ev : Event) : bool :=
  match ev with Ev_run_batch _ _ => true | _ => false end.

Definition is_create_dir (ev : Event) : bool :=
  match ev with
  | Ev_create_run_dir _ _ _ => true
  | Ev_create_test_suite_dir _ _ => true
  | _ => false
  end.

(** [run_batch] returned one score per candidate of the slice it was given,
    at every call of the trace that returned. *)
Definition one_score_per_element (t : list Event) : Prop :=
  Forall (fun cr => forall scores,
              snd cr = Returned scores ->
              length scores = length (call_candidates (fst cr)))
         (batch_events t).

(** A scoring method that applies one function to each index of the aligned
    slices it is given. *)
Definition per_index
  (f : option string -> string -> string -> option string -> Score)
  (c : batch_call) : list Score :=
  match c with
  | Call3 refs cands inputs =>
      map (fun x => f (fst x) (fst (snd x)) (snd (snd x)) None)
          (zip refs (zip cands inputs))
  | Call4 refs cands inputs context =>
      map (fun x => f (fst (fst x)) (fst (snd (fst x))) (snd (snd (fst x)))
                      (Some (snd x)))
          (zip (zip refs (zip cands inputs)) context)
  end.

(** Every [run_batch] call of the trace returned [per_index f] of its
    arguments. *)
Definition scored_per_index
  (f : option string -> string -> string -> option string -> Score)
  (t : list Event) : Prop :=
  Forall (fun cr => snd cr = Returned (per_index f (fst cr))) (batch_events t).

(** The score computed for index [i] when the chunks have [b] cases each:
    element [i mod b] of what the call for chunk [i / b] returned. *)
Definition chunk_score (returns : list (list Score)) (b i : nat)
  : option Score :=
  match nth_error returns (i / b) with
  | Some scores => nth_error scores (i mod b)
  | None => None
  end.

(** The chunks returned for [n] cases in chunks of [b]: each call returned
    as many scores as its chunk has cases. *)
Definition chunk_sized (b n : nat) (returns : list (list Score)) : Prop :=
  forall k scores,
    nth_error returns k = Some scores ->
    length scores = Nat.min b (n - k * b).

(** The [run_batch] calls of a trace, in order. *)
Definition batch_calls (t : list Event) : list batch_call :=
  map fst (batch_events t).

Definition is_clean_up (ev : Event) : bool :=
  match ev with Ev_clean_up_run _ _ => true | _ => false end.

Definition is_logger_error (ev : Event) : bool :=
  match ev with Ev_logger_error _ => true | _ => false end.

(** The event is a write of the suite file or of the run. *)
Definition is_save (ev : Event) : bool :=
  match ev with
  | Ev_write_text _ _ _ => true
  | Ev_TestRun_save _ _ => true
  | _ => false
  end.

(** The event is a [run_batch] call that raised. *)
Definition is_failed_batch (ev : Event) : bool :=
  match ev with Ev_run_batch _ (Raised _) => true | _ => false end.

(** The exception of a call made before the [try] (lines 112-130) that
    raised. *)
Definition early_failure (ev : Event) : option exn :=
  match ev with
  | Ev_load_run_data_from_args _ (Raised e) => Some e
  | Ev_load_scoring_method _ (Raised e) => Some e
  | Ev_create_run_dir _ _ (Raised e) => Some e
  | _ => None
  end.

(** The exception of a call made after the [try] (lines 160-175) that
    raised. *)
Definition late_failure (ev : Event) : option exn :=
  match ev with
  | Ev_initialize_metadata (Raised e) => Some e
  | Ev_write_text _ _ (Raised e) => Some e
  | Ev_TestRun_save _ (Raised e) => Some e
  | _ => None
  end.

End Traces.

(** [needle] occurs in [msg]. *)
Definition cites (msg needle : string) : Prop :=
  exists before after, msg = (before ++ needle ++ after)%string.

(* ===================================================================== *)
(** ** The paths through [run], as outcome and trace *)
(* ===================================================================== *)

Section Shapes.

Context {Score DataFrame Metadata ScoringMethod World : Type}.
Variable self : TestSuite Metadata.
Variable a : RunArgs DataFrame.
Variable json : TestSuiteRequest Metadata -> string.

Local Abbreviation Event := (event Score DataFrame Metadata ScoringMethod).
Local Abbreviation cases := (test_cases (self_suite self)).
Local Abbreviation batch_size := (arg_batch_size a).

(** The values of [i] the [for] loop goes through. *)
Definition chunk_starts : list Z :=
  match range 0 (Z.of_nat (length cases)) batch_size with
  | Returned indices => indices
  | Raised _ => []
  end.

(** The [run_batch] call for the chunk that starts at [i]. *)
Definition chunk_call (candidate_output_list : list string)
  (context_list : option (list string)) (i : Z) : batch_call :=
  batch_call_at candidate_output_list context_list batch_size i
    (map reference_output (slice cases i (i + batch_size)))
    (map input (slice cases i (i + batch_size))).

(** The one [run_batch] call that would take the whole suite at once. *)
Definition whole_suite_call (candidate_output_list : list string)
  (context_list : option (list string)) : batch_call :=
  match context_list with
  | Some context =>
      Call4 (map reference_output cases) candidate_output_list
            (map input cases) context
  | None =>
      Call3 (map reference_output cases) candidate_output_list
            (map input cases)
  end.

(** The sizes of the three slices every call is given. *)
Definition slice_sizes (c : batch_call) : nat * nat * nat :=
  (length (call_refs c), length (call_candidates c), length (call_inputs c)).

(** The events of chunks that were scored: one returned call each. *)
Definition completed (candidate_output_list : list string)
  (context_list : option (list string)) (starts : list Z)
  (returns : list (list Score)) : list Event :=
  map (fun ir => Ev_run_batch
                   (chunk_call candidate_output_list context_list (fst ir))
                   (Returned (snd ir)))
      (combine starts returns).

(** The [try] body: the range raises on a zero step; otherwise the chunks
    are scored in order until one raises. *)
Inductive loop_shape (C : list string) (ctx : option (list string))
  : outcome (list Score) -> list Event -> Prop :=
| Loop_zero_step :
    batch_size = 0%Z ->
    loop_shape C ctx
      (Raised (Exn ValueError "range() arg 3 must not be zero")) []
| Loop_completed returns :
    batch_size <> 0%Z ->
    length returns = length chunk_starts ->
    loop_shape C ctx (Returned (concat returns))
               (completed C ctx chunk_starts returns)
| Loop_failed scored i rest returns e :
    (0 < batch_size)%Z ->
    chunk_starts = scored ++ i :: rest ->
    length returns = length scored ->
    loop_shape C ctx (Raised e)
               (completed C ctx scored returns
                ++ [Ev_run_batch (chunk_call C ctx i) (Raised e)]).

Definition internal_error (cause : exn) : exn :=
  ExnFrom ArthurInternalError
          ("failed to create run " ++ arg_run_name a)%string cause.

Definition failure_record (cause : exn) : Event :=
  Ev_logger_error ("failed to create run: " ++ str cause)%string.

(** The [except Exception] clause, reached with [e]: the handler runs when
    [e] is an instance of [Exception]; any other exception goes on as it
    is. *)
Inductive handler_shape (e : exn)
  : option Path -> outcome (TestRun Score Metadata) -> list Event -> Prop :=
| Handler_nothing_reserved :
    is_Exception e = true ->
    handler_shape e None (Raised (internal_error e)) [failure_record e]
| Handler_cleaned_up dir :
    is_Exception e = true ->
    handler_shape e (Some dir) (Raised (internal_error e))
                  [failure_record e; Ev_clean_up_run dir (Returned tt)]
| Handler_clean_up_raised dir e' :
    is_Exception e = true ->
    handler_shape e (Some dir) (Raised e')
                  [failure_record e; Ev_clean_up_run dir (Raised e')]
| Handler_not_caught run_dir :
    is_Exception e = false ->
    handler_shape e run_dir (Raised e) [].

Definition suite_file : Path := path_div (self_test_suite_dir self) "suite.json".

(** Lines 160-177, entered with [all_scores]. *)
Inductive finish_shape (C : list string) (run_dir : option Path)
  (all_scores : list Score)
  : outcome (TestRun Score Metadata) -> list Event -> Prop :=
| Finish_metadata_raised e :
    finish_shape C run_dir all_scores (Raised e)
                 [Ev_initialize_metadata (Raised e)]
| Finish_not_saved md :
    arg_save a = false ->
    finish_shape C run_dir all_scores
      (Returned (assemble a (pair_outputs C all_scores) run_dir md))
      [Ev_initialize_metadata (Returned md)]
| Finish_suite_save_raised md e :
    arg_save a = true ->
    finish_shape C run_dir all_scores (Raised e)
      [Ev_initialize_metadata (Returned md);
       Ev_write_text suite_file (json (self_suite self)) (Raised e)]
| Finish_run_save_raised md e :
    arg_save a = true ->
    finish_shape C run_dir all_scores (Raised e)
      [Ev_initialize_metadata (Returned md);
       Ev_write_text suite_file (json (self_suite self)) (Returned tt);
       Ev_TestRun_save (assemble a (pair_outputs C all_scores) run_dir md)
                       (Raised e)]
| Finish_saved md :
    arg_save a = true ->
    finish_shape C run_dir all_scores
      (Returned (assemble a (pair_outputs C all_scores) run_dir md))
      [Ev_initialize_metadata (Returned md);
       Ev_write_text suite_file (json (self_suite self)) (Returned tt);
       Ev_TestRun_save (assemble a (pair_outputs C all_scores) run_dir md)
                       (Returned tt)].

(** The run directory is reserved exactly when [save] is set. *)
Definition reserved (run_dir : option Path) : Prop :=
  match run_dir with
  | Some _ => arg_save a = true
  | None => arg_save a = false
  end.

(** Lines 112-130 when nothing raises: the data is resolved, the scoring
    method loaded, and the run directory created if [save]. *)
Definition prologue (C : list string) (ctx : option (list string))
  (scoring : ScoringMethod) (run_dir : option Path) : list Event :=
  [Ev_load_run_data_from_args (run_data_args a) (Returned (C, ctx));
   Ev_load_scoring_method (scoring_method (self_suite self))
                          (Returned scoring)]
  ++ match run_dir with
     | Some dir => [Ev_create_run_dir (name (self_suite self))
                                      (arg_run_name a) (Returned dir)]
     | None => []
     end.

Inductive run_shape
  : outcome (TestRun Score Metadata) -> list Event -> Prop :=
| Run_load_raised e :
    run_shape (Raised e)
      [Ev_load_run_data_from_args (run_data_args a) (Raised e)]
| Run_count_mismatch C ctx :
    length C <> length cases ->
    run_shape
      (Raised (Exn UserValueError
                   (mismatch_message (length C) (length cases))))
      [Ev_load_run_data_from_args (run_data_args a) (Returned (C, ctx))]
| Run_scoring_method_raised C ctx e :
    length C = length cases ->
    run_shape (Raised e)
      [Ev_load_run_data_from_args (run_data_args a) (Returned (C, ctx));
       Ev_load_scoring_method (scoring_method (self_suite self)) (Raised e)]
| Run_create_dir_raised C ctx scoring e :
    length C = length cases ->
    arg_save a = true ->
    run_shape (Raised e)
      (prologue C ctx scoring None
       ++ [Ev_create_run_dir (name (self_suite self)) (arg_run_name a)
                             (Raised e)])
| Run_scoring_failed C ctx scoring run_dir e loop_events r handler_events :
    length C = length cases ->
    reserved run_dir ->
    loop_shape C ctx (Raised e) loop_events ->
    handler_shape e run_dir r handler_events ->
    run_shape r (prologue C ctx scoring run_dir
                 ++ loop_events ++ handler_events)
| Run_scored C ctx scoring run_dir all_scores loop_events r finish_events :
    length C = length cases ->
    reserved run_dir ->
    loop_shape C ctx (Returned all_scores) loop_events ->
    finish_shape C run_dir all_scores r finish_events ->
    run_shape r (prologue C ctx scoring run_dir
                 ++ loop_events ++ finish_events).

End Shapes.

(* ===================================================================== *)
(** ** An in-memory persistence layer and three scoring methods

    Concrete collaborators, on which the statements below are exercised. *)
(* ===================================================================== *)

Module InMemory.

Definition Score : Type := Z.

(** A dataframe: its columns, by name. *)
Definition DataFrame : Type := list (string * list string).

(** The metadata dict: the tick of the clock it was stamped at. *)
Definition Metadata : Type := nat.

(** The scoring methods [load_scoring_method] can return. *)
Inductive Scorer : Type :=
| ExactMatch
| FailsOn (bad_candidate : string)
| DropsLast.

Record World : Type := {
  dirs : list Path;
  files : list (Path * string);
  csvs : list (string * DataFrame);
  suites : list (string * TestSuiteRequest Metadata);
  clock : nat
}.

Definition Act (R : Type) : Type := action World R.

Fixpoint lookup {V : Type} (key : string) (m : list (string * V)) : option V :=
  match m with
  | [] => None
  | (k, v) :: rest => if String.eqb key k then Some v else lookup key rest
  end.

Definition path_eqb (p q : Path) : bool :=
  if list_eq_dec string_dec p q then true else false.

Fixpoint is_prefix (p q : Path) : bool :=
  match p, q with
  | [], _ => true
  | x :: p', y :: q' => String.eqb x y && is_prefix p' q'
  | _ :: _, [] => false
  end.

Definition root : Path := ["bench"%string].

Definition get_suite_if_exists (suite_name : string)
  : Act (option (TestSuiteRequest Metadata)) :=
  fun w => (Returned (lookup suite_name (suites w)), w).

Definition get_scoring_method (m : ScoringEnum + string) : Act ScoringEnum :=
  fun w =>
    match m with
    | inl e => (Returned e, w)
    | inr s =>
        if String.eqb s "qa_correctness" then (Returned QACorrectness, w)
        else if String.eqb s "exact_match" then
               (Returned (OtherScoring s), w)
        else (Raised (Exn UserInputError "unknown scoring method"), w)
    end.

(** Modelled from the spec: the test cases of parallel lists of inputs and
    references (section 4.1, form (c)), part of [_load_suite_from_args],
    which is not among the sources.  Without references the cases have no
    reference output. *)
Definition cases_of_columns (inputs : list string)
  (references : option (list string)) : list TestCase :=
  match references with
  | Some refs =>
      map (fun x => {| input := fst x; reference_output := Some (snd x) |})
          (zip inputs refs)
  | None => map (fun i => {| input := i; reference_output := None |}) inputs
  end.

(** Modelled from the spec: the test cases of a tabular source with named
    input and reference columns (section 4.1, form (a)), part of
    [_load_suite_from_args], which is not among the sources.  A reference
    column of [None] gives cases without reference output. *)
Definition cases_of_dataframe (df : DataFrame) (input_column : string)
  (reference_column : option string) : outcome (list TestCase) :=
  match lookup input_column df with
  | None => Raised (Exn UserInputError "no input column")
  | Some inputs =>
      match reference_column with
      | None => Returned (cases_of_columns inputs None)
      | Some rc =>
          match lookup rc df with
          | None => Raised (Exn UserInputError "no reference column")
          | Some refs => Returned (cases_of_columns inputs (Some refs))
          end
      end
  end.

(** Modelled from the spec: [_load_suite_from_args] of
    [arthur_bench.run.utils], which is not among the sources.  Section 4.1:
    the test cases come from (a) a tabular source with named input and
    reference columns, (b) a path to such a table, or (c) explicit parallel
    lists of input strings and reference strings; the first usable source
    wins (section 9), and with none the call fails with a user input error.
    Section 4.1 again: for a scoring method that does not require reference
    outputs, the reference column and the reference list are ignored even if
    supplied.  The loader is not told the scoring method: [__init__] tells
    it by [reference_column=None] (line 54), so a reference column of [None]
    gives cases without reference output, from a table and from lists
    alike. *)
Definition load_suite_from_args (a : SuiteDataArgs DataFrame)
  : Act (list TestCase) :=
  fun w =>
    match sd_reference_data a, sd_reference_data_path a,
          sd_input_text_list a with
    | Some df, _, _ =>
        (cases_of_dataframe df (sd_input_column a) (sd_reference_column a), w)
    | None, Some path, _ =>
        match lookup path (csvs w) with
        | Some df =>
            (cases_of_dataframe df (sd_input_column a)
                                (sd_reference_column a), w)
        | None => (Raised (Exn (OtherError "FileNotFoundError") path), w)
        end
    | None, None, Some inputs =>
        (Returned (cases_of_columns
                     inputs
                     match sd_reference_column a with
                     | Some _ => sd_reference_output_list a
                     | None => None
                     end), w)
    | None, None, None =>
        (Raised (Exn UserInputError "invalid or missing reference data"), w)
    end.

Definition initialize_metadata : Act Metadata :=
  fun w => (Returned (clock w),
            {| dirs := dirs w; files := files w; csvs := csvs w;
               suites := suites w; clock := S (clock w) |}).

Definition add_dir (d : Path) (w : World) : World :=
  {| dirs := d :: dirs w; files := files w; csvs := csvs w;
     suites := suites w; clock := clock w |}.

Definition create_test_suite_dir (suite_name : string) : Act Path :=
  fun w => (Returned (root ++ [suite_name]), add_dir (root ++ [suite_name]) w).

Definition test_suite_dir (suite_name : string) (w : World) : Path :=
  root ++ [suite_name].

Definition load_run_data_from_args (a : RunDataArgs DataFrame)
  : Act (list string * option (list string)) :=
  fun w =>
    let of_dataframe (df : DataFrame) :=
      match lookup (rd_candidate_column a) df with
      | None => Raised (Exn UserInputError "no candidate column")
      | Some cands =>
          Returned (cands,
                    match rd_context_column a with
                    | Some cc => lookup cc df
                    | None => None
                    end)
      end in
    match rd_candidate_data a, rd_candidate_data_path a,
          rd_candidate_output_list a with
    | Some df, _, _ => (of_dataframe df, w)
    | None, Some path, _ =>
        match lookup path (csvs w) with
        | Some df => (of_dataframe df, w)
        | None => (Raised (Exn (OtherError "FileNotFoundError") path), w)
        end
    | None, None, Some cands => (Returned (cands, rd_context_list a), w)
    | None, None, None =>
        (Raised (Exn UserInputError "invalid or missing candidate data"), w)
    end.

Definition load_scoring (m : ScoringEnum) : Act Scorer :=
  fun w =>
    match m with
    | QACorrectness => (Returned ExactMatch, w)
    | OtherScoring s =>
        if String.eqb s "exact_match" then (Returned ExactMatch, w)
        else if String.eqb s "fails_on_boom" then
               (Returned (FailsOn "boom"), w)
        else if String.eqb s "drops_last" then (Returned DropsLast, w)
        else (Raised (Exn UserInputError "unknown scoring method"), w)
    end.

(** Exact match of the candidate with the reference: 1 or 0. *)
Definition exact_match (reference : option string) (candidate input : string)
  (context : option string) : Score :=
  match reference with
  | Some r => if String.eqb r candidate then 1%Z else 0%Z
  | None => 0%Z
  end.

Definition scorer_run_batch (s : Scorer) (c : batch_call) : Act (list Score) :=
  fun w =>
    match s with
    | ExactMatch => (Returned (per_index exact_match c), w)
    | FailsOn bad =>
        if existsb (String.eqb bad) (call_candidates c) then
          (Raised (Exn (OtherError "RuntimeError") "scoring backend failed"),
           w)
        else (Returned (per_index exact_match c), w)
    | DropsLast => (Returned (removelast (per_index exact_match c)), w)
    end.

Definition create_run_dir (suite_name run : string) : Act Path :=
  fun w =>
    let d := root ++ [suite_name; run] in
    if existsb (path_eqb d) (dirs w) then
      (Raised (Exn UserValueError "run already exists"), w)
    else (Returned d, add_dir d w).

Definition clean_up_run (d : Path) : Act unit :=
  fun w =>
    (Returned tt,
     {| dirs := filter (fun p => negb (is_prefix d p)) (dirs w);
        files := filter (fun f => negb (is_prefix d (fst f))) (files w);
        csvs := csvs w; suites := suites w; clock := clock w |}).

Definition json_of_suite (s : TestSuiteRequest Metadata) : string :=
  ("{suite " ++ name s ++ "}")%string.

Definition write_file (file : Path) (content : string) : Act unit :=
  fun w =>
    (Returned tt,
     {| dirs := dirs w; files := (file, content) :: files w;
        csvs := csvs w; suites := suites w; clock := clock w |}).

Definition save_run (r : TestRun Score Metadata) : Act unit :=
  fun w =>
    match run_dir r with
    | Some d =>
        write_file (path_div d "run.json") ("{run " ++ run_name r ++ "}") w
    | None => (Raised (Exn (OtherError "TypeError") "no run directory"), w)
    end.

Definition env : Collaborators Score DataFrame Metadata Scorer World :=
  {| _get_suite_if_exists := get_suite_if_exists;
     _get_scoring_method := get_scoring_method;
     _load_suite_from_args := load_suite_from_args;
     _initialize_metadata := initialize_metadata;
     _create_test_suite_dir := create_test_suite_dir;
     _test_suite_dir := test_suite_dir;
     _load_run_data_from_args := load_run_data_from_args;
     load_scoring_method := load_scoring;
     run_batch := scorer_run_batch;
     _create_run_dir := create_run_dir;
     _clean_up_run := clean_up_run;
     suite_json := json_of_suite;
     write_text := write_file;
     TestRun_save := save_run |}.

(** The example of section 8: two arithmetic questions. *)
Definition arithmetic_cases : list TestCase :=
  [ {| input := "2+2?"; reference_output := Some "4"%string |};
    {| input := "3+3?"; reference_output := Some "6"%string |} ].

Definition suite_scored_by (method : string) (cases : list TestCase)
  : TestSuite Metadata :=
  {| self_id := None;
     self_suite := {| name := "arith"; scoring_method := OtherScoring method;
                      description := None; test_cases := cases;
                      suite_metadata := 0 |};
     self_test_suite_dir := root ++ ["arith"%string] |}.

Definition arithmetic : TestSuite Metadata :=
  suite_scored_by "exact_match" arithmetic_cases.

Definition empty_world : World :=
  {| dirs := [root ++ ["arith"%string]]; files := []; csvs := [];
     suites := []; clock := 1 |}.

(** [run(run_name, candidate_output_list=..., context_list=..., save=...,
    batch_size=...)], everything else at its default. *)
Definition run_args (run : string) (candidates : list string)
  (context : option (list string)) (save : bool) (batch_size : Z)
  : RunArgs DataFrame :=
  {| arg_run_name := run;
     arg_candidate_data := None;
     arg_candidate_data_path := None;
     arg_candidate_column := "candidate_output";
     arg_candidate_output_list := Some candidates;
     arg_context_column := None;
     arg_context_list := context;
     arg_save := save;
     arg_batch_size := batch_size;
     arg_model_name := None;
     arg_model_version := None;
     arg_foundation_model := None;
     arg_prompt_template := None |}.

(** [TestSuite(name, scoring_method, input_text_list=...,
    reference_output_list=...)], everything else at its default. *)
Definition init_args (suite_name : string) (method : ScoringEnum + string)
  (inputs references : option (list string)) : InitArgs DataFrame :=
  {| init_name := suite_name;
     init_scoring_method := method;
     init_description := None;
     init_reference_data := None;
     init_reference_data_path := None;
     init_input_column := "input";
     init_reference_column := "reference_output";
     init_input_text_list := inputs;
     init_reference_output_list := references |}.

(** A world in which the suite [arithmetic] is already persisted. *)
Definition persisted_world : World :=
  {| dirs := [root ++ ["arith"%string]];
     files := [(root ++ ["arith"; "suite.json"]%string,
                json_of_suite (self_suite arithmetic))];
     csvs := [];
     suites := [("arith"%string, self_suite arithmetic)];
     clock := 1 |}.

(** A table with an input and a reference column. *)
Definition qa_table : DataFrame :=
  [("input"%string, ["capital of France?"%string]);
   ("reference_output"%string, ["Paris"%string])].

(** [TestSuite(name, scoring_method, reference_data=...)], everything else
    at its default. *)
Definition init_args_of_table (suite_name : string)
  (method : ScoringEnum + string) (table : DataFrame) : InitArgs DataFrame :=
  {| init_name := suite_name;
     init_scoring_method := method;
     init_description := None;
     init_reference_data := Some table;
     init_reference_data_path := None;
     init_input_column := "input";
     init_reference_column := "reference_output";
     init_input_text_list := None;
     init_reference_output_list := None |}.

(** A suite of [n] cases, its candidates and its context, numbered from 0. *)
Definition numbered (prefix : string) (n : nat) : list string :=
  map (fun k => (prefix ++ str_of_nat k)%string) (seq 0 n).

Definition numbered_cases (n : nat) : list TestCase :=
  map (fun k => {| input := ("q" ++ str_of_nat k)%string;
                   reference_output := Some ("a" ++ str_of_nat k)%string |})
      (seq 0 n).

(** A disk on which nothing can be written or deleted any more: the suite
    file cannot be written and a run directory cannot be removed. *)
Definition failing_clean_up (d : Path) : Act unit :=
  fun w => (Raised (Exn (OtherError "PermissionError") "cannot delete"), w).

Definition failing_write (file : Path) (content : string) : Act unit :=
  fun w => (Raised (Exn (OtherError "OSError") "no space left on device"), w).

Definition full_disk_env : Collaborators Score DataFrame Metadata Scorer World :=
  {| _get_suite_if_exists := get_suite_if_exists;
     _get_scoring_method := get_scoring_method;
     _load_suite_from_args := load_suite_from_args;
     _initialize_metadata := initialize_metadata;
     _create_test_suite_dir := create_test_suite_dir;
     _test_suite_dir := test_suite_dir;
     _load_run_data_from_args := load_run_data_from_args;
     load_scoring_method := load_scoring;
     run_batch := scorer_run_batch;
     _create_run_dir := create_run_dir;
     _clean_up_run := failing_clean_up;
     suite_json := json_of_suite;
     write_text := failing_write;
     TestRun_save := save_run |}.

(** A world in which the run "r1" of the suite "arith" already exists. *)
Definition world_with_run : World :=
  {| dirs := [root ++ ["arith"; "r1"]%string; root ++ ["arith"%string]];
     files := []; csvs := []; suites := []; clock := 1 |}.

(** [run(run_name)] with no candidate data at all. *)
Definition run_args_without_data (run : string) : RunArgs DataFrame :=
  {| arg_run_name := run;
     arg_candidate_data := None;
     arg_candidate_data_path := None;
     arg_candidate_column := "candidate_output";
     arg_candidate_output_list := None;
     arg_context_column := None;
     arg_context_list := None;
     arg_save := true;
     arg_batch_size := DEFAULT_BATCH_SIZE;
     arg_model_name := None;
     arg_model_version := None;
     arg_foundation_model := None;
     arg_prompt_template := None |}.

(** [run(run_name, candidate_output_list=..., model_name=..., ...)] with
    the provenance of the candidates and the default [batch_size]. *)
Definition run_args_with_provenance (run : string) (candidates : list string)
  (save : bool) (model version foundation template : option string)
  : RunArgs DataFrame :=
  {| arg_run_name := run;
     arg_candidate_data := None;
     arg_candidate_data_path := None;
     arg_candidate_column := "candidate_output";
     arg_candidate_output_list := Some candidates;
     arg_context_column := None;
     arg_context_list := None;
     arg_save := save;
     arg_batch_size := DEFAULT_BATCH_SIZE;
     arg_model_name := model;
     arg_model_version := version;
     arg_foundation_model := foundation;
     arg_prompt_template := template |}.

(** A scoring backend that returns one score too many per call: the scores
    of [scorer_run_batch], and a 0 after them. *)
Definition padded_run_batch (s : Scorer) (c : batch_call) : Act (list Score) :=
  fun w =>
    match scorer_run_batch s c w with
    | (Returned scores, w') => (Returned (scores ++ [0%Z]), w')
    | (Raised e, w') => (Raised e, w')
    end.

Definition padding_env : Collaborators Score DataFrame Metadata Scorer World :=
  {| _get_suite_if_exists := get_suite_if_exists;
     _get_scoring_method := get_scoring_method;
     _load_suite_from_args := load_suite_from_args;
     _initialize_metadata := initialize_metadata;
     _create_test_suite_dir := create_test_suite_dir;
     _test_suite_dir := test_suite_dir;
     _load_run_data_from_args := load_run_data_from_args;
     load_scoring_method := load_scoring;
     run_batch := padded_run_batch;
     _create_run_dir := create_run_dir;
     _clean_up_run := clean_up_run;
     suite_json := json_of_suite;
     write_text := write_file;
     TestRun_save := save_run |}.

(** A scoring backend that is interrupted: every [run_batch] call raises
    [KeyboardInterrupt]. *)
Definition interrupted_run_batch (s : Scorer) (c : batch_call)
  : Act (list Score) :=
  fun w => (Raised (Exn KeyboardInterrupt "interrupted"), w).

Definition interrupted_env
  : Collaborators Score DataFrame Metadata Scorer World :=
  {| _get_suite_if_exists := get_suite_if_exists;
     _get_scoring_method := get_scoring_method;
     _load_suite_from_args := load_suite_from_args;
     _initialize_metadata := initialize_metadata;
     _create_test_suite_dir := create_test_suite_dir;
     _test_suite_dir := test_suite_dir;
     _load_run_data_from_args := load_run_data_from_args;
     load_scoring_method := load_scoring;
     run_batch := interrupted_run_batch;
     _create_run_dir := create_run_dir;
     _clean_up_run := clean_up_run;
     suite_json := json_of_suite;
     write_text := write_file;
     TestRun_save := save_run |}.

End InMemory.

(* ===================================================================== *)
(** ** Ranges and slices *)
(* ===================================================================== *)

Lemma firstn_length_cap {A} (b : nat) (l : list A) :
  firstn (Nat.min b (length l)) l = firstn b l.
Proof.
  destruct (Nat.le_gt_cases b (length l)) as [Hle | Hgt].
  - now rewrite Nat.min_l.
  - rewrite Nat.min_r by lia.
    now rewrite firstn_all, firstn_all2 by lia.
Qed.

(** A slice that starts inside the non-negative indices and is [b] long. *)
Lemma slice_chunk {A} (l : list A) (i b : nat) :
  0 < b ->
  slice l (Z.of_nat i) (Z.of_nat i + Z.of_nat b) = firstn b (skipn i l).
Proof.
  intros Hb. unfold slice, adjust_index.
  destruct (Z.ltb_spec (Z.of_nat i) 0); [lia|].
  destruct (Z.ltb_spec (Z.of_nat i + Z.of_nat b) 0); [lia|].
  destruct (Nat.le_gt_cases (length l) i) as [Hout | Hin].
  - rewrite (skipn_all2 l Hout).
    replace (Z.to_nat (Z.min (Z.of_nat i) (Z.of_nat (length l))))
      with (length l) by lia.
    now rewrite skipn_all, !firstn_nil.
  - replace (Z.to_nat (Z.min (Z.of_nat i) (Z.of_nat (length l))))
      with i by lia.
    replace (Z.to_nat (Z.min (Z.of_nat i + Z.of_nat b) (Z.of_nat (length l)))
             - i)
      with (Nat.min b (length (skipn i l)))
      by (rewrite length_skipn; lia).
    apply firstn_length_cap.
Qed.

Lemma firstn_add {A} (b c : nat) (l : list A) :
  firstn (b + c) l = firstn b l ++ firstn c (skipn b l).
Proof.
  revert l. induction b as [|b IH]; intros l; [reflexivity|].
  destruct l as [|x l]; simpl.
  - now rewrite firstn_nil.
  - now rewrite IH.
Qed.

(** Consecutive chunks of [b] elements, put end to end, are a prefix. *)
Lemma concat_chunks {A} (l : list A) (b m j : nat) :
  concat (map (fun k => firstn b (skipn (k * b) l)) (seq j m))
  = firstn (m * b) (skipn (j * b) l).
Proof.
  revert j. induction m as [|m IH]; intros j; [reflexivity|].
  simpl seq. simpl map. simpl concat. rewrite IH.
  replace (S m * b) with (b + m * b) by lia.
  rewrite firstn_add, skipn_skipn.
  do 2 f_equal; lia.
Qed.

Lemma combine_skipn {A B} (n : nat) (xs : list A) (ys : list B) :
  combine (skipn n xs) (skipn n ys) = skipn n (combine xs ys).
Proof.
  revert xs ys. induction n as [|n IH]; intros xs ys; [reflexivity|].
  destruct xs as [|x xs]; [reflexivity|].
  destruct ys as [|y ys]; simpl.
  - apply combine_nil.
  - apply IH.
Qed.

Lemma combine_chunk {A B} (b i : nat) (xs : list A) (ys : list B) :
  combine (firstn b (skipn i xs)) (firstn b (skipn i ys))
  = firstn b (skipn i (combine xs ys)).
Proof. now rewrite <- combine_skipn, combine_firstn. Qed.

Lemma range_zero_step (lo hi : Z) :
  range lo hi 0 = Raised (Exn ValueError "range() arg 3 must not be zero").
Proof. reflexivity. Qed.

Lemma range_negative_step (n : nat) (step : Z) :
  (step < 0)%Z -> range 0 (Z.of_nat n) step = Returned [].
Proof.
  intros H. unfold range, range_length.
  destruct (Z.eqb_spec step 0); [lia|].
  destruct (Z.ltb_spec 0 step); [lia|].
  destruct (Z.ltb_spec (Z.of_nat n) 0); [lia|]. reflexivity.
Qed.

(** The number of chunks of [b] that cover [n] cases. *)
Lemma range_length_chunks (n b : nat) :
  0 < b ->
  let m := range_length 0 (Z.of_nat n) (Z.of_nat b) in
  n <= m * b /\ (forall k, k < m -> k * b < n).
Proof.
  intros Hb m. unfold range_length in m.
  destruct (Z.ltb_spec 0 (Z.of_nat b)); [|lia].
  destruct (Z.ltb_spec 0 (Z.of_nat n)) as [Hn | Hn]; subst m.
  - pose proof (Z.div_mod (Z.of_nat n - 1 - 0) (Z.of_nat b) ltac:(lia)) as Hd.
    pose proof (Z.mod_pos_bound (Z.of_nat n - 1 - 0) (Z.of_nat b) ltac:(lia))
      as Hm.
    assert (Hq : (0 <= (Z.of_nat n - 1 - 0) / Z.of_nat b)%Z)
      by (apply Z.div_pos; lia).
    destruct (Z_of_nat_complete _ Hq) as [q Hq'].
    rewrite Hq' in *.
    replace (Z.to_nat (1 + Z.of_nat q)) with (S q) by lia.
    split.
    + nia.
    + intros k Hk. nia.
  - split; [lia | intros k Hk; lia].
Qed.

Lemma range_positive_step (n b : nat) :
  0 < b ->
  range 0 (Z.of_nat n) (Z.of_nat b)
  = Returned (map (fun k => Z.of_nat (k * b))
                  (seq 0 (range_length 0 (Z.of_nat n) (Z.of_nat b)))).
Proof.
  intros Hb. unfold range.
  destruct (Z.eqb_spec (Z.of_nat b) 0); [lia|].
  f_equal. apply map_ext. intros k. lia.
Qed.

(* ===================================================================== *)
(** ** What [run] does, path by path *)
(* ===================================================================== *)

Section RunPaths.

Context {Score DataFrame Metadata ScoringMethod World : Type}.
Variable env : Collaborators Score DataFrame Metadata ScoringMethod World.
Variable self : TestSuite Metadata.
Variable a : RunArgs DataFrame.

Local Abbreviation State := (state Score DataFrame Metadata ScoringMethod World).
Local Abbreviation cases := (test_cases (self_suite self)).
Local Abbreviation batch_size := (arg_batch_size a).

Lemma split_cases (l : list TestCase) :
  split (map (fun case => (input case, reference_output case)) l)
  = (map input l, map reference_output l).
Proof.
  induction l as [|c l IH]; [reflexivity|].
  simpl. now rewrite IH.
Qed.

(** One turn of the loop on a non-empty chunk is one call of [run_batch]. *)
Lemma score_batch_call scoring C ctx (i : Z) acc (st : State) :
  slice cases i (i + batch_size) <> [] ->
  score_batch env self scoring C ctx batch_size i acc st
  = (match fst (run_batch env scoring (chunk_call self a C ctx i) (world st))
     with
     | Returned scores => Returned (acc ++ scores)
     | Raised e => Raised e
     end,
     {| world := snd (run_batch env scoring (chunk_call self a C ctx i)
                                (world st));
        trace := trace st
                 ++ [Ev_run_batch
                       (chunk_call self a C ctx i)
                       (fst (run_batch env scoring
                                       (chunk_call self a C ctx i)
                                       (world st)))] |}).
Proof.
  intros Hne. unfold score_batch, chunk_call, bind, lift, unpack_zip_star.
  destruct (slice cases i (i + batch_size)) as [|c l] eqn:Hs; [easy|].
  change (map (fun case => (input case, reference_output case)) (c :: l))
    with ((input c, reference_output c)
          :: map (fun case => (input case, reference_output case)) l).
  cbv iota.
  change ((input c, reference_output c)
          :: map (fun case => (input case, reference_output case)) l)
    with (map (fun case => (input case, reference_output case)) (c :: l)).
  rewrite split_cases. unfold call.
  destruct (run_batch env scoring _ (world st)) as [[scores | e] w'];
    reflexivity.
Qed.

Lemma chunk_starts_positive (b : nat) :
  batch_size = Z.of_nat b -> 0 < b ->
  chunk_starts self a
  = map (fun k => Z.of_nat (k * b))
        (seq 0 (range_length 0 (Z.of_nat (length cases)) (Z.of_nat b))).
Proof.
  intros Hbs Hb. unfold chunk_starts. rewrite Hbs.
  now rewrite range_positive_step.
Qed.

(** With a positive batch size every chunk of the loop has a case in it, so
    the unpacking of [zip] never raises. *)
Lemma chunk_nonempty (i : Z) :
  (0 < batch_size)%Z -> In i (chunk_starts self a) ->
  slice cases i (i + batch_size) <> [].
Proof.
  intros Hpos Hin.
  assert (Hb : batch_size = Z.of_nat (Z.to_nat batch_size)) by lia.
  rewrite (chunk_starts_positive Hb ltac:(lia)) in Hin.
  apply in_map_iff in Hin. destruct Hin as [k [<- Hk]].
  apply in_seq in Hk.
  destruct (@range_length_chunks (length cases) (Z.to_nat batch_size)
              ltac:(lia)) as [_ Hlt].
  specialize (Hlt k ltac:(lia)).
  rewrite Hb, slice_chunk by lia.
  intros Hnil. apply (f_equal (@length _)) in Hnil.
  rewrite length_firstn, length_skipn in Hnil. simpl in Hnil. lia.
Qed.

(** The loop, when every chunk is scored. *)
Lemma loop_returned scoring C ctx (starts : list Z) :
  (forall i, In i starts -> slice cases i (i + batch_size) <> []) ->
  forall acc (st st' : State) all_scores,
    for_each starts
             (score_batch env self scoring C ctx batch_size) acc st
    = (Returned all_scores, st') ->
    exists returns,
      length returns = length starts /\
      all_scores = acc ++ concat returns /\
      trace st' = trace st ++ completed self a C ctx starts returns.
Proof.
  induction starts as [|i starts IH]; intros Hne acc st st' all_scores Hrun.
  - inversion Hrun; subst. exists []. simpl.
    now rewrite !app_nil_r.
  - simpl in Hrun. unfold bind in Hrun.
    rewrite score_batch_call in Hrun by (apply Hne; now left).
    destruct (run_batch env scoring (chunk_call self a C ctx i) (world st))
      as [[scores | e] w'] eqn:Hcall; simpl in Hrun; [|discriminate].
    apply IH in Hrun; [|intros j Hj; apply Hne; now right].
    destruct Hrun as [returns [Hlen [Hall Htrace]]].
    exists (scores :: returns). simpl in *.
    repeat split.
    + now rewrite Hlen.
    + now rewrite Hall, <- app_assoc.
    + rewrite Htrace, <- app_assoc. reflexivity.
Qed.

(** The loop, when a chunk makes [run_batch] raise. *)
Lemma loop_raised scoring C ctx (starts : list Z) :
  (forall i, In i starts -> slice cases i (i + batch_size) <> []) ->
  forall acc (st st' : State) e,
    for_each starts
             (score_batch env self scoring C ctx batch_size) acc st
    = (Raised e, st') ->
    exists scored i rest returns,
      starts = scored ++ i :: rest /\
      length returns = length scored /\
      trace st' = trace st ++ completed self a C ctx scored returns
                  ++ [Ev_run_batch (chunk_call self a C ctx i) (Raised e)].
Proof.
  induction starts as [|i starts IH]; intros Hne acc st st' e Hrun.
  - discriminate.
  - simpl in Hrun. unfold bind in Hrun.
    rewrite score_batch_call in Hrun by (apply Hne; now left).
    destruct (run_batch env scoring (chunk_call self a C ctx i) (world st))
      as [[scores | e0] w'] eqn:Hcall; simpl in Hrun.
    + apply IH in Hrun; [|intros j Hj; apply Hne; now right].
      destruct Hrun as [scored [j [rest [returns [Hs [Hlen Htrace]]]]]].
      exists (i :: scored), j, rest, (scores :: returns). simpl in *.
      repeat split.
      * now rewrite Hs.
      * now rewrite Hlen.
      * rewrite Htrace, <- app_assoc. reflexivity.
    + inversion Hrun; subst.
      exists [], i, starts, []. simpl. repeat split.
Qed.

(** The [try] body follows [loop_shape]. *)
Lemma score_all_shape scoring C ctx (st st' : State) r :
  score_all env self scoring C ctx batch_size st = (r, st') ->
  exists events,
    trace st' = trace st ++ events /\ loop_shape self a C ctx r events.
Proof.
  unfold score_all, bind, lift. intros Hrun.
  destruct (Z.lt_trichotomy batch_size 0) as [Hneg | [Hzero | Hpos]].
  - assert (Hstarts : chunk_starts self a = []).
    { unfold chunk_starts. now rewrite range_negative_step. }
    rewrite range_negative_step in Hrun by assumption.
    simpl in Hrun. inversion Hrun; subst.
    exists []. rewrite app_nil_r. split; [reflexivity|].
    pose proof (@Loop_completed Score DataFrame Metadata ScoringMethod
                  self a C ctx [] ltac:(lia)) as Hshape.
    rewrite Hstarts in Hshape. exact (Hshape eq_refl).
  - rewrite Hzero in Hrun. simpl in Hrun. inversion Hrun; subst.
    exists []. rewrite app_nil_r. split; [reflexivity|].
    now apply Loop_zero_step.
  - pose proof (@chunk_nonempty) as Hne.
    assert (Hidx : range 0 (Z.of_nat (length cases)) batch_size
                   = Returned (chunk_starts self a)).
    { unfold chunk_starts.
      replace batch_size with (Z.of_nat (Z.to_nat batch_size)) by lia.
      now rewrite range_positive_step by lia. }
    rewrite Hidx in Hrun.
    destruct r as [all_scores | e].
    + apply loop_returned in Hrun; [|intros i Hi; now apply Hne].
      destruct Hrun as [returns [Hlen [Hall Htrace]]].
      exists (completed self a C ctx (chunk_starts self a) returns).
      split; [assumption|]. subst all_scores. simpl.
      apply Loop_completed; [lia | assumption].
    + apply loop_raised in Hrun; [|intros i Hi; now apply Hne].
      destruct Hrun as [scored [i [rest [returns [Hs [Hlen Htrace]]]]]].
      eexists. split; [eassumption|].
      now apply Loop_failed with (rest := rest).
Qed.

(** The [except] handler follows [handler_shape]; it never returns. *)
Lemma on_failure_shape run_dir e (st st' : State) r :
  is_Exception e = true ->
  on_failure env (arg_run_name a) run_dir e st = (r, st') ->
  exists e' events,
    r = Raised e' /\
    trace st' = trace st ++ events /\
    handler_shape a e run_dir (Raised e') events.
Proof.
  intros Hcaught.
  unfold on_failure, bind, log, raise, call, ret. simpl.
  destruct run_dir as [dir|]; simpl.
  - destruct (_clean_up_run env dir (world st)) as [[[] | e'] w'];
      intros Hrun; inversion Hrun; subst; simpl;
      do 2 eexists; (split; [reflexivity|]);
      rewrite <- app_assoc; (split; [reflexivity|]); now constructor.
  - intros Hrun; inversion Hrun; subst; simpl.
    do 2 eexists; (split; [reflexivity|]); (split; [reflexivity|]).
    now constructor.
Qed.

(** Lines 160-177 follow [finish_shape]. *)
Lemma finish_events_shape C run_dir all_scores (st st' : State) r :
  (metadata <- call Ev_initialize_metadata (_initialize_metadata env) ;;
   let run := assemble a (pair_outputs C all_scores) run_dir metadata in
   (if arg_save a then
      save env self ;;
      call (Ev_TestRun_save run) (TestRun_save env run)
    else ret tt) ;;
   ret run)%py st = (r, st') ->
  exists events,
    trace st' = trace st ++ events /\
    finish_shape self a (suite_json env) C run_dir all_scores r events.
Proof.
  unfold bind, call, save, ret. simpl.
  destruct (_initialize_metadata env (world st)) as [[md | e] w1]; simpl.
  - destruct (arg_save a) eqn:Hsave; unfold call; simpl.
    + match goal with
      | |- context [write_text env ?f ?c w1] =>
          destruct (write_text env f c w1) as [[[] | e] w2]; simpl
      end.
      * match goal with
        | |- context [TestRun_save env ?t w2] =>
            destruct (TestRun_save env t w2) as [[[] | e] w3]; simpl
        end;
          intros Hrun; inversion Hrun; subst; simpl;
          eexists; rewrite <- !app_assoc; (split; [reflexivity|]);
          now constructor.
      * intros Hrun; inversion Hrun; subst; simpl.
        eexists; rewrite <- !app_assoc; (split; [reflexivity|]).
        now constructor.
    + intros Hrun; inversion Hrun; subst; simpl.
      eexists; (split; [reflexivity|]). now constructor.
  - intros Hrun; inversion Hrun; subst; simpl.
    eexists; (split; [reflexivity|]). constructor.
Qed.

(** Every invocation of [run] follows one of the paths of [run_shape]. *)
Lemma run_sound (w : World) r (st' : State) :
  run env self a (start w) = (r, st') ->
  run_shape self a (suite_json env) r (trace st').
Proof.
  unfold run. unfold bind at 1. unfold call at 1. simpl.
  destruct (_load_run_data_from_args env (run_data_args a) w)
    as [[[C ctx] | e] w1]; simpl.
  2:{ intros Hrun; inversion Hrun; subst. constructor. }
  destruct (Nat.eqb_spec (length C) (length cases)) as [Hlen | Hlen]; simpl.
  2:{ unfold raise. intros Hrun; inversion Hrun; subst. now constructor. }
  unfold bind at 1. unfold call at 1. simpl.
  destruct (load_scoring_method env _ w1) as [[scoring | e] w2]; simpl.
  2:{ intros Hrun; inversion Hrun; subst. now constructor. }
  unfold bind at 1.
  set (st2 := {| world := w2; trace := _ |}).
  destruct ((if arg_save a
             then (dir <- call (Ev_create_run_dir (name (self_suite self))
                                                  (arg_run_name a))
                              (_create_run_dir env (name (self_suite self))
                                               (arg_run_name a)) ;;
                   ret (Some dir))%py
             else ret None) st2) as [[run_dir | e] st3] eqn:Hdir.
  2:{ intros Hrun; inversion Hrun; subst.
      destruct (arg_save a) eqn:Hsave; [|discriminate].
      unfold bind, call, ret in Hdir. simpl in Hdir.
      destruct (_create_run_dir env _ _ w2) as [[d | e'] w3];
        inversion Hdir; subst; simpl.
      now apply Run_create_dir_raised with (scoring := scoring). }
  assert (Hpro : reserved a run_dir /\
                 trace st3 = prologue self a C ctx scoring run_dir).
  { destruct (arg_save a) eqn:Hsave.
    - unfold bind, call, ret in Hdir. simpl in Hdir.
      destruct (_create_run_dir env _ _ w2) as [[d | e'] w3];
        inversion Hdir; subst; simpl. now split.
    - inversion Hdir; subst; simpl. now split. }
  destruct Hpro as [Hres Hpro]. clear Hdir.
  unfold bind at 1. unfold try_except.
  destruct (score_all env self scoring C ctx batch_size st3)
    as [[all_scores | e] st4] eqn:Hloop;
    apply score_all_shape in Hloop;
    destruct Hloop as [loop_events [Htrace Hshape]].
  - intros Hrun. apply finish_events_shape in Hrun.
    destruct Hrun as [events [Htrace' Hfinish]].
    rewrite Htrace', Htrace, Hpro, <- app_assoc.
    now apply Run_scored with (all_scores := all_scores).
  - destruct (is_Exception e) eqn:Hcaught.
    + destruct (on_failure env (arg_run_name a) run_dir e st4)
        as [r0 st5] eqn:Hhandler.
      apply on_failure_shape in Hhandler; [|assumption].
      destruct Hhandler as [e' [events [-> [Htrace' Hhandler]]]].
      intros Hrun; inversion Hrun; subst.
      rewrite Htrace', Htrace, Hpro, <- app_assoc.
      now apply Run_scoring_failed with (e := e).
    + intros Hrun; inversion Hrun; subst.
      rewrite Htrace, Hpro.
      rewrite <- (app_nil_r loop_events) at 1.
      apply Run_scoring_failed with (e := e); try assumption.
      now apply Handler_not_caught.
Qed.

End RunPaths.

(* ===================================================================== *)
(** ** Pairing outputs with scores, and scores with chunks *)
(* ===================================================================== *)

Section Pairing.

Context {Score : Type}.

Lemma pair_outputs_length (C : list string) (scores : list Score) :
  length (pair_outputs C scores) = Nat.min (length C) (length scores).
Proof. unfold pair_outputs, zip. now rewrite length_map, length_combine. Qed.

Lemma pair_outputs_output (C : list string) (scores : list Score) :
  map output (pair_outputs C scores) = firstn (length scores) C.
Proof.
  unfold pair_outputs, zip. revert scores.
  induction C as [|c C IH]; intros [|s scores]; simpl; try reflexivity.
  now rewrite IH.
Qed.

Lemma pair_outputs_score (C : list string) (scores : list Score) :
  map score (pair_outputs C scores) = firstn (length C) scores.
Proof.
  unfold pair_outputs, zip. revert scores.
  induction C as [|c C IH]; intros [|s scores]; simpl; try reflexivity.
  now rewrite IH.
Qed.

Lemma pair_outputs_nth (C : list string) (scores : list Score) i c s :
  nth_error C i = Some c -> nth_error scores i = Some s ->
  nth_error (pair_outputs C scores) i = Some {| output := c; score := s |}.
Proof.
  unfold pair_outputs, zip. revert scores i.
  induction C as [|c0 C IH]; intros [|s0 scores] [|i] Hc Hs;
    simpl in *; try discriminate.
  - now inversion Hc; inversion Hs.
  - now apply IH.
Qed.

Lemma chunk_sized_tail b n (scores : list Score) returns :
  chunk_sized b n (scores :: returns) -> chunk_sized b (n - b) returns.
Proof.
  intros H k r Hr. rewrite (H (S k) r Hr). simpl. f_equal. lia.
Qed.

Lemma chunk_sized_total b n (returns : list (list Score)) :
  chunk_sized b n returns -> n <= length returns * b ->
  length (concat returns) = n.
Proof.
  revert n. induction returns as [|r returns IH]; intros n Hsized Hcover.
  - simpl in *. lia.
  - simpl. rewrite length_app.
    rewrite (IH (n - b)).
    + rewrite (Hsized 0 r eq_refl). simpl. lia.
    + eapply chunk_sized_tail; eassumption.
    + simpl in Hcover. lia.
Qed.

Lemma chunk_score_first b r (returns : list (list Score)) i :
  i < b -> chunk_score (r :: returns) b i = nth_error r i.
Proof.
  intros Hi. unfold chunk_score.
  now rewrite Nat.div_small, Nat.mod_small by assumption.
Qed.

Lemma chunk_score_next b r (returns : list (list Score)) i :
  0 < b -> b <= i ->
  chunk_score (r :: returns) b i = chunk_score returns b (i - b).
Proof.
  intros Hb Hi. unfold chunk_score.
  assert (Hdiv : i / b = S ((i - b) / b)).
  { replace i with ((i - b) + 1 * b) at 1 by lia.
    rewrite Nat.div_add by lia. lia. }
  assert (Hmod : i mod b = (i - b) mod b).
  { replace i with ((i - b) + 1 * b) at 1 by lia.
    now rewrite Nat.Div0.mod_add. }
  now rewrite Hdiv, Hmod.
Qed.

(** Position [i] of the concatenated scores is the score of chunk [i / b]
    at offset [i mod b]. *)
Lemma concat_chunk_score b n (returns : list (list Score)) i :
  0 < b -> chunk_sized b n returns -> i < n ->
  nth_error (concat returns) i = chunk_score returns b i.
Proof.
  intros Hb. revert n i.
  induction returns as [|r returns IH]; intros n i Hsized Hi.
  - unfold chunk_score. simpl. now destruct (i / b), i.
  - simpl. pose proof (Hsized 0 r eq_refl) as Hr. simpl in Hr.
    destruct (Nat.lt_ge_cases i b) as [Hlt | Hge].
    + rewrite chunk_score_first by assumption.
      apply nth_error_app1. lia.
    + rewrite chunk_score_next by assumption.
      rewrite nth_error_app2 by lia.
      replace (length r) with b by lia.
      apply IH with (n := n - b); [|lia].
      eapply chunk_sized_tail; eassumption.
Qed.

End Pairing.

(* ===================================================================== *)
(** ** Reading the trace of a run *)
(* ===================================================================== *)

Section RunTraces.

Context {Score DataFrame Metadata ScoringMethod World : Type}.
Variable env : Collaborators Score DataFrame Metadata ScoringMethod World.
Variable self : TestSuite Metadata.
Variable a : RunArgs DataFrame.

Local Abbreviation Event := (event Score DataFrame Metadata ScoringMethod).
Local Abbreviation State := (state Score DataFrame Metadata ScoringMethod World).
Local Abbreviation cases := (test_cases (self_suite self)).
Local Abbreviation batch_size := (arg_batch_size a).

Lemma batch_events_app (t1 t2 : list Event) :
  batch_events (t1 ++ t2) = batch_events t1 ++ batch_events t2.
Proof. apply flat_map_app. Qed.

Lemma batch_returns_app (t1 t2 : list Event) :
  batch_returns (t1 ++ t2) = batch_returns t1 ++ batch_returns t2.
Proof.
  unfold batch_returns. now rewrite batch_events_app, flat_map_app.
Qed.

Lemma batch_events_prologue C ctx (scoring : ScoringMethod) run_dir :
  batch_events (@prologue Score DataFrame Metadata ScoringMethod
                          self a C ctx scoring run_dir) = [].
Proof. now destruct run_dir. Qed.

Lemma batch_events_completed C ctx starts (returns : list (list Score)) :
  batch_events (@completed Score DataFrame Metadata ScoringMethod
                           self a C ctx starts returns)
  = map (fun ir => (chunk_call self a C ctx (fst ir), Returned (snd ir)))
        (combine starts returns).
Proof.
  unfold completed, batch_events.
  induction (combine starts returns) as [|ir l IH]; [reflexivity|].
  simpl. now rewrite IH.
Qed.

Lemma batch_returns_completed C ctx starts (returns : list (list Score)) :
  length returns = length starts ->
  batch_returns (@completed Score DataFrame Metadata ScoringMethod
                            self a C ctx starts returns) = returns.
Proof.
  unfold batch_returns. rewrite batch_events_completed.
  revert returns. induction starts as [|i starts IH];
    intros [|r returns] Hlen; simpl in *; try discriminate; [reflexivity|].
  f_equal. apply IH. lia.
Qed.

Lemma batch_events_handler e run_dir r (events : list Event) :
  handler_shape a e run_dir r events -> batch_events events = [].
Proof. now intros []. Qed.

Lemma batch_events_finish json C run_dir all_scores r (events : list Event) :
  finish_shape self a json C run_dir all_scores r events ->
  batch_events events = [].
Proof. now intros []. Qed.

Lemma call_candidates_chunk C ctx i :
  call_candidates (chunk_call self a C ctx i)
  = slice C i (i + batch_size).
Proof. unfold chunk_call, batch_call_at. now destruct ctx. Qed.

Lemma call_context_chunk C ctx i :
  call_context (chunk_call self a C ctx i)
  = option_map (fun context => slice context i (i + batch_size)) ctx.
Proof. unfold chunk_call, batch_call_at. now destruct ctx. Qed.

Lemma call_refs_chunk C ctx i :
  call_refs (chunk_call self a C ctx i)
  = map reference_output (slice cases i (i + batch_size)).
Proof. unfold chunk_call, batch_call_at. now destruct ctx. Qed.

Lemma call_inputs_chunk C ctx i :
  call_inputs (chunk_call self a C ctx i)
  = map input (slice cases i (i + batch_size)).
Proof. unfold chunk_call, batch_call_at. now destruct ctx. Qed.

(** A run that returns went down the one path that returns. *)
Lemma run_returned_inv json tr (t : list Event) :
  run_shape self a json (Returned tr) t ->
  exists C ctx scoring run_dir returns md,
    length C = length cases /\
    reserved a run_dir /\
    batch_size <> 0%Z /\
    length returns = length (chunk_starts self a) /\
    tr = assemble a (pair_outputs C (concat returns)) run_dir md /\
    t = prologue self a C ctx scoring run_dir
        ++ completed self a C ctx (chunk_starts self a) returns
        ++ Ev_initialize_metadata (Returned md)
           :: (if arg_save a
               then [Ev_write_text (suite_file self) (json (self_suite self))
                                   (Returned tt);
                     Ev_TestRun_save tr (Returned tt)]
               else []).
Proof.
  intros Hshape.
  inversion Hshape as
    [ | | | | C ctx scoring run_dir e levs r hevs Hlen Hres Hloop Hh
      | C ctx scoring run_dir all levs r fevs Hlen Hres Hloop Hfin ]; subst.
  - inversion Hh.
  - inversion Hloop as [ | returns Hnz Hrlen | ]; subst.
    exists C, ctx, scoring, run_dir, returns.
    inversion Hfin as [ | md Hsave | | | md Hsave ]; subst;
      exists md; rewrite Hsave; repeat split; assumption.
Qed.

(** The trace of a run that returned holds the calls of its chunks and what
    they returned. *)
Lemma batch_returns_scored C ctx (scoring : ScoringMethod) run_dir starts
  (returns : list (list Score)) (tail : list Event) :
  length returns = length starts ->
  batch_events tail = [] ->
  batch_returns (prologue self a C ctx scoring run_dir
                 ++ completed self a C ctx starts returns ++ tail)
  = returns.
Proof.
  intros Hlen Htail.
  rewrite !batch_returns_app, batch_returns_completed by assumption.
  unfold batch_returns at 1 2.
  now rewrite batch_events_prologue, Htail, app_nil_r.
Qed.

Lemma batch_events_scored C ctx (scoring : ScoringMethod) run_dir starts
  (returns : list (list Score)) (tail : list Event) :
  batch_events tail = [] ->
  batch_events (prologue self a C ctx scoring run_dir
                ++ completed self a C ctx starts returns ++ tail)
  = map (fun ir => (chunk_call self a C ctx (fst ir), Returned (snd ir)))
        (combine starts returns).
Proof.
  intros Htail.
  now rewrite !batch_events_app, batch_events_prologue, batch_events_completed,
    Htail, app_nil_r.
Qed.

(** The [k]-th chunk and what its call returned stand in the trace
    together. *)
Lemma combine_chunk_nth (b m k : nat) (returns : list (list Score)) scores :
  length returns = m ->
  nth_error returns k = Some scores ->
  In (Z.of_nat (k * b), scores)
     (combine (map (fun j => Z.of_nat (j * b)) (seq 0 m)) returns).
Proof.
  intros Hlen Hk.
  assert (Hlt : k < m).
  { rewrite <- Hlen. apply nth_error_Some. congruence. }
  replace (Z.of_nat (k * b), scores)
    with (nth k (combine (map (fun j => Z.of_nat (j * b)) (seq 0 m)) returns)
              (Z.of_nat (0 * b), [])).
  - apply nth_In. rewrite length_combine, length_map, length_seq. lia.
  - rewrite combine_nth by (now rewrite length_map, length_seq).
    rewrite (map_nth (fun j => Z.of_nat (j * b))), seq_nth by assumption.
    f_equal. now apply nth_error_nth.
Qed.

(** When [run_batch] returns one score per candidate, the scores come back
    chunk by chunk in the sizes of the chunks. *)
Lemma returns_chunk_sized C ctx (b : nat) (returns : list (list Score)) :
  batch_size = Z.of_nat b -> 0 < b ->
  length returns = length (chunk_starts self a) ->
  Forall (fun cr => forall scores,
              snd cr = Returned scores ->
              length scores = length (call_candidates (fst cr)))
         (map (fun ir => (chunk_call self a C ctx (fst ir),
                          Returned (snd ir)))
              (combine (chunk_starts self a) returns)) ->
  chunk_sized b (length C) returns.
Proof.
  intros Hbs Hb Hlen Hall k scores Hk.
  rewrite (chunk_starts_positive self a Hbs Hb) in Hlen, Hall.
  rewrite length_map, length_seq in Hlen.
  rewrite Forall_forall in Hall.
  specialize (Hall (chunk_call self a C ctx (Z.of_nat (k * b)),
                    Returned scores)).
  simpl in Hall. rewrite call_candidates_chunk in Hall.
  rewrite Hbs, slice_chunk in Hall by assumption.
  rewrite Hall; [|now apply in_map_iff; eexists (_, _); split;
                    [reflexivity | apply combine_chunk_nth]|reflexivity].
  now rewrite length_firstn, length_skipn.
Qed.

End RunTraces.

(* ===================================================================== *)
(** ** The properties of [run] and [__init__] *)
(* ===================================================================== *)

Section Claims.

Context {Score DataFrame Metadata ScoringMethod World : Type}.
Variable env : Collaborators Score DataFrame Metadata ScoringMethod World.

Local Abbreviation Event := (event Score DataFrame Metadata ScoringMethod).
Local Abbreviation State := (state Score DataFrame Metadata ScoringMethod World).

(** C1.  A run that returns, made with a positive [batch_size] and a scoring
    method that returned one score per candidate of each slice, has one
    output per test case of the suite; output [i] holds the [i]-th resolved
    candidate and the score computed for index [i] -- the scores are what
    the calls returned, put end to end in suite order. *)
Theorem run_outputs_follow_suite_order
  (self : TestSuite Metadata) (a : RunArgs DataFrame) (w : World)
  (tr : TestRun Score Metadata) (st' : State) :
  run env self a (start w) = (Returned tr, st') ->
  (0 < arg_batch_size a)%Z ->
  one_score_per_element (trace st') ->
  exists C ctx,
    resolved (trace st') = Some (C, ctx) /\
    length (test_case_outputs tr) = length (test_cases (self_suite self)) /\
    map output (test_case_outputs tr) = C /\
    map score (test_case_outputs tr) = concat (batch_returns (trace st')) /\
    forall i, i < length (test_cases (self_suite self)) ->
      exists c s,
        nth_error C i = Some c /\
        chunk_score (batch_returns (trace st'))
                    (Z.to_nat (arg_batch_size a)) i = Some s /\
        nth_error (test_case_outputs tr) i
        = Some {| output := c; score := s |}.
Proof.
  intros Hrun Hpos Hone.
  apply run_sound, run_returned_inv in Hrun.
  destruct Hrun as (C & ctx & scoring & run_dir & returns & md
                    & Hlen & Hres & Hnz & Hrlen & -> & Htrace).
  exists C, ctx.
  set (tail := Ev_initialize_metadata (Returned md) :: _) in Htrace.
  assert (Htail : batch_events tail = [])
    by (subst tail; now destruct (arg_save a)).
  assert (Hret : batch_returns (trace st') = returns)
    by (rewrite Htrace; now apply batch_returns_scored).
  assert (Hbs : arg_batch_size a = Z.of_nat (Z.to_nat (arg_batch_size a)))
    by lia.
  assert (Hb : 0 < Z.to_nat (arg_batch_size a)) by lia.
  assert (Hsized : chunk_sized (Z.to_nat (arg_batch_size a)) (length C)
                               returns).
  { apply returns_chunk_sized with (self := self) (a := a) (ctx := ctx);
      try assumption.
    unfold one_score_per_element in Hone.
    now rewrite Htrace, batch_events_scored in Hone. }
  assert (Htotal : length (concat returns) = length C).
  { apply chunk_sized_total with (b := Z.to_nat (arg_batch_size a));
      [assumption|].
    rewrite Hrlen, (chunk_starts_positive self a Hbs Hb),
      length_map, length_seq, Hlen.
    now apply range_length_chunks. }
  rewrite Hret. simpl.
  split; [now rewrite Htrace; destruct run_dir|].
  split; [rewrite pair_outputs_length; lia|].
  split; [rewrite pair_outputs_output, Htotal; apply firstn_all|].
  split; [rewrite pair_outputs_score, <- Htotal; apply firstn_all|].
  intros i Hi. rewrite <- Hlen in Hi.
  destruct (nth_error C i) as [c|] eqn:Hc;
    [|apply nth_error_None in Hc; lia].
  destruct (nth_error (concat returns) i) as [s|] eqn:Hs;
    [|apply nth_error_None in Hs; lia].
  exists c, s. split; [reflexivity|]. split.
  - rewrite <- Hs. symmetry.
    now apply concat_chunk_score with (n := length C).
  - now apply pair_outputs_nth.
Qed.

Lemma string_append_assoc (x y z : string) :
  ((x ++ y) ++ z = x ++ (y ++ z))%string.
Proof. induction x as [|c x IH]; simpl; [reflexivity | now rewrite IH]. Qed.

Lemma mismatch_message_cites (n_candidates n_cases : nat) :
  cites (mismatch_message n_candidates n_cases) (str_of_nat n_candidates) /\
  cites (mismatch_message n_candidates n_cases) (str_of_nat n_cases).
Proof.
  unfold cites, mismatch_message. split.
  - now exists "candidate data has "%string,
      (" tests but expected " ++ str_of_nat n_cases ++ " tests")%string.
  - exists ("candidate data has " ++ str_of_nat n_candidates
            ++ " tests but expected ")%string, " tests"%string.
    now rewrite !string_append_assoc.
Qed.

(** C2.  When the resolved candidate list and the suite differ in length,
    [run] raises a [UserValueError] whose message holds both counts; the only
    thing it has done by then is resolve the data: no directory was created
    and the scoring method was neither loaded nor called. *)
Theorem run_rejects_count_mismatch
  (self : TestSuite Metadata) (a : RunArgs DataFrame) (w w1 : World)
  (C : list string) (ctx : option (list string)) :
  _load_run_data_from_args env (run_data_args a) w
  = (Returned (C, ctx), w1) ->
  length C <> length (test_cases (self_suite self)) ->
  exists msg st',
    run env self a (start w) = (Raised (Exn UserValueError msg), st') /\
    cites msg (str_of_nat (length C)) /\
    cites msg (str_of_nat (length (test_cases (self_suite self)))) /\
    world st' = w1 /\
    trace st'
    = [Ev_load_run_data_from_args (run_data_args a) (Returned (C, ctx))] /\
    forallb (fun ev => negb (touches_disk ev) && negb (is_run_batch ev))
            (trace st') = true.
Proof.
  intros Hload Hlen.
  exists (mismatch_message (length C)
                           (length (test_cases (self_suite self)))).
  eexists. split.
  - unfold run, bind, call, start. simpl. rewrite Hload. simpl.
    destruct (Nat.eqb_spec (length C)
                           (length (test_cases (self_suite self))));
      [contradiction | reflexivity].
  - pose proof (mismatch_message_cites
                  (length C) (length (test_cases (self_suite self))))
      as [H1 H2].
    repeat split; assumption.
Qed.

Lemma in_batch_events (t : list Event) c o :
  In (Ev_run_batch c o) t <-> In (c, o) (batch_events t).
Proof.
  unfold batch_events. rewrite in_flat_map. split.
  - intros H. exists (Ev_run_batch c o). split; [assumption | now left].
  - intros [ev [Hin Hev]].
    destruct ev; simpl in Hev; try contradiction.
    destruct Hev as [Hev | []]. now inversion Hev; subst.
Qed.

Lemma in_completed_returned (self : TestSuite Metadata)
  (a : RunArgs DataFrame) C ctx starts (returns : list (list Score)) c e :
  ~ In (c, Raised e)
       (map (fun ir => (chunk_call self a C ctx (fst ir),
                        @Returned (list Score) (snd ir)))
            (combine starts returns)).
Proof.
  intros H. apply in_map_iff in H. destruct H as [ir [Heq _]]. discriminate.
Qed.

(** C3, as the code has it.  When a [run_batch] call of the run raises [e],
    [run] returns nothing and that call is the last scoring call.  What
    follows depends on [e] and on the clean-up:
    - [e] is an instance of [Exception] and no clean-up raises: the failing
      call is followed by the log record of [e] and, exactly when a run
      directory had been created ([save]), by the deletion of that directory,
      and [run] raises an [ArthurInternalError] that names the run and has
      [e] as its cause;
    - [e] is an instance of [Exception] and the clean-up raises [e']: [e']
      leaves [run] in place of the [ArthurInternalError];
    - [e] is not an instance of [Exception]: the [except Exception] clause
      does not catch it; [e] leaves [run] as it is, nothing is logged and
      the run directory is not deleted.
    In every case the only calls of the run that touch the disk are the
    creation of its run directory and the clean-up of that directory. *)
Theorem run_scoring_failure_cleans_up
  (self : TestSuite Metadata) (a : RunArgs DataFrame) (w : World)
  (r : outcome (TestRun Score Metadata)) (st' : State)
  (c : batch_call) (e : exn) :
  run env self a (start w) = (r, st') ->
  In (Ev_run_batch c (Raised e)) (trace st') ->
  exists C ctx scoring run_dir scored returns handled,
    reserved a run_dir /\
    trace st'
    = prologue self a C ctx scoring run_dir
      ++ completed self a C ctx scored returns
      ++ Ev_run_batch c (Raised e) :: handled /\
    returned r = false /\
    (is_Exception e = true ->
     (forall dir e', ~ In (Ev_clean_up_run dir (Raised e')) (trace st')) ->
     r = Raised (ExnFrom ArthurInternalError
                         ("failed to create run " ++ arg_run_name a)%string e) /\
     handled
     = Ev_logger_error ("failed to create run: " ++ str e)%string
       :: match run_dir with
          | Some dir => [Ev_clean_up_run dir (Returned tt)]
          | None => []
          end /\
     ((exists dir, In (Ev_clean_up_run dir (Returned tt)) (trace st'))
      <-> arg_save a = true)) /\
    (is_Exception e = true ->
     forall dir e',
       In (Ev_clean_up_run dir (Raised e')) (trace st') ->
       r = Raised e' /\
       run_dir = Some dir /\
       handled
       = [Ev_logger_error ("failed to create run: " ++ str e)%string;
          Ev_clean_up_run dir (Raised e')]) /\
    (is_Exception e = false -> r = Raised e /\ handled = []) /\
    (forall ev, In ev (trace st') -> touches_disk ev = true ->
       exists dir,
         run_dir = Some dir /\
         (ev = Ev_create_run_dir (name (self_suite self)) (arg_run_name a)
                                 (Returned dir)
          \/ exists o, ev = Ev_clean_up_run dir o)).
Proof.
  intros Hrun Hin.
  apply run_sound in Hrun.
  destruct st' as [w' t]. cbn [trace] in *.
  apply in_batch_events in Hin.
  inversion Hrun as
    [ | | | C ctx scoring e0 Hlen Hsave
      | C ctx scoring run_dir e0 levs r0 hevs Hlen Hres Hloop Hh
      | C ctx scoring run_dir all levs r0 fevs Hlen Hres Hloop Hfin ];
    subst; try (simpl in Hin; contradiction).
  - rewrite !batch_events_app, batch_events_prologue,
      (batch_events_handler Hh), app_nil_r in Hin. simpl in Hin.
    inversion Hloop as [ | | scored i rest returns e1 Hpos Hs Hrlen ]; subst.
    + contradiction.
    + rewrite batch_events_app, batch_events_completed in Hin.
      apply in_app_or in Hin. destruct Hin as [Hin | Hin];
        [now apply in_completed_returned in Hin|].
      destruct Hin as [Hin | []]. inversion Hin; subst. clear Hin.
      exists C, ctx, scoring, run_dir, scored, returns, hevs.
      split; [assumption|].
      split; [now rewrite <- !app_assoc|].
      assert (Hscan : forall ev,
                 In ev (prologue self a C ctx scoring run_dir
                        ++ (completed self a C ctx scored returns
                            ++ [Ev_run_batch (chunk_call self a C ctx i)
                                             (Raised e)])
                        ++ hevs) ->
                 In ev hevs \/
                 (touches_disk ev = true ->
                  exists dir,
                    run_dir = Some dir /\
                    ev = Ev_create_run_dir (name (self_suite self))
                                           (arg_run_name a) (Returned dir)) /\
                 (forall dir o, ev <> Ev_clean_up_run dir o)).
      { intros ev Hev.
        apply in_app_or in Hev. destruct Hev as [Hev | Hev].
        { right. destruct run_dir as [d|]; simpl in Hev.
          - destruct Hev as [<- | [<- | [<- | []]]];
              (split; [intros Ht; try discriminate Ht | discriminate]).
            now exists d.
          - destruct Hev as [<- | [<- | []]];
              (split; [intros Ht; discriminate Ht | discriminate]). }
        apply in_app_or in Hev. destruct Hev as [Hev | Hev]; [|now left].
        right. apply in_app_or in Hev. destruct Hev as [Hev | Hev].
        - apply in_map_iff in Hev. destruct Hev as [? [<- _]].
          split; [intros Ht; discriminate Ht | discriminate].
        - destruct Hev as [<- | []].
          split; [intros Ht; discriminate Ht | discriminate]. }
      assert (Hclean_in : forall dir o,
                 In (Ev_clean_up_run dir o)
                    (prologue self a C ctx scoring run_dir
                     ++ (completed self a C ctx scored returns
                         ++ [Ev_run_batch (chunk_call self a C ctx i)
                                          (Raised e)])
                     ++ hevs) ->
                 In (Ev_clean_up_run dir o) hevs).
      { intros dir o Hev. apply Hscan in Hev.
        destruct Hev as [Hev | [_ Hne]]; [assumption|].
        now contradiction (Hne dir o). }
      inversion Hh as [Hcaught | dir Hcaught | dir e' Hcaught
                       | rd Hcaught]; subst.
      * (* caught, no run directory *)
        split; [reflexivity|]. split; [|split; [|split; [|]]].
        -- intros _ _. split; [reflexivity|]. split; [reflexivity|].
           split.
           ++ intros [dir Hdir]. apply Hclean_in in Hdir.
              simpl in Hdir. intuition discriminate.
           ++ intros Hsave. unfold reserved in Hres. congruence.
        -- intros _ dir e' Hdir. apply Hclean_in in Hdir.
           simpl in Hdir. intuition discriminate.
        -- intros Hnot. congruence.
        -- intros ev Hev Htouch. apply Hscan in Hev.
           destruct Hev as [Hev | [Hdir _]];
             [|destruct (Hdir Htouch) as (d0 & Hd0 & Hev0);
               exists d0; split; [exact Hd0 | now left]].
           destruct Hev as [<- | []]. discriminate.
      * (* caught, the run directory is cleaned up *)
        split; [reflexivity|]. split; [|split; [|split; [|]]].
        -- intros _ _. split; [reflexivity|]. split; [reflexivity|].
           split; [intros _; exact Hres|].
           intros _. exists dir. apply in_or_app; right.
           apply in_or_app; right. simpl. tauto.
        -- intros _ d e' Hdir. apply Hclean_in in Hdir.
           simpl in Hdir. intuition discriminate.
        -- intros Hnot. congruence.
        -- intros ev Hev Htouch. apply Hscan in Hev.
           destruct Hev as [Hev | [Hdir _]];
             [|destruct (Hdir Htouch) as (d0 & Hd0 & Hev0);
               exists d0; split; [exact Hd0 | now left]].
           exists dir. split; [reflexivity|].
           destruct Hev as [<- | [<- | []]]; [discriminate|].
           right. now eexists.
      * (* caught, the clean-up raises *)
        split; [reflexivity|]. split; [|split; [|split; [|]]].
        -- intros _ Hclean. exfalso. apply (Hclean dir e').
           apply in_or_app; right. apply in_or_app; right. simpl. tauto.
        -- intros _ d e0 Hdir. apply Hclean_in in Hdir.
           destruct Hdir as [Hdir | [Hdir | []]]; [discriminate|].
           inversion Hdir; subst. now repeat split.
        -- intros Hnot. congruence.
        -- intros ev Hev Htouch. apply Hscan in Hev.
           destruct Hev as [Hev | [Hdir _]];
             [|destruct (Hdir Htouch) as (d0 & Hd0 & Hev0);
               exists d0; split; [exact Hd0 | now left]].
           exists dir. split; [reflexivity|].
           destruct Hev as [<- | [<- | []]]; [discriminate|].
           right. now eexists.
      * (* not caught *)
        split; [reflexivity|]. split; [|split; [|split; [|]]].
        -- intros Hyes. congruence.
        -- intros Hyes. congruence.
        -- intros _. now split.
        -- intros ev Hev Htouch. apply Hscan in Hev.
           destruct Hev as [[] | [Hdir _]].
           destruct (Hdir Htouch) as (d0 & Hd0 & Hev0).
           exists d0. split; [exact Hd0 | now left].
  - inversion Hloop; subst.
    rewrite batch_events_scored in Hin
      by (eapply batch_events_finish; eassumption).
    now apply in_completed_returned in Hin.
Qed.

Lemma in_completed_chunk (self : TestSuite Metadata) (a : RunArgs DataFrame)
  C ctx starts (returns : list (list Score)) c o :
  In (c, o)
     (map (fun ir => (chunk_call self a C ctx (fst ir),
                      @Returned (list Score) (snd ir)))
          (combine starts returns)) ->
  exists i, In i starts /\ c = chunk_call self a C ctx i.
Proof.
  intros H. apply in_map_iff in H. destruct H as [[i scores] [Heq Hin]].
  inversion Heq; subst. exists i. split; [|reflexivity].
  eapply in_combine_l; eassumption.
Qed.

(** Every [run_batch] call of a run is the call of one chunk of the loop. *)
Lemma run_batch_calls_are_chunks (self : TestSuite Metadata)
  (a : RunArgs DataFrame) json r (t : list Event) C ctx c o :
  run_shape self a json r t ->
  resolved t = Some (C, ctx) ->
  In (c, o) (batch_events t) ->
  exists i, In i (chunk_starts self a) /\ c = chunk_call self a C ctx i.
Proof.
  intros Hshape Hres Hin.
  inversion Hshape as
    [ | | | C0 ctx0 scoring e0 Hlen Hsave
      | C0 ctx0 scoring run_dir e0 levs r0 hevs Hlen Hrd Hloop Hh
      | C0 ctx0 scoring run_dir all levs r0 fevs Hlen Hrd Hloop Hfin ];
    subst; try (simpl in Hin; contradiction).
  - assert (C0 = C /\ ctx0 = ctx) as [-> ->]
        by (destruct run_dir; simpl in Hres; now inversion Hres).
    rewrite !batch_events_app, batch_events_prologue,
      (batch_events_handler Hh), app_nil_r in Hin. simpl in Hin.
    inversion Hloop as [ | | scored i rest returns e1 Hpos Hs Hrlen ]; subst.
    + contradiction.
    + rewrite batch_events_app, batch_events_completed in Hin.
      apply in_app_or in Hin. destruct Hin as [Hin | Hin].
      * apply in_completed_chunk in Hin. destruct Hin as [j [Hj ->]].
        exists j. split; [|reflexivity].
        rewrite Hs. apply in_or_app. now left.
      * destruct Hin as [Hin | []]. inversion Hin; subst.
        exists i. split; [|reflexivity].
        rewrite Hs. apply in_or_app. right. now left.
  - assert (C0 = C /\ ctx0 = ctx) as [-> ->]
        by (destruct run_dir; simpl in Hres; now inversion Hres).
    inversion Hloop; subst.
    rewrite batch_events_scored in Hin
      by (eapply batch_events_finish; eassumption).
    now apply in_completed_chunk in Hin.
Qed.

(** C7.  With a resolved context list, every [run_batch] call of the run has
    four arguments, and the fourth is the slice [context[i:i+batch_size]],
    cut at the same [i] and [batch_size] as the slices of references,
    candidates and inputs; with no context, every call has three
    arguments. *)
Theorem context_sliced_like_the_chunk
  (self : TestSuite Metadata) (a : RunArgs DataFrame) (w : World)
  (r : outcome (TestRun Score Metadata)) (st' : State)
  (C : list string) (ctx : option (list string)) :
  run env self a (start w) = (r, st') ->
  resolved (trace st') = Some (C, ctx) ->
  forall c o,
    In (Ev_run_batch c o) (trace st') ->
    exists i,
      In i (chunk_starts self a) /\
      let chunk := slice (test_cases (self_suite self))
                         i (i + arg_batch_size a) in
      c = match ctx with
          | Some context =>
              Call4 (map reference_output chunk)
                    (slice C i (i + arg_batch_size a))
                    (map input chunk)
                    (slice context i (i + arg_batch_size a))
          | None =>
              Call3 (map reference_output chunk)
                    (slice C i (i + arg_batch_size a))
                    (map input chunk)
          end.
Proof.
  intros Hrun Hres c o Hin.
  apply run_sound in Hrun. apply in_batch_events in Hin.
  eapply run_batch_calls_are_chunks in Hin; [|eassumption|eassumption].
  destruct Hin as [i [Hi ->]].
  exists i. split; [assumption|]. now destruct ctx.
Qed.

Lemma resolved_prologue (self : TestSuite Metadata) (a : RunArgs DataFrame)
  C ctx (scoring : ScoringMethod) run_dir (rest : list Event) :
  resolved (prologue self a C ctx scoring run_dir ++ rest) = Some (C, ctx).
Proof. reflexivity. Qed.

Lemma prologue_returned (self : TestSuite Metadata) (a : RunArgs DataFrame)
  C ctx (scoring : ScoringMethod) run_dir :
  forallb event_returned
          (@prologue Score DataFrame Metadata ScoringMethod
                     self a C ctx scoring run_dir) = true.
Proof. now destruct run_dir. Qed.

(** A run in which no collaborator call raised, on candidates of the right
    count: a zero [batch_size] ends in the handler, any other [batch_size]
    ends with the assembled run. *)
Lemma run_all_returned_inv (self : TestSuite Metadata)
  (a : RunArgs DataFrame) json r (t : list Event) C ctx :
  run_shape self a json r t ->
  forallb event_returned t = true ->
  resolved t = Some (C, ctx) ->
  length C = length (test_cases (self_suite self)) ->
  exists scoring run_dir,
    reserved a run_dir /\
    ((arg_batch_size a = 0%Z /\
      r = Raised (internal_error
                    a (Exn ValueError "range() arg 3 must not be zero")) /\
      t = prologue self a C ctx scoring run_dir
          ++ failure_record (Exn ValueError "range() arg 3 must not be zero")
             :: match run_dir with
                | Some dir => [Ev_clean_up_run dir (Returned tt)]
                | None => []
                end)
     \/
     (arg_batch_size a <> 0%Z /\
      exists returns md,
        length returns = length (chunk_starts self a) /\
        r = Returned (assemble a (pair_outputs C (concat returns))
                               run_dir md) /\
        t = prologue self a C ctx scoring run_dir
            ++ completed self a C ctx (chunk_starts self a) returns
            ++ Ev_initialize_metadata (Returned md)
               :: (if arg_save a
                   then [Ev_write_text (suite_file self)
                                       (json (self_suite self)) (Returned tt);
                         Ev_TestRun_save
                           (assemble a (pair_outputs C (concat returns))
                                     run_dir md)
                           (Returned tt)]
                   else []))).
Proof.
  intros Hshape Hall Hres Hlen.
  inversion Hshape as
    [ | C0 ctx0 Hne | | C0 ctx0 scoring e0 Hlen0 Hsave
      | C0 ctx0 scoring run_dir e0 levs r0 hevs Hlen0 Hrd Hloop Hh
      | C0 ctx0 scoring run_dir all levs r0 fevs Hlen0 Hrd Hloop Hfin ];
    subst; try (simpl in Hall; discriminate).
  - simpl in Hres. inversion Hres; subst. contradiction.
  - rewrite resolved_prologue in Hres. inversion Hres; subst.
    rewrite !forallb_app in Hall.
    apply andb_true_iff in Hall. destruct Hall as [_ Hall].
    apply andb_true_iff in Hall. destruct Hall as [Hlevs Hhevs].
    exists scoring, run_dir. split; [assumption|]. left.
    inversion Hloop as [ Hz | | scored i rest returns e1 Hpos Hs Hrlen ]; subst.
    + inversion Hh; subst; simpl in Hhevs; try discriminate;
        repeat split; assumption.
    + rewrite forallb_app in Hlevs. simpl in Hlevs.
      rewrite andb_false_r in Hlevs. discriminate.
  - rewrite resolved_prologue in Hres. inversion Hres; subst.
    rewrite !forallb_app in Hall.
    apply andb_true_iff in Hall. destruct Hall as [_ Hall].
    apply andb_true_iff in Hall. destruct Hall as [_ Hfevs].
    exists scoring, run_dir. split; [assumption|]. right.
    inversion Hloop as [ | returns Hnz Hrlen | ]; subst.
    split; [assumption|]. exists returns.
    inversion Hfin as [ | md Hsave | | | md Hsave ]; subst;
      simpl in Hfevs; try discriminate;
      exists md; rewrite Hsave; repeat split; assumption.
Qed.

(** When [save] is set, whatever stands before a [run_batch] call in the
    trace of a run includes the creation of the run directory. *)
Lemma run_dir_created_first (self : TestSuite Metadata)
  (a : RunArgs DataFrame) json r (t : list Event) :
  run_shape self a json r t ->
  arg_save a = true ->
  forall before c o after,
    t = before ++ Ev_run_batch c o :: after ->
    exists dir,
      In (Ev_create_run_dir (name (self_suite self)) (arg_run_name a)
                            (Returned dir)) before.
Proof.
  intros Hshape Hsave before c o after Heq.
  assert (Hin : In (c, o) (batch_events t))
    by (apply in_batch_events; rewrite Heq; apply in_elt).
  assert (Hpro : forall C ctx scoring run_dir rest,
             reserved a run_dir ->
             prologue self a C ctx scoring run_dir ++ rest
             = before ++ Ev_run_batch c o :: after ->
             exists dir,
               In (Ev_create_run_dir (name (self_suite self)) (arg_run_name a)
                                     (Returned dir)) before).
  { intros C ctx scoring run_dir rest Hrd Hp.
    destruct run_dir as [dir|]; [|unfold reserved in Hrd; congruence].
    exists dir.
    destruct before as [|b1 [|b2 [|b3 before]]]; simpl in Hp;
      try (inversion Hp; fail).
    inversion Hp; subst. simpl. tauto. }
  revert Hin Heq.
  destruct Hshape; intros Hin Heq; try (simpl in Hin; contradiction).
  - eapply Hpro; eassumption.
  - eapply Hpro; eassumption.
Qed.

(** C8.  With [save], the run directory is created before the first
    [run_batch] call.  A run that returns hands back the assembled
    [TestRun]; with [save], the suite file and then the run have been
    written, both successfully, right before it returns, and without [save]
    nothing is written.  A run in which nothing raises returns, with or
    without [save]. *)
Theorem run_persists_then_returns
  (self : TestSuite Metadata) (a : RunArgs DataFrame) (w : World)
  (r : outcome (TestRun Score Metadata)) (st' : State) :
  run env self a (start w) = (r, st') ->
  (arg_save a = true ->
   forall before c o after,
     trace st' = before ++ Ev_run_batch c o :: after ->
     exists dir,
       In (Ev_create_run_dir (name (self_suite self)) (arg_run_name a)
                             (Returned dir)) before) /\
  (forall tr, r = Returned tr ->
     exists C ctx run_dir md before,
       resolved (trace st') = Some (C, ctx) /\
       reserved a run_dir /\
       tr = assemble a
              (pair_outputs C (concat (batch_returns (trace st'))))
              run_dir md /\
       forallb (fun ev => negb (touches_disk ev)
                          || is_create_dir ev) before = true /\
       trace st'
       = before
         ++ Ev_initialize_metadata (Returned md)
            :: (if arg_save a
                then [Ev_write_text
                        (path_div (self_test_suite_dir self) "suite.json")
                        (suite_json env (self_suite self)) (Returned tt);
                      Ev_TestRun_save tr (Returned tt)]
                else [])) /\
  (forallb event_returned (trace st') = true ->
   (forall C ctx, resolved (trace st') = Some (C, ctx) ->
                  length C = length (test_cases (self_suite self))) ->
   arg_batch_size a <> 0%Z ->
   exists tr, r = Returned tr).
Proof.
  intros Hrun. apply run_sound in Hrun.
  split; [|split].
  - intros Hsave. now apply run_dir_created_first with (1 := Hrun).
  - intros tr ->. apply run_returned_inv in Hrun.
    destruct Hrun as (C & ctx & scoring & run_dir & returns & md
                      & Hlen & Hres & Hnz & Hrlen & Htr & Htrace).
    exists C, ctx, run_dir, md,
      (prologue self a C ctx scoring run_dir
       ++ completed self a C ctx (chunk_starts self a) returns).
    assert (Hret : batch_returns (trace st') = returns).
    { rewrite Htrace. apply batch_returns_scored; [assumption|].
      now destruct (arg_save a). }
    rewrite Hret, Htrace.
    split; [apply resolved_prologue|].
    split; [assumption|]. split; [assumption|].
    split; [|now rewrite <- app_assoc].
    rewrite forallb_app. apply andb_true_iff. split.
    + now destruct run_dir.
    + unfold completed. rewrite forallb_forall. intros ev Hev.
      apply in_map_iff in Hev. now destruct Hev as [? [<- _]].
  - intros Hall Hlen Hnz.
    destruct (resolved (trace st')) as [[C ctx]|] eqn:Hres.
    + destruct (run_all_returned_inv Hrun Hall Hres (Hlen C ctx eq_refl))
        as (scoring & run_dir & _ & [[Hz _] | [_ (returns & md & _ & -> & _)]]).
      * contradiction.
      * eexists. reflexivity.
    + destruct st' as [w' t]. cbn [trace] in *.
      inversion Hrun; subst;
        try rewrite resolved_prologue in Hres;
        simpl in Hall, Hres; discriminate.
Qed.

Lemma chunk_starts_negative (self : TestSuite Metadata)
  (a : RunArgs DataFrame) :
  (arg_batch_size a < 0)%Z -> chunk_starts self a = [].
Proof.
  intros Hneg. unfold chunk_starts. now rewrite range_negative_step.
Qed.

(** C9.  [run] does not check [batch_size].  In a run on candidates of the
    right count in which no collaborator call raises: with [batch_size = 0]
    the [ValueError] of [range] lands in the handler of scoring failures, so
    [run] logs it, deletes the run directory exactly when one was created,
    and raises [ArthurInternalError], with no scoring call made; with a
    negative [batch_size] the loop has no turn, and [run] returns a
    [TestRun] with no outputs, again with no scoring call. *)
Theorem run_does_not_check_batch_size
  (self : TestSuite Metadata) (a : RunArgs DataFrame) (w : World)
  (r : outcome (TestRun Score Metadata)) (st' : State)
  (C : list string) (ctx : option (list string)) :
  run env self a (start w) = (r, st') ->
  forallb event_returned (trace st') = true ->
  resolved (trace st') = Some (C, ctx) ->
  length C = length (test_cases (self_suite self)) ->
  (arg_batch_size a = 0%Z ->
   r = Raised (ExnFrom ArthurInternalError
                       ("failed to create run " ++ arg_run_name a)%string
                       (Exn ValueError "range() arg 3 must not be zero")) /\
   exn_cls (Exn ValueError "range() arg 3 must not be zero") = ValueError /\
   batch_events (trace st') = [] /\
   In (Ev_logger_error
         "failed to create run: range() arg 3 must not be zero")
      (trace st') /\
   ((exists dir, In (Ev_clean_up_run dir (Returned tt)) (trace st'))
    <-> arg_save a = true)) /\
  ((arg_batch_size a < 0)%Z ->
   exists tr,
     r = Returned tr /\
     test_case_outputs tr = [] /\
     batch_events (trace st') = []).
Proof.
  intros Hrun Hall Hres Hlen.
  apply run_sound in Hrun.
  destruct (run_all_returned_inv Hrun Hall Hres Hlen)
    as (scoring & run_dir & Hrd
        & [(Hz & -> & Htrace) | (Hnz & returns & md & Hrlen & -> & Htrace)]).
  - split; [|intros Hneg; lia].
    intros _. split; [reflexivity|]. split; [reflexivity|].
    rewrite Htrace. split; [|split].
    + rewrite batch_events_app, batch_events_prologue.
      now destruct run_dir.
    + apply in_or_app. right. now left.
    + split.
      * intros [dir Hdir].
        destruct run_dir as [d|]; [exact Hrd|].
        simpl in Hdir. intuition discriminate.
      * intros Hsave.
        destruct run_dir as [d|]; [|unfold reserved in Hrd; congruence].
        exists d. apply in_or_app. right. simpl. tauto.
  - split; [intros Hz; contradiction|].
    intros Hneg. eexists. split; [reflexivity|].
    rewrite (chunk_starts_negative self a Hneg) in Hrlen, Htrace.
    destruct returns; [|discriminate].
    split.
    + simpl. unfold pair_outputs, zip. now rewrite combine_nil.
    + rewrite Htrace, batch_events_scored; [reflexivity|].
      now destruct (arg_save a).
Qed.

(** C10.  [run] does not compare the number of scores with the number of
    cases.  In a run that gets through the loop (non-zero [batch_size],
    candidates of the right count, no collaborator call raising) with fewer
    scores than candidates, the pairing stops at the last score: [run]
    returns, without error, a [TestRun] with fewer outputs than the suite
    has cases -- the first candidates, each with its score -- and with
    [save] that run has been written. *)
Theorem run_truncates_to_the_scores
  (self : TestSuite Metadata) (a : RunArgs DataFrame) (w : World)
  (r : outcome (TestRun Score Metadata)) (st' : State)
  (C : list string) (ctx : option (list string)) :
  run env self a (start w) = (r, st') ->
  forallb event_returned (trace st') = true ->
  resolved (trace st') = Some (C, ctx) ->
  length C = length (test_cases (self_suite self)) ->
  arg_batch_size a <> 0%Z ->
  length (concat (batch_returns (trace st'))) < length C ->
  exists tr,
    r = Returned tr /\
    test_case_outputs tr
    = pair_outputs C (concat (batch_returns (trace st'))) /\
    map output (test_case_outputs tr)
    = firstn (length (concat (batch_returns (trace st')))) C /\
    map score (test_case_outputs tr) = concat (batch_returns (trace st')) /\
    length (test_case_outputs tr)
    = length (concat (batch_returns (trace st'))) /\
    length (test_case_outputs tr) < length (test_cases (self_suite self)) /\
    (arg_save a = true ->
     exists before,
       trace st'
       = before
         ++ [Ev_write_text (path_div (self_test_suite_dir self) "suite.json")
                           (suite_json env (self_suite self)) (Returned tt);
             Ev_TestRun_save tr (Returned tt)]).
Proof.
  intros Hrun Hall Hres Hlen Hnz Hfew.
  apply run_sound in Hrun.
  destruct (run_all_returned_inv Hrun Hall Hres Hlen)
    as (scoring & run_dir & Hrd
        & [(Hz & _) | (_ & returns & md & Hrlen & -> & Htrace)]);
    [contradiction|].
  assert (Hret : batch_returns (trace st') = returns).
  { rewrite Htrace. apply batch_returns_scored; [assumption|].
    now destruct (arg_save a). }
  rewrite Hret in *.
  eexists. split; [reflexivity|]. simpl.
  split; [reflexivity|].
  split; [apply pair_outputs_output|].
  split; [rewrite pair_outputs_score; apply firstn_all2; lia|].
  split; [rewrite pair_outputs_length; lia|].
  split; [rewrite pair_outputs_length; lia|].
  intros Hsave. rewrite Hsave in Htrace.
  exists (prologue self a C ctx scoring run_dir
          ++ completed self a C ctx (chunk_starts self a) returns
          ++ [Ev_initialize_metadata (Returned md)]).
  rewrite Htrace, <- !app_assoc. reflexivity.
Qed.

Lemma map_chunk {A B} (g : A -> B) (b i : nat) (l : list A) :
  map g (firstn b (skipn i l)) = firstn b (skipn i (map g l)).
Proof. now rewrite skipn_map, firstn_map. Qed.

(** Scoring a chunk index by index gives the chunk of the scores of the
    whole suite. *)
Lemma per_index_chunk (self : TestSuite Metadata) (a : RunArgs DataFrame)
  (f : option string -> string -> string -> option string -> Score)
  C ctx (b k : nat) :
  arg_batch_size a = Z.of_nat b -> 0 < b ->
  per_index f (chunk_call self a C ctx (Z.of_nat (k * b)))
  = firstn b (skipn (k * b) (per_index f (whole_suite_call self C ctx))).
Proof.
  intros Hbs Hb. unfold chunk_call, batch_call_at, whole_suite_call.
  rewrite Hbs.
  destruct ctx as [context|]; simpl per_index; unfold zip;
    rewrite !slice_chunk by assumption;
    rewrite !map_chunk, !combine_chunk;
    apply map_chunk.
Qed.

Lemma per_index_length (self : TestSuite Metadata)
  (f : option string -> string -> string -> option string -> Score) C ctx :
  length (per_index f (whole_suite_call self C ctx)) <= length C.
Proof.
  unfold whole_suite_call.
  destruct ctx as [context|]; simpl; unfold zip;
    rewrite length_map, !length_combine; lia.
Qed.

(** What the calls returned, when each returned [per_index f] of its
    arguments. *)
Lemma returns_per_index (self : TestSuite Metadata) (a : RunArgs DataFrame)
  (f : option string -> string -> string -> option string -> Score)
  C ctx starts (returns : list (list Score)) :
  length returns = length starts ->
  Forall (fun cr => snd cr = Returned (per_index f (fst cr)))
         (map (fun ir => (chunk_call self a C ctx (fst ir),
                          Returned (snd ir)))
              (combine starts returns)) ->
  returns = map (fun i => per_index f (chunk_call self a C ctx i)) starts.
Proof.
  revert returns. induction starts as [|i starts IH];
    intros [|r returns] Hlen Hall; simpl in *; try discriminate;
    [reflexivity|].
  inversion Hall as [|? ? Hhd Htl]; subst. simpl in Hhd.
  inversion Hhd; subst. f_equal. apply IH; [lia | assumption].
Qed.

(** With a per-index scoring method the scores of a run are those of one
    call on the whole suite, whatever the positive [batch_size]. *)
Lemma scores_of_whole_suite (self : TestSuite Metadata)
  (a : RunArgs DataFrame) (w : World) (tr : TestRun Score Metadata)
  (st' : State)
  (f : option string -> string -> string -> option string -> Score) :
  run env self a (start w) = (Returned tr, st') ->
  (0 < arg_batch_size a)%Z ->
  scored_per_index f (trace st') ->
  exists C ctx,
    resolved (trace st') = Some (C, ctx) /\
    concat (batch_returns (trace st'))
    = per_index f (whole_suite_call self C ctx) /\
    test_case_outputs tr
    = pair_outputs C (per_index f (whole_suite_call self C ctx)) /\
    map score (test_case_outputs tr)
    = per_index f (whole_suite_call self C ctx).
Proof.
  intros Hrun Hpos Hper.
  apply run_sound, run_returned_inv in Hrun.
  destruct Hrun as (C & ctx & scoring & run_dir & returns & md
                    & Hlen & Hres & Hnz & Hrlen & -> & Htrace).
  exists C, ctx.
  set (tail := Ev_initialize_metadata (Returned md) :: _) in Htrace.
  assert (Htail : batch_events tail = [])
    by (subst tail; now destruct (arg_save a)).
  assert (Hret : batch_returns (trace st') = returns)
    by (rewrite Htrace; now apply batch_returns_scored).
  assert (Hbs : arg_batch_size a = Z.of_nat (Z.to_nat (arg_batch_size a)))
    by lia.
  assert (Hb : 0 < Z.to_nat (arg_batch_size a)) by lia.
  unfold scored_per_index in Hper.
  rewrite Htrace, batch_events_scored in Hper by assumption.
  apply returns_per_index in Hper; [|assumption].
  assert (Hall : concat returns
                 = per_index f (whole_suite_call self C ctx)).
  { rewrite Hper, (chunk_starts_positive self a Hbs Hb), map_map.
    rewrite (map_ext _ (fun k => firstn (Z.to_nat (arg_batch_size a))
                          (skipn (k * Z.to_nat (arg_batch_size a))
                             (per_index f (whole_suite_call self C ctx)))))
      by (intros k; now apply per_index_chunk).
    rewrite concat_chunks. simpl skipn.
    apply firstn_all2.
    pose proof (per_index_length self f C ctx).
    pose proof (range_length_chunks (length (test_cases (self_suite self)))
                  Hb) as [Hcover _].
    lia. }
  rewrite Hret, Hall. simpl.
  split; [now rewrite Htrace; destruct run_dir|].
  split; [reflexivity|]. split; [reflexivity|].
  rewrite pair_outputs_score. apply firstn_all2.
  apply per_index_length.
Qed.

(** C4.  Two runs of one suite on the same resolved candidates and context,
    each with a positive [batch_size] and a scoring method that applies [f]
    index by index to the slices, return the same outputs: the scores are
    those of one call on the whole suite.  With 65 cases and [batch_size =
    32] a run that returns has made exactly three [run_batch] calls, on
    slices of 32, 32 and 1 cases, and its scores are what they returned, in
    that order. *)
Theorem batching_is_transparent
  (self : TestSuite Metadata) (a1 a2 : RunArgs DataFrame) (w1 w2 : World)
  (tr1 tr2 : TestRun Score Metadata) (st1 st2 : State)
  (f : option string -> string -> string -> option string -> Score) :
  run env self a1 (start w1) = (Returned tr1, st1) ->
  run env self a2 (start w2) = (Returned tr2, st2) ->
  (0 < arg_batch_size a1)%Z ->
  (0 < arg_batch_size a2)%Z ->
  scored_per_index f (trace st1) ->
  scored_per_index f (trace st2) ->
  resolved (trace st1) = resolved (trace st2) ->
  test_case_outputs tr1 = test_case_outputs tr2 /\
  map score (test_case_outputs tr1) = concat (batch_returns (trace st1)) /\
  concat (batch_returns (trace st1)) = concat (batch_returns (trace st2)) /\
  (length (test_cases (self_suite self)) = 65 ->
   arg_batch_size a1 = 32%Z ->
   map (fun cr => slice_sizes (fst cr)) (batch_events (trace st1))
   = [(32, 32, 32); (32, 32, 32); (1, 1, 1)]).
Proof.
  intros Hrun1 Hrun2 Hpos1 Hpos2 Hper1 Hper2 Hsame.
  destruct (@scores_of_whole_suite self a1 w1 tr1 st1 f Hrun1 Hpos1 Hper1)
    as (C & ctx & Hres1 & Hall1 & Hout1 & Hsc1).
  destruct (@scores_of_whole_suite self a2 w2 tr2 st2 f Hrun2 Hpos2 Hper2)
    as (C' & ctx' & Hres2 & Hall2 & Hout2 & Hsc2).
  rewrite Hres1, Hres2 in Hsame. inversion Hsame; subst C' ctx'.
  split; [congruence|]. split; [congruence|]. split; [congruence|].
  intros Hn Hbs.
  apply run_sound, run_returned_inv in Hrun1.
  destruct Hrun1 as (C0 & ctx0 & scoring & run_dir & returns & md
                     & Hlen & Hrd & Hnz & Hrlen & _ & Htrace).
  assert (C0 = C /\ ctx0 = ctx) as [-> ->].
  { rewrite Htrace, resolved_prologue in Hres1. now inversion Hres1. }
  assert (Hstarts : chunk_starts self a1 = [0; 32; 64]%Z).
  { unfold chunk_starts. now rewrite Hn, Hbs. }
  rewrite Hstarts in Hrlen, Htrace.
  destruct returns as [|r0 [|r1 [|r2 [|r3 returns]]]]; try discriminate.
  rewrite Htrace, batch_events_scored by (now destruct (arg_save a1)).
  rewrite Hn in Hlen.
  cbn [combine map fst]. unfold slice_sizes.
  rewrite !call_refs_chunk, !call_candidates_chunk, !call_inputs_chunk.
  rewrite Hbs.
  change 0%Z with (Z.of_nat 0). change 32%Z with (Z.of_nat 32).
  change 64%Z with (Z.of_nat 64).
  rewrite !slice_chunk by lia.
  rewrite !length_map, !length_firstn, !length_skipn, Hlen, Hn.
  reflexivity.
Qed.

(** C5.  When a suite of the requested name is already persisted,
    [__init__] builds nothing: [self.suite] is the persisted suite as it is
    (test cases and scoring method included), the only things done are the
    lookup and a log record -- no scoring method is resolved, no data is
    loaded, no directory is created -- and any other constructor call with
    that name, whatever its scoring method, data and description, gives the
    same result. *)
Theorem init_reuses_persisted_suite
  (a a' : InitArgs DataFrame) (w w1 : World)
  (existing : TestSuiteRequest Metadata) :
  _get_suite_if_exists env (init_name a) w = (Returned (Some existing), w1) ->
  init_name a' = init_name a ->
  __init__ env a (start w)
  = (Returned {| self_id := None;
                 self_suite := existing;
                 self_test_suite_dir := _test_suite_dir env (init_name a) w1 |},
     {| world := w1;
        trace := [Ev_get_suite_if_exists (init_name a)
                                         (Returned (Some existing));
                  Ev_logger_info
                    ("Found existing test suite with name "
                     ++ init_name a ++ ". Using existing suite")%string] |})
  /\ __init__ env a' (start w) = __init__ env a (start w)
  /\ forallb (fun ev => negb (touches_disk ev))
             (trace (snd (__init__ env a (start w)))) = true.
Proof.
  intros Hget Hname.
  assert (Hinit : forall b, init_name b = init_name a ->
            __init__ env b (start w)
            = (Returned {| self_id := None;
                           self_suite := existing;
                           self_test_suite_dir :=
                             _test_suite_dir env (init_name a) w1 |},
               {| world := w1;
                  trace := [Ev_get_suite_if_exists
                              (init_name a) (Returned (Some existing));
                            Ev_logger_info
                              ("Found existing test suite with name "
                               ++ init_name a
                               ++ ". Using existing suite")%string] |})).
  { intros b Hb. unfold __init__, bind, call, log, read, ret, start.
    cbn [world trace]. rewrite Hb, Hget. reflexivity. }
  split; [now apply Hinit|]. split.
  - now rewrite (Hinit a' Hname), (Hinit a eq_refl).
  - now rewrite (Hinit a eq_refl).
Qed.

(** What [__init__] itself does for [QACorrectness] (lines 53-62), whatever
    the loader is.  When no suite of the name is persisted and the scoring
    method resolves to [QACorrectness], [_load_suite_from_args] is called
    with [reference_column=None], so the constructor does the same whatever
    [reference_column] the caller gave.  The reference output list is handed
    to the loader as the caller gave it, and the test cases of the suite are
    what the loader returned. *)
Lemma qa_correctness_drops_reference_column
  (a : InitArgs DataFrame) (w w1 w2 : World) :
  _get_suite_if_exists env (init_name a) w = (Returned None, w1) ->
  _get_scoring_method env (init_scoring_method a) w1
  = (Returned QACorrectness, w2) ->
  (forall column,
     __init__ env (with_reference_column a column) (start w)
     = __init__ env a (start w)) /\
  (forall ts st',
     __init__ env a (start w) = (Returned ts, st') ->
     scoring_method (self_suite ts) = QACorrectness /\
     In (Ev_load_suite_from_args
           {| sd_reference_data := init_reference_data a;
              sd_reference_data_path := init_reference_data_path a;
              sd_input_column := init_input_column a;
              sd_reference_column := None;
              sd_input_text_list := init_input_text_list a;
              sd_reference_output_list := init_reference_output_list a |}
           (Returned (test_cases (self_suite ts))))
        (trace st')).
Proof.
  intros Hget Hmethod. split.
  - intros column. unfold __init__, bind, call, start. cbn [world trace].
    cbn [with_reference_column init_name init_scoring_method
         init_description init_reference_data init_reference_data_path
         init_input_column init_reference_column init_input_text_list
         init_reference_output_list].
    rewrite Hget. cbn [world trace]. rewrite Hmethod. reflexivity.
  - intros ts st'. unfold __init__, bind, call, ret, start.
    cbn [world trace]. rewrite Hget. cbn [world trace]. rewrite Hmethod.
    cbn [world trace ScoringEnum_eqb].
    match goal with
    | |- context [_load_suite_from_args env ?d w2] =>
        destruct (_load_suite_from_args env d w2) as [[cases | e] w3]
    end; cbn [world trace]; [|intros H; discriminate].
    destruct (_initialize_metadata env w3) as [[md | e] w4];
      cbn [world trace]; [|intros H; discriminate].
    destruct (_create_test_suite_dir env (init_name a) w4)
      as [[dir | e] w5]; cbn [world trace]; [|intros H; discriminate].
    intros Hrun. inversion Hrun; subst. cbn.
    split; [reflexivity|]. tauto.
Qed.

End Claims.

(* ===================================================================== *)
(** ** [__init__] on the loader the spec describes *)
(* ===================================================================== *)

Section ReferencesIgnored.

Context {Score Metadata ScoringMethod : Type}.
Variable env : Collaborators Score InMemory.DataFrame Metadata ScoringMethod
                             InMemory.World.

Local Abbreviation State :=
  (state Score InMemory.DataFrame Metadata ScoringMethod InMemory.World).

(** Without a reference column the loader does not look at the reference
    list. *)
Lemma load_ignores_reference_list data path column inputs
  (references references' : option (list string)) (w : InMemory.World) :
  InMemory.load_suite_from_args
    {| sd_reference_data := data; sd_reference_data_path := path;
       sd_input_column := column; sd_reference_column := None;
       sd_input_text_list := inputs;
       sd_reference_output_list := references |} w
  = InMemory.load_suite_from_args
      {| sd_reference_data := data; sd_reference_data_path := path;
         sd_input_column := column; sd_reference_column := None;
         sd_input_text_list := inputs;
         sd_reference_output_list := references' |} w.
Proof. reflexivity. Qed.

(** Without a reference column the loader builds the cases from the inputs
    of the first usable source. *)
Lemma load_without_reference_column data path column inputs references
  (w w' : InMemory.World) (cases : list TestCase) :
  InMemory.load_suite_from_args
    {| sd_reference_data := data; sd_reference_data_path := path;
       sd_input_column := column; sd_reference_column := None;
       sd_input_text_list := inputs;
       sd_reference_output_list := references |} w
  = (Returned cases, w') ->
  w' = w /\
  exists texts,
    cases = map (fun i => {| input := i; reference_output := None |}) texts /\
    match data, path, inputs with
    | Some df, _, _ => InMemory.lookup column df = Some texts
    | None, Some file, _ =>
        exists df,
          InMemory.lookup file (InMemory.csvs w) = Some df /\
          InMemory.lookup column df = Some texts
    | None, None, text_list => text_list = Some texts
    end.
Proof.
  unfold InMemory.load_suite_from_args, InMemory.cases_of_dataframe.
  cbn [sd_reference_data sd_reference_data_path sd_input_column
       sd_reference_column sd_input_text_list sd_reference_output_list].
  destruct data as [df|].
  - destruct (InMemory.lookup column df) as [texts|] eqn:Hcol;
      intros H; inversion H; subst.
    split; [reflexivity|]. now exists texts.
  - destruct path as [file|].
    + destruct (InMemory.lookup file (InMemory.csvs w)) as [df|] eqn:Hfile;
        [|intros H; discriminate H].
      destruct (InMemory.lookup column df) as [texts|] eqn:Hcol;
        intros H; inversion H; subst.
      split; [reflexivity|]. exists texts. split; [reflexivity|].
      now exists df.
    + destruct inputs as [texts|]; intros H; inversion H; subst.
      split; [reflexivity|]. now exists texts.
Qed.

(** C6.  On the loader of section 4.1: when no suite of the name is
    persisted and the scoring method resolves to [QACorrectness], the test
    cases of the new suite have no reference output; they are built from the
    inputs of the first usable source (the input column of the table, of the
    table at the path, or the input list); and the constructor gives the
    same suite whatever reference column and whatever reference output list
    the caller supplies. *)
Theorem qa_correctness_ignores_references
  (a : InitArgs InMemory.DataFrame) (w w1 w2 : InMemory.World)
  (ts : TestSuite Metadata) (st' : State) :
  (forall d w0,
     _load_suite_from_args env d w0 = InMemory.load_suite_from_args d w0) ->
  _get_suite_if_exists env (init_name a) w = (Returned None, w1) ->
  _get_scoring_method env (init_scoring_method a) w1
  = (Returned QACorrectness, w2) ->
  __init__ env a (start w) = (Returned ts, st') ->
  Forall (fun case => reference_output case = None)
         (test_cases (self_suite ts)) /\
  (exists texts,
     test_cases (self_suite ts)
     = map (fun i => {| input := i; reference_output := None |}) texts /\
     match init_reference_data a, init_reference_data_path a,
           init_input_text_list a with
     | Some df, _, _ => InMemory.lookup (init_input_column a) df = Some texts
     | None, Some file, _ =>
         exists df,
           InMemory.lookup file (InMemory.csvs w2) = Some df /\
           InMemory.lookup (init_input_column a) df = Some texts
     | None, None, text_list => text_list = Some texts
     end) /\
  (forall column references,
     fst (__init__ env (with_references a column references) (start w))
     = Returned ts /\
     world (snd (__init__ env (with_references a column references)
                          (start w)))
     = world st').
Proof.
  intros Hloader Hget Hmethod Hrun.
  assert (Hsame : forall column references,
             fst (__init__ env (with_references a column references)
                           (start w))
             = fst (__init__ env a (start w)) /\
             world (snd (__init__ env (with_references a column references)
                                  (start w)))
             = world (snd (__init__ env a (start w)))).
  { intros column references.
    unfold __init__, bind, call, ret, start. cbn [world trace].
    cbn [with_references init_name init_scoring_method init_description
         init_reference_data init_reference_data_path init_input_column
         init_reference_column init_input_text_list
         init_reference_output_list].
    rewrite Hget. cbn [world trace]. rewrite Hmethod.
    cbn [world trace ScoringEnum_eqb]. rewrite !Hloader.
    rewrite (load_ignores_reference_list
               _ _ _ _ references (init_reference_output_list a)).
    match goal with
    | |- context [InMemory.load_suite_from_args ?d w2] =>
        destruct (InMemory.load_suite_from_args d w2) as [[cases | e] w3]
    end; cbn [world trace fst snd]; [|now split].
    destruct (_initialize_metadata env w3) as [[md | e] w4];
      cbn [world trace fst snd]; [|now split].
    destruct (_create_test_suite_dir env (init_name a) w4)
      as [[dir | e] w5]; cbn [world trace fst snd]; now split. }
  assert (Hcases : exists w3,
             InMemory.load_suite_from_args
               {| sd_reference_data := init_reference_data a;
                  sd_reference_data_path := init_reference_data_path a;
                  sd_input_column := init_input_column a;
                  sd_reference_column := None;
                  sd_input_text_list := init_input_text_list a;
                  sd_reference_output_list := init_reference_output_list a |}
               w2
             = (Returned (test_cases (self_suite ts)), w3)).
  { revert Hrun. unfold __init__, bind, call, ret, start.
    cbn [world trace]. rewrite Hget. cbn [world trace]. rewrite Hmethod.
    cbn [world trace ScoringEnum_eqb]. rewrite Hloader.
    match goal with
    | |- context [InMemory.load_suite_from_args ?d w2] =>
        destruct (InMemory.load_suite_from_args d w2) as [[cases | e] w3]
    end; cbn [world trace]; [|intros H; discriminate].
    destruct (_initialize_metadata env w3) as [[md | e] w4];
      cbn [world trace]; [|intros H; discriminate].
    destruct (_create_test_suite_dir env (init_name a) w4)
      as [[dir | e] w5]; cbn [world trace]; [|intros H; discriminate].
    intros Hrun. inversion Hrun; subst. cbn. now exists w3. }
  destruct Hcases as [w3 Hcases].
  apply load_without_reference_column in Hcases.
  destruct Hcases as [_ [texts [Hcases Hsource]]].
  split; [|split].
  - rewrite Hcases. apply Forall_forall. intros case Hin.
    apply in_map_iff in Hin. now destruct Hin as [i [<- _]].
  - now exists texts.
  - intros column references.
    destruct (Hsame column references) as [Hfst Hworld].
    rewrite Hfst, Hworld, Hrun. now split.
Qed.

End ReferencesIgnored.

(* ===================================================================== *)
(** ** Further properties of [run]: the other paths, and what it never
       does *)
(* ===================================================================== *)

Section RunEdges.

Context {Score DataFrame Metadata ScoringMethod World : Type}.
Variable env : Collaborators Score DataFrame Metadata ScoringMethod World.

Local Abbreviation Event := (event Score DataFrame Metadata ScoringMethod).
Local Abbreviation State := (state Score DataFrame Metadata ScoringMethod World).

(** Takes a membership in a trace built with [++] and [::] apart. *)
Ltac in_inv H :=
  repeat first
    [ apply in_app_or in H; destruct H as [H | H]
    | apply in_map_iff in H; destruct H as [? [H _]]
    | destruct H as [H | H]
    | contradiction H ].

(** The paths of a run, each with its trace written out. *)
Ltac run_paths Hrun :=
  apply run_sound in Hrun;
  match type of Hrun with
  | run_shape _ _ _ _ (trace ?st) =>
      let w' := fresh "w'" in
      let t := fresh "t" in
      destruct st as [w' t]; cbn [trace world] in *
  end;
  inversion Hrun as
    [ ?e
    | ?C ?ctx ?Hne
    | ?C ?ctx ?e ?Hlen
    | ?C ?ctx ?scoring ?e ?Hlen ?Hsave
    | ?C ?ctx ?scoring ?run_dir ?e ?levs ?r0 ?hevs ?Hlen ?Hrd ?Hloop ?Hh
    | ?C ?ctx ?scoring ?run_dir ?all ?levs ?r0 ?fevs ?Hlen ?Hrd ?Hloop ?Hfin ];
  subst;
  try match goal with
      | Hloop : loop_shape _ _ _ _ _ _ |- _ => inversion Hloop; subst
      end;
  try match goal with
      | Hh : handler_shape _ _ _ _ _ |- _ => inversion Hh; subst
      end;
  try match goal with
      | Hfin : finish_shape _ _ _ _ _ _ _ _ |- _ => inversion Hfin; subst
      end;
  try match goal with
      | Hrd : reserved _ ?rd |- _ =>
          is_var rd; destruct rd; unfold reserved in Hrd
      end;
  unfold reserved in *.

Lemma completed_only_batches (self : TestSuite Metadata)
  (a : RunArgs DataFrame) C ctx starts (returns : list (list Score))
  (P : Event -> bool) :
  (forall c scores, P (Ev_run_batch c (Returned scores)) = true) ->
  forallb P (completed self a C ctx starts returns) = true.
Proof.
  intros HP. unfold completed. apply forallb_forall. intros ev Hev.
  apply in_map_iff in Hev. destruct Hev as [? [<- _]]. apply HP.
Qed.

(** X1.  Without [save], [run] calls nothing that creates, writes or
    deletes: whether it returns or raises, its trace has no directory
    creation, no clean-up, no write of the suite and no save of the run. *)
Theorem run_without_save_leaves_disk_alone
  (self : TestSuite Metadata) (a : RunArgs DataFrame) (w : World)
  (r : outcome (TestRun Score Metadata)) (st' : State) :
  run env self a (start w) = (r, st') ->
  arg_save a = false ->
  forallb (fun ev => negb (touches_disk ev)) (trace st') = true.
Proof.
  intros Hrun Hsave. run_paths Hrun; try congruence; try reflexivity;
    rewrite ?forallb_app, ?completed_only_batches by reflexivity;
    reflexivity.
Qed.

(** X2.  An exception raised by the data resolution, by the loading of the
    scoring method or by the creation of the run directory leaves [run] as
    it is: it is not wrapped in an [ArthurInternalError], the raising call
    is the last thing done, and nothing is scored, logged, cleaned up or
    saved. *)
Theorem run_early_failure_not_wrapped
  (self : TestSuite Metadata) (a : RunArgs DataFrame) (w : World)
  (r : outcome (TestRun Score Metadata)) (st' : State)
  (ev : Event) (e : exn) :
  run env self a (start w) = (r, st') ->
  In ev (trace st') ->
  early_failure ev = Some e ->
  r = Raised e /\
  (exists before, trace st' = before ++ [ev]) /\
  batch_events (trace st') = [] /\
  forallb (fun x => negb (is_clean_up x) && negb (is_logger_error x)
                    && negb (is_save x)) (trace st') = true.
Proof.
  intros Hrun Hin Hearly.
  run_paths Hrun; unfold completed in Hin; in_inv Hin; subst;
    try discriminate Hearly;
    injection Hearly as <-.
  - split; [reflexivity|]. split; [now exists []|]. now split.
  - split; [reflexivity|]. split; [now eexists [_]|]. now split.
  - split; [reflexivity|]. split; [now eexists [_; _]|]. now split.
Qed.

(** Where the one element with a mark stands in a list decides the split
    of the list around it. *)
Lemma split_at_marked {A} (Q : A -> bool) (pre pre' post post' : list A) x x' :
  pre ++ x :: post = pre' ++ x' :: post' ->
  Q x = true ->
  forallb (fun y => negb (Q y)) pre' = true ->
  forallb (fun y => negb (Q y)) post' = true ->
  pre = pre' /\ x = x' /\ post = post'.
Proof.
  revert pre. induction pre' as [|z pre' IH]; intros pre Heq Hx Hpre Hpost.
  - destruct pre as [|y pre]; simpl in Heq; inversion Heq; subst.
    + now repeat split.
    + exfalso. rewrite forallb_app in Hpost. simpl in Hpost.
      rewrite Hx in Hpost. simpl in Hpost.
      now rewrite andb_false_r in Hpost.
  - simpl in Hpre. apply andb_true_iff in Hpre. destruct Hpre as [Hz Hpre].
    destruct pre as [|y pre]; simpl in Heq; inversion Heq; subst.
    + rewrite Hx in Hz. discriminate.
    + destruct (IH pre H1 Hx Hpre Hpost) as (-> & -> & ->).
      now repeat split.
Qed.

(** X3.  Scoring stops at the first chunk that fails: every call before a
    [run_batch] call that raised has returned, and no [run_batch] call is
    made after it -- no retry, and no later chunk is scored. *)
Theorem run_stops_at_first_failing_chunk
  (self : TestSuite Metadata) (a : RunArgs DataFrame) (w : World)
  (r : outcome (TestRun Score Metadata)) (st' : State)
  (before after : list Event) (c : batch_call) (e : exn) :
  run env self a (start w) = (r, st') ->
  trace st' = before ++ Ev_run_batch c (Raised e) :: after ->
  forallb event_returned before = true /\
  forallb (fun ev => negb (is_run_batch ev)) after = true /\
  length (batch_events before) < length (chunk_starts self a).
Proof.
  intros Hrun Heq.
  assert (Hin : In (c, Raised e) (batch_events (trace st')))
    by (apply in_batch_events; rewrite Heq; apply in_elt).
  assert (Hsplit : id (trace st'
                       = before ++ Ev_run_batch c (Raised e) :: after))
    by exact Heq.
  clear Heq.
  run_paths Hrun; unfold id in Hsplit; rename Hsplit into Heq;
    try (simpl in Hin; contradiction);
    try (rewrite ?batch_events_app, ?batch_events_completed in Hin;
         simpl in Hin; rewrite ?app_nil_r in Hin;
         try apply in_completed_returned in Hin; contradiction).
  all: rewrite app_assoc in Heq;
    match type of Heq with
    | (?P ++ ?Cp ++ [?F]) ++ ?H = _ =>
        replace ((P ++ Cp ++ [F]) ++ H) with ((P ++ Cp) ++ F :: H) in Heq
          by (now rewrite <- !app_assoc)
    end;
    symmetry in Heq;
    apply (split_at_marked is_failed_batch) in Heq;
    [ destruct Heq as (-> & _ & ->)
    | reflexivity
    | rewrite forallb_app, completed_only_batches by reflexivity;
      reflexivity
    | reflexivity ].
  all: split;
    [ rewrite forallb_app, completed_only_batches by reflexivity;
      reflexivity |].
  all: split; [reflexivity|].
  all: rewrite batch_events_app, batch_events_completed, length_app,
    length_map, length_combine; simpl;
    match goal with
    | Hs : chunk_starts _ _ = _ |- _ => rewrite Hs, length_app; simpl; lia
    end.
Qed.

(** X4.  When the clean-up of the run directory raises, that exception
    leaves [run] in place of the [ArthurInternalError]: the scoring failure
    is only in the log, and the directory is left as the failed clean-up
    left it. *)
Theorem run_clean_up_failure_masks_scoring_error
  (self : TestSuite Metadata) (a : RunArgs DataFrame) (w : World)
  (r : outcome (TestRun Score Metadata)) (st' : State)
  (dir : Path) (e' : exn) :
  run env self a (start w) = (r, st') ->
  In (Ev_clean_up_run dir (Raised e')) (trace st') ->
  r = Raised e' /\
  arg_save a = true /\
  In (Ev_create_run_dir (name (self_suite self)) (arg_run_name a)
                        (Returned dir)) (trace st') /\
  exists before cause,
    trace st'
    = before
      ++ [Ev_logger_error ("failed to create run: " ++ str cause)%string;
          Ev_clean_up_run dir (Raised e')].
Proof.
  intros Hrun Hin.
  run_paths Hrun; unfold completed in Hin; in_inv Hin;
    try discriminate Hin; injection Hin as -> ->.
  - split; [reflexivity|]. split; [assumption|].
    split; [simpl; tauto|].
    eexists _, _. rewrite app_assoc. reflexivity.
  - split; [reflexivity|]. split; [assumption|].
    split; [simpl; tauto|].
    eexists _, _. rewrite app_assoc. reflexivity.
Qed.

(** X5.  An exception raised after the scoring -- by the metadata, by the
    write of the suite file or by the save of the run -- leaves [run] as it
    is, from the last call made; everything before it had returned.  It is
    raised outside the [try]: nothing is logged and the run directory, when
    one was created, is not cleaned up. *)
Theorem run_late_failure_keeps_run_dir
  (self : TestSuite Metadata) (a : RunArgs DataFrame) (w : World)
  (r : outcome (TestRun Score Metadata)) (st' : State)
  (ev : Event) (e : exn) :
  run env self a (start w) = (r, st') ->
  In ev (trace st') ->
  late_failure ev = Some e ->
  r = Raised e /\
  (exists before,
     trace st' = before ++ [ev] /\ forallb event_returned before = true) /\
  forallb (fun x => negb (is_clean_up x) && negb (is_logger_error x))
          (trace st') = true /\
  (arg_save a = true ->
   exists dir,
     In (Ev_create_run_dir (name (self_suite self)) (arg_run_name a)
                           (Returned dir)) (trace st')).
Proof.
  intros Hrun Hin Hlate.
  run_paths Hrun; unfold completed in Hin; in_inv Hin; subst;
    try discriminate Hlate; injection Hlate as <-.
  all: split; [reflexivity|].
  all: split;
    [ match goal with
      | |- exists before, ?P ++ ?Cp ++ [_] = _ /\ _ => exists (P ++ Cp)
      | |- exists before, ?P ++ ?Cp ++ [?y; _] = _ /\ _ =>
          exists (P ++ Cp ++ [y])
      | |- exists before, ?P ++ ?Cp ++ [?z; ?y; _] = _ /\ _ =>
          exists (P ++ Cp ++ [z; y])
      end;
      split;
      [ now rewrite <- ?app_assoc
      | rewrite ?forallb_app, ?completed_only_batches by reflexivity;
        reflexivity ] |].
  all: split;
    [ rewrite ?forallb_app, ?completed_only_batches by reflexivity;
      reflexivity |].
  all: intros Hsave; try congruence; eexists; simpl; tauto.
Qed.

Lemma map_fst_combine_same_length {A B} (l : list A) (l' : list B) :
  length l' = length l -> map fst (combine l l') = l.
Proof.
  revert l'. induction l as [|x l IH]; intros [|y l'] Hlen;
    simpl in *; try discriminate; [reflexivity|].
  f_equal. apply IH. lia.
Qed.

(** The calls of a run that returned: one per chunk, in the order of the
    loop. *)
Lemma batch_calls_of_returned_run (self : TestSuite Metadata)
  (a : RunArgs DataFrame) json tr (t : list Event) :
  run_shape self a json (Returned tr) t ->
  exists C ctx,
    resolved t = Some (C, ctx) /\
    length C = length (test_cases (self_suite self)) /\
    test_case_outputs tr = pair_outputs C (concat (batch_returns t)) /\
    batch_calls t
    = map (chunk_call self a C ctx) (chunk_starts self a).
Proof.
  intros Hshape. apply run_returned_inv in Hshape.
  destruct Hshape as (C & ctx & scoring & run_dir & returns & md
                      & Hlen & Hrd & Hnz & Hrlen & -> & ->).
  exists C, ctx.
  assert (Htail : forall tail : list Event,
             tail = Ev_initialize_metadata (Returned md)
                    :: (if arg_save a
                        then [Ev_write_text (suite_file self)
                                (json (self_suite self)) (Returned tt);
                              Ev_TestRun_save
                                (assemble a
                                   (pair_outputs C (concat returns))
                                   run_dir md)
                                (Returned tt)]
                        else []) ->
             batch_events tail = [])
    by (intros tail ->; now destruct (arg_save a)).
  split; [apply resolved_prologue|]. split; [assumption|].
  split.
  - rewrite batch_returns_scored; [reflexivity | assumption |].
    now apply Htail.
  - unfold batch_calls.
    rewrite batch_events_scored by (now apply Htail).
    rewrite map_map. simpl.
    rewrite <- (map_map fst (chunk_call self a C ctx)).
    now rewrite map_fst_combine_same_length.
Qed.

Lemma range_length_ceiling (n : nat) (step : Z) :
  (0 < step)%Z ->
  Z.of_nat (range_length 0 (Z.of_nat n) step)
  = ((Z.of_nat n + step - 1) / step)%Z.
Proof.
  intros Hpos. unfold range_length.
  destruct (Z.ltb_spec 0 step); [|lia].
  destruct (Z.ltb_spec 0 (Z.of_nat n)) as [Hn | Hn].
  - assert (0 <= (Z.of_nat n - 1 - 0) / step)%Z
      by (apply Z.div_pos; lia).
    rewrite Z2Nat.id by lia.
    replace (Z.of_nat n + step - 1)%Z
      with ((Z.of_nat n - 1 - 0) + 1 * step)%Z by lia.
    rewrite Z.div_add by lia. lia.
  - replace (Z.of_nat n) with 0%Z by lia.
    simpl. symmetry. apply Z.div_small. lia.
Qed.

(** X6.  A run that returns, made with a positive [batch_size], has scored
    every case exactly once and in suite order: put end to end, the
    candidate slices of its [run_batch] calls are the resolved candidates,
    the input slices the inputs of the suite and the reference slices its
    reference outputs; and no call is made on an empty slice. *)
Theorem run_scores_each_case_once
  (self : TestSuite Metadata) (a : RunArgs DataFrame) (w : World)
  (tr : TestRun Score Metadata) (st' : State) :
  run env self a (start w) = (Returned tr, st') ->
  (0 < arg_batch_size a)%Z ->
  exists C ctx,
    resolved (trace st') = Some (C, ctx) /\
    concat (map call_candidates (batch_calls (trace st'))) = C /\
    concat (map call_inputs (batch_calls (trace st')))
    = map input (test_cases (self_suite self)) /\
    concat (map call_refs (batch_calls (trace st')))
    = map reference_output (test_cases (self_suite self)) /\
    Forall (fun c => call_candidates c <> [] /\ call_inputs c <> [])
           (batch_calls (trace st')).
Proof.
  intros Hrun Hpos.
  apply run_sound, batch_calls_of_returned_run in Hrun.
  destruct Hrun as (C & ctx & Hres & Hlen & _ & Hcalls).
  exists C, ctx. split; [assumption|]. rewrite Hcalls.
  assert (Hbs : arg_batch_size a = Z.of_nat (Z.to_nat (arg_batch_size a)))
    by lia.
  assert (Hb : 0 < Z.to_nat (arg_batch_size a)) by lia.
  set (b := Z.to_nat (arg_batch_size a)) in *.
  destruct (range_length_chunks (length (test_cases (self_suite self))) Hb)
    as [Hcover Hin].
  rewrite (chunk_starts_positive self a Hbs Hb).
  rewrite !map_map.
  split; [|split; [|split]].
  - rewrite (map_ext _ (fun k => firstn b (skipn (k * b) C)))
      by (intros k; rewrite call_candidates_chunk, Hbs;
          now apply slice_chunk).
    rewrite concat_chunks. simpl skipn. apply firstn_all2. lia.
  - rewrite (map_ext _ (fun k => firstn b
                          (skipn (k * b)
                             (map input (test_cases (self_suite self))))))
      by (intros k; rewrite call_inputs_chunk, Hbs, slice_chunk by assumption;
          apply map_chunk).
    rewrite concat_chunks. simpl skipn. apply firstn_all2.
    rewrite length_map. lia.
  - rewrite (map_ext _ (fun k => firstn b
                          (skipn (k * b)
                             (map reference_output
                                  (test_cases (self_suite self))))))
      by (intros k; rewrite call_refs_chunk, Hbs, slice_chunk by assumption;
          apply map_chunk).
    rewrite concat_chunks. simpl skipn. apply firstn_all2.
    rewrite length_map. lia.
  - apply Forall_forall. intros c Hc.
    apply in_map_iff in Hc. destruct Hc as [k [<- Hk]].
    apply in_seq in Hk. specialize (Hin k ltac:(lia)).
    rewrite call_candidates_chunk, call_inputs_chunk, Hbs.
    rewrite !slice_chunk by assumption.
    split; intros Hnil; apply (f_equal (@length _)) in Hnil;
      rewrite ?length_map, length_firstn, length_skipn in Hnil;
      simpl in Hnil; lia.
Qed.

(** X7.  A run that returns, made with a positive [batch_size], has made
    [ceil(len(test_cases) / batch_size)] calls of [run_batch]; on an empty
    suite it has made none and returns a [TestRun] with no outputs. *)
Theorem run_number_of_scoring_calls
  (self : TestSuite Metadata) (a : RunArgs DataFrame) (w : World)
  (tr : TestRun Score Metadata) (st' : State) :
  run env self a (start w) = (Returned tr, st') ->
  (0 < arg_batch_size a)%Z ->
  Z.of_nat (length (batch_calls (trace st')))
  = ((Z.of_nat (length (test_cases (self_suite self)))
      + arg_batch_size a - 1) / arg_batch_size a)%Z /\
  (test_cases (self_suite self) = [] ->
   batch_calls (trace st') = [] /\ test_case_outputs tr = []).
Proof.
  intros Hrun Hpos.
  apply run_sound, batch_calls_of_returned_run in Hrun.
  destruct Hrun as (C & ctx & Hres & Hlen & Hout & Hcalls).
  assert (Hcount : length (batch_calls (trace st'))
                   = range_length
                       0 (Z.of_nat (length (test_cases (self_suite self))))
                       (arg_batch_size a)).
  { rewrite Hcalls, length_map. unfold chunk_starts, range.
    destruct (Z.eqb_spec (arg_batch_size a) 0); [lia|].
    now rewrite length_map, length_seq. }
  split.
  - rewrite Hcount. now apply range_length_ceiling.
  - intros Hempty. rewrite Hempty in *. simpl in Hlen.
    destruct C; [|discriminate].
    split; [|now rewrite Hout].
    apply length_zero_iff_nil. rewrite Hcount. unfold range_length. simpl.
    now destruct (0 <? arg_batch_size a)%Z.
Qed.

Lemma slice_whole {A} (l : list A) (b : nat) :
  0 < b -> length l <= b ->
  slice l (Z.of_nat 0) (Z.of_nat 0 + Z.of_nat b) = l.
Proof.
  intros Hb Hlen. rewrite slice_chunk by assumption.
  simpl skipn. now apply firstn_all2.
Qed.

(** X8.  When the suite is not empty and [batch_size] is at least its
    length (as the default 32 is for a suite of up to 32 cases), a run that
    returns has made one [run_batch] call, on all references, all
    candidates and all inputs at once; a context list, if any, is passed up
    to its first [batch_size] entries. *)
Theorem run_single_call_when_batch_covers_suite
  (self : TestSuite Metadata) (a : RunArgs DataFrame) (w : World)
  (tr : TestRun Score Metadata) (st' : State) :
  run env self a (start w) = (Returned tr, st') ->
  test_cases (self_suite self) <> [] ->
  (Z.of_nat (length (test_cases (self_suite self))) <= arg_batch_size a)%Z ->
  exists C ctx c,
    resolved (trace st') = Some (C, ctx) /\
    batch_calls (trace st') = [c] /\
    call_refs c = map reference_output (test_cases (self_suite self)) /\
    call_candidates c = C /\
    call_inputs c = map input (test_cases (self_suite self)) /\
    call_context c
    = option_map (firstn (Z.to_nat (arg_batch_size a))) ctx.
Proof.
  intros Hrun Hne Hcover.
  assert (Hn : 0 < length (test_cases (self_suite self)))
    by (destruct (test_cases (self_suite self)); [congruence | simpl; lia]).
  apply run_sound, batch_calls_of_returned_run in Hrun.
  destruct Hrun as (C & ctx & Hres & Hlen & _ & Hcalls).
  assert (Hbs : arg_batch_size a = Z.of_nat (Z.to_nat (arg_batch_size a)))
    by lia.
  assert (Hb : 0 < Z.to_nat (arg_batch_size a)) by lia.
  set (b := Z.to_nat (arg_batch_size a)) in *.
  assert (Hone : range_length
                   0 (Z.of_nat (length (test_cases (self_suite self))))
                   (Z.of_nat b) = 1).
  { unfold range_length.
    destruct (Z.ltb_spec 0 (Z.of_nat b)); [|lia].
    destruct (Z.ltb_spec
                0 (Z.of_nat (length (test_cases (self_suite self)))));
      [|lia].
    rewrite Z.div_small by lia. reflexivity. }
  rewrite (chunk_starts_positive self a Hbs Hb), Hone in Hcalls.
  simpl in Hcalls.
  exists C, ctx, (chunk_call self a C ctx (Z.of_nat 0)).
  split; [assumption|]. split; [assumption|].
  rewrite call_refs_chunk, call_candidates_chunk, call_inputs_chunk,
    call_context_chunk, Hbs.
  rewrite !slice_whole by (try assumption; lia).
  repeat split.
  destruct ctx as [context|]; [|reflexivity]. simpl.
  change (slice context 0 (Z.of_nat b))
    with (slice context (Z.of_nat 0) (Z.of_nat 0 + Z.of_nat b)).
  now rewrite slice_chunk.
Qed.

(** A [run_batch] call is only made on candidates of the right count. *)
Lemma run_batch_needs_matching_count (self : TestSuite Metadata)
  (a : RunArgs DataFrame) json r (t : list Event) C ctx c o :
  run_shape self a json r t ->
  resolved t = Some (C, ctx) ->
  In (c, o) (batch_events t) ->
  length C = length (test_cases (self_suite self)).
Proof.
  intros Hshape Hres Hin.
  inversion Hshape; subst; try (simpl in Hin; contradiction);
    rewrite resolved_prologue in Hres; now inversion Hres; subst.
Qed.

(** X9.  [run] never compares the length of the context list with the
    suite.  With a positive [batch_size], the call for the chunk that starts
    at case [k * batch_size] gets the candidates and the context entries of
    these positions, whatever there is of them: the candidates slice is
    never empty, but a context list that ends before the chunk starts gives
    the call an empty context. *)
Theorem run_does_not_check_context_length
  (self : TestSuite Metadata) (a : RunArgs DataFrame) (w : World)
  (r : outcome (TestRun Score Metadata)) (st' : State)
  (C context : list string) (c : batch_call) (o : outcome (list Score)) :
  run env self a (start w) = (r, st') ->
  (0 < arg_batch_size a)%Z ->
  resolved (trace st') = Some (C, Some context) ->
  In (Ev_run_batch c o) (trace st') ->
  exists k,
    k * Z.to_nat (arg_batch_size a) < length (test_cases (self_suite self)) /\
    call_candidates c
    = firstn (Z.to_nat (arg_batch_size a))
             (skipn (k * Z.to_nat (arg_batch_size a)) C) /\
    call_context c
    = Some (firstn (Z.to_nat (arg_batch_size a))
                   (skipn (k * Z.to_nat (arg_batch_size a)) context)) /\
    call_candidates c <> [] /\
    (length context <= k * Z.to_nat (arg_batch_size a) ->
     call_context c = Some []).
Proof.
  intros Hrun Hpos Hres Hin.
  apply run_sound in Hrun. apply in_batch_events in Hin.
  assert (Hlen : length C = length (test_cases (self_suite self)))
    by (eapply run_batch_needs_matching_count; eassumption).
  eapply run_batch_calls_are_chunks in Hin; [|eassumption|eassumption].
  destruct Hin as [i [Hi ->]].
  assert (Hbs : arg_batch_size a = Z.of_nat (Z.to_nat (arg_batch_size a)))
    by lia.
  assert (Hb : 0 < Z.to_nat (arg_batch_size a)) by lia.
  set (b := Z.to_nat (arg_batch_size a)) in *.
  rewrite (chunk_starts_positive self a Hbs Hb) in Hi.
  apply in_map_iff in Hi. destruct Hi as [k [<- Hk]].
  apply in_seq in Hk.
  destruct (range_length_chunks (length (test_cases (self_suite self))) Hb)
    as [_ Hin].
  specialize (Hin k ltac:(lia)).
  exists k. split; [assumption|].
  rewrite call_candidates_chunk, call_context_chunk, Hbs.
  simpl option_map. rewrite !slice_chunk by assumption.
  split; [reflexivity|]. split; [reflexivity|]. split.
  - intros Hnil. apply (f_equal (@length _)) in Hnil.
    rewrite length_firstn, length_skipn in Hnil. simpl in Hnil. lia.
  - intros Hshort. now rewrite skipn_all2, firstn_nil.
Qed.

(** X10.  A run that returns pairs candidates and scores by position, up to
    the shorter of the two: it has [min(len(candidates), number of scores)]
    outputs.  In particular, scores in excess of the candidates are dropped
    without an error: every candidate is kept, with the first scores. *)
Theorem run_drops_surplus_scores
  (self : TestSuite Metadata) (a : RunArgs DataFrame) (w : World)
  (tr : TestRun Score Metadata) (st' : State) :
  run env self a (start w) = (Returned tr, st') ->
  exists C ctx,
    resolved (trace st') = Some (C, ctx) /\
    length (test_case_outputs tr)
    = Nat.min (length C) (length (concat (batch_returns (trace st')))) /\
    (forall i c s,
       nth_error C i = Some c ->
       nth_error (concat (batch_returns (trace st'))) i = Some s ->
       nth_error (test_case_outputs tr) i
       = Some {| output := c; score := s |}) /\
    (length C <= length (concat (batch_returns (trace st'))) ->
     map output (test_case_outputs tr) = C /\
     map score (test_case_outputs tr)
     = firstn (length C) (concat (batch_returns (trace st')))).
Proof.
  intros Hrun.
  apply run_sound, batch_calls_of_returned_run in Hrun.
  destruct Hrun as (C & ctx & Hres & Hlen & Hout & _).
  exists C, ctx. split; [assumption|]. rewrite Hout.
  split; [apply pair_outputs_length|].
  split; [intros i c s; apply pair_outputs_nth|].
  intros Hmore. split.
  - rewrite pair_outputs_output. now apply firstn_all2.
  - apply pair_outputs_score.
Qed.

(** X11.  The [TestRun] a run returns carries the run name and the four
    provenance fields as the caller gave them; its [run_dir] is the
    directory [_create_run_dir] returned in this run, and [None] exactly
    when [save] is off; its metadata is what [_initialize_metadata]
    returned. *)
Theorem run_returns_provenance_and_run_dir
  (self : TestSuite Metadata) (a : RunArgs DataFrame) (w : World)
  (tr : TestRun Score Metadata) (st' : State) :
  run env self a (start w) = (Returned tr, st') ->
  run_name tr = arg_run_name a /\
  model_name tr = arg_model_name a /\
  model_version tr = arg_model_version a /\
  foundation_model tr = arg_foundation_model a /\
  prompt_template tr = arg_prompt_template a /\
  (run_dir tr = None <-> arg_save a = false) /\
  (forall dir,
     run_dir tr = Some dir <->
     In (Ev_create_run_dir (name (self_suite self)) (arg_run_name a)
                           (Returned dir)) (trace st')) /\
  In (Ev_initialize_metadata (Returned (run_metadata tr))) (trace st').
Proof.
  intros Hrun.
  apply run_sound, run_returned_inv in Hrun.
  destruct Hrun as (C & ctx & scoring & run_dir & returns & md
                    & Hlen & Hrd & Hnz & Hrlen & -> & ->).
  simpl. repeat (split; [reflexivity|]).
  split; [|split].
  - destruct run_dir; unfold reserved in Hrd; split; congruence.
  - intros dir. split.
    + intros ->. simpl. tauto.
    + intros Hin. unfold completed in Hin.
      destruct run_dir, (arg_save a); in_inv Hin;
        try discriminate Hin; now injection Hin as ->.
  - do 2 right. apply in_or_app. right. apply in_or_app. right. now left.
Qed.

End RunEdges.

(* ===================================================================== *)
(** ** Further properties of [__init__] and [save] *)
(* ===================================================================== *)

Section InitEdges.

Context {Score DataFrame Metadata ScoringMethod World : Type}.
Variable env : Collaborators Score DataFrame Metadata ScoringMethod World.

Local Abbreviation Event := (event Score DataFrame Metadata ScoringMethod).
Local Abbreviation State := (state Score DataFrame Metadata ScoringMethod World).

Lemma ScoringEnum_eqb_QACorrectness (m : ScoringEnum) :
  ScoringEnum_eqb m QACorrectness = true <-> m = QACorrectness.
Proof. destruct m; simpl; split; congruence. Qed.

(** Steps through the collaborator calls of [__init__], in order. *)
Ltac init_calls :=
  unfold __init__, bind, call, log, read, ret, start; cbn [world trace];
  repeat match goal with
    | |- context [_get_suite_if_exists env ?n ?w] =>
        destruct (_get_suite_if_exists env n w) as [[[?existing|] | ?e] ?w1];
        cbn [world trace]
    | |- context [_get_scoring_method env ?m ?w] =>
        destruct (_get_scoring_method env m w) as [[?method | ?e] ?w2];
        cbn [world trace]
    | |- context [_load_suite_from_args env ?d ?w] =>
        destruct (_load_suite_from_args env d w) as [[?cases | ?e] ?w3];
        cbn [world trace]
    | |- context [_initialize_metadata env ?w] =>
        destruct (_initialize_metadata env w) as [[?md | ?e] ?w4];
        cbn [world trace]
    | |- context [_create_test_suite_dir env ?n ?w] =>
        destruct (_create_test_suite_dir env n w) as [[?dir | ?e] ?w5];
        cbn [world trace]
    end.

(** X12.  A constructor call that raises has created nothing: the
    exception is the one of the last call made, every call before it had
    returned, and no call that touches the disk returned -- the only one
    there can be is the creation of the suite directory, as the failed last
    call. *)
Theorem init_failure_creates_nothing
  (a : InitArgs DataFrame) (w : World) (e : exn) (st' : State) :
  __init__ env a (start w) = (Raised e, st') ->
  (exists before ev,
     trace st' = before ++ [ev] /\
     forallb event_returned before = true /\
     event_returned ev = false) /\
  forallb (fun x => negb (touches_disk x && event_returned x))
          (trace st') = true.
Proof.
  init_calls; intros Hrun; inversion Hrun; subst; cbn [trace];
    (split; [|reflexivity]).
  - now eexists [_; _; _; _], _.
  - now eexists [_; _; _], _.
  - now eexists [_; _], _.
  - now eexists [_], _.
  - now eexists [], _.
Qed.

(** X13.  The first construction under a name: the scoring method is
    resolved, the cases are loaded, the metadata is taken and the suite
    directory is created, in this order, the directory last.  The suite
    holds the requested name and description, the resolved method and the
    loaded cases, and has no id.  The loader is given the caller's reference
    column for every method but [QACorrectness]. *)
Theorem init_builds_suite_then_creates_directory
  (a : InitArgs DataFrame) (w w1 : World)
  (ts : TestSuite Metadata) (st' : State) :
  _get_suite_if_exists env (init_name a) w = (Returned None, w1) ->
  __init__ env a (start w) = (Returned ts, st') ->
  exists method cases md dir,
    ts = {| self_id := None;
            self_suite := {| name := init_name a;
                             scoring_method := method;
                             description := init_description a;
                             test_cases := cases;
                             suite_metadata := md |};
            self_test_suite_dir := dir |} /\
    trace st'
    = [Ev_get_suite_if_exists (init_name a) (Returned None);
       Ev_get_scoring_method (init_scoring_method a) (Returned method);
       Ev_load_suite_from_args
         {| sd_reference_data := init_reference_data a;
            sd_reference_data_path := init_reference_data_path a;
            sd_input_column := init_input_column a;
            sd_reference_column :=
              if ScoringEnum_eqb method QACorrectness then None
              else Some (init_reference_column a);
            sd_input_text_list := init_input_text_list a;
            sd_reference_output_list := init_reference_output_list a |}
         (Returned cases);
       Ev_initialize_metadata (Returned md);
       Ev_create_test_suite_dir (init_name a) (Returned dir)] /\
    (method <> QACorrectness ->
     (if ScoringEnum_eqb method QACorrectness then None
      else Some (init_reference_column a))
     = Some (init_reference_column a)).
Proof.
  intros Hget. unfold __init__, bind, call, start. cbn [world trace].
  rewrite Hget. cbn [world trace].
  init_calls; intros Hrun; inversion Hrun; subst; cbn [trace].
  exists method, cases, md, dir.
  split; [reflexivity|]. split; [reflexivity|].
  intros Hne.
  destruct (ScoringEnum_eqb method QACorrectness) eqn:Heq; [|reflexivity].
  now apply ScoringEnum_eqb_QACorrectness in Heq.
Qed.

(** X14.  Constructing a suite under a persisted name and saving it writes
    one file, [suite.json] in that suite's directory, holding the document
    of the persisted suite: nothing of the constructor's other arguments
    reaches the file, and [save] returns or raises as the write does. *)
Theorem save_after_reuse_writes_persisted_suite
  (a : InitArgs DataFrame) (w w1 : World)
  (existing : TestSuiteRequest Metadata)
  (r : outcome unit) (st' : State) :
  _get_suite_if_exists env (init_name a) w = (Returned (Some existing), w1) ->
  bind (__init__ env a) (save env) (start w) = (r, st') ->
  r = fst (write_text env
             (path_div (_test_suite_dir env (init_name a) w1) "suite.json")
             (suite_json env existing) w1) /\
  world st'
  = snd (write_text env
           (path_div (_test_suite_dir env (init_name a) w1) "suite.json")
           (suite_json env existing) w1) /\
  exists info,
    trace st'
    = [Ev_get_suite_if_exists (init_name a) (Returned (Some existing));
       Ev_logger_info info;
       Ev_write_text
         (path_div (_test_suite_dir env (init_name a) w1) "suite.json")
         (suite_json env existing) r].
Proof.
  intros Hget.
  unfold __init__, save, bind, call, log, read, ret, start.
  cbn [world trace]. rewrite Hget. cbn [world trace self_suite
                                         self_test_suite_dir].
  destruct (write_text env _ _ w1) as [o w2] eqn:Hwrite.
  intros Hrun. inversion Hrun; subst. cbn.
  split; [reflexivity|]. split; [reflexivity|]. now eexists.
Qed.

End InitEdges.

(* ===================================================================== *)
(** ** The properties on the in-memory layer *)
(* ===================================================================== *)

Import InMemory.

(** Solves [one_score_per_element] and [scored_per_index] on a computed
    trace. *)
Ltac check_batches :=
  cbv; repeat constructor;
  try (intros scores Hscores; inversion Hscores; reflexivity).

(** Section 8's example: candidates ["4"; "six"] against the two arithmetic
    cases, scored by exact match, come back as [("4", 1); ("six", 0)]. *)
Lemma run_outputs_follow_suite_order_witness :
  exists tr st',
    run env arithmetic (run_args "r1" ["4"; "six"]%string None true 32)
        (start empty_world) = (Returned tr, st') /\
    (0 < 32)%Z /\
    one_score_per_element (trace st') /\
    length (test_case_outputs tr) = 2 /\
    map output (test_case_outputs tr) = ["4"; "six"]%string /\
    map score (test_case_outputs tr) = [1; 0]%Z /\
    nth_error (test_case_outputs tr) 1
    = Some {| output := "six"%string; score := 0%Z |}.
Proof.
  do 2 eexists.
  match goal with |- ?R /\ _ => assert (Hrun : R) by (cbv; reflexivity) end.
  split; [exact Hrun|]. split; [lia|].
  match goal with |- ?O /\ _ => assert (Hone : O) by check_batches end.
  split; [exact Hone|].
  destruct (run_outputs_follow_suite_order
              env arithmetic _ empty_world Hrun ltac:(cbv; reflexivity) Hone)
    as (C & ctx & Hres & Hlen & Hout & Hsc & Hidx).
  cbv in Hres. injection Hres as HC Hctx.
  rewrite <- HC in Hout, Hidx.
  split; [exact Hlen|]. split; [exact Hout|]. split; [exact Hsc|].
  destruct (Hidx 1 ltac:(cbv; lia)) as (c & s & Hc & Hs & Hnth).
  cbv in Hc. cbv in Hs.
  injection Hc as Hc. injection Hs as Hs.
  rewrite <- Hc, <- Hs in Hnth. exact Hnth.
Defined.

(** Finds an event in a computed trace. *)
Ltac in_trace := cbv; repeat (first [left; reflexivity | right]).

(** No event of a computed trace has the given shape. *)
Ltac not_in_trace H :=
  cbv in H; repeat (destruct H as [H | H]; [discriminate H|]); exact H.

(** One candidate for a suite of two cases is refused before anything else
    is done. *)
Lemma run_rejects_count_mismatch_witness :
  _load_run_data_from_args
    env (run_data_args (run_args "r1" ["4"]%string None true 32)) empty_world
  = (Returned (["4"]%string, None), empty_world) /\
  length ["4"%string] <> length (test_cases (self_suite arithmetic)) /\
  exists st',
    run env arithmetic (run_args "r1" ["4"]%string None true 32)
        (start empty_world)
    = (Raised (Exn UserValueError
                   "candidate data has 1 tests but expected 2 tests"), st') /\
    world st' = empty_world /\
    length (trace st') = 1.
Proof.
  assert (Hload : _load_run_data_from_args
                    env (run_data_args (run_args "r1" ["4"]%string None true 32))
                    empty_world
                  = (Returned (["4"]%string, None), empty_world))
    by reflexivity.
  assert (Hlen : length ["4"%string]
                 <> length (test_cases (self_suite arithmetic)))
    by (cbv; lia).
  split; [exact Hload|]. split; [exact Hlen|].
  destruct (@run_rejects_count_mismatch _ _ _ _ _ env arithmetic _ _ _ _ _
              Hload Hlen)
    as (msg & st' & Hrun & _ & _ & Hworld & Htrace & _).
  exists st'.
  assert (Hmsg : msg = "candidate data has 1 tests but expected 2 tests"%string).
  { cbv in Hrun. now injection Hrun as <- _. }
  rewrite Hmsg in Hrun.
  split; [exact Hrun|]. split; [exact Hworld|]. now rewrite Htrace.
Defined.

(** A scoring method that fails on the second chunk with a [RuntimeError]:
    the run raises the internal error and the run directory is deleted. *)
Lemma run_scoring_failure_cleans_up_witness :
  exists r st',
    run env (suite_scored_by "fails_on_boom" arithmetic_cases)
        (run_args "r1" ["4"; "boom"]%string None true 1) (start empty_world)
    = (r, st') /\
    In (Ev_run_batch
          (Call3 [Some "6"%string] ["boom"%string] ["3+3?"%string])
          (Raised (Exn (OtherError "RuntimeError") "scoring backend failed")))
       (trace st') /\
    is_Exception (Exn (OtherError "RuntimeError") "scoring backend failed")
    = true /\
    (forall dir e', ~ In (Ev_clean_up_run dir (Raised e')) (trace st')) /\
    r = Raised (ExnFrom ArthurInternalError "failed to create run r1"
                  (Exn (OtherError "RuntimeError") "scoring backend failed")) /\
    (exists dir, In (Ev_clean_up_run dir (Returned tt)) (trace st')) /\
    dirs (world st') = [root ++ ["arith"%string]].
Proof.
  do 2 eexists.
  match goal with |- ?R /\ _ => assert (Hrun : R) by (cbv; reflexivity) end.
  split; [exact Hrun|].
  match goal with |- ?I /\ _ => assert (Hin : I) by in_trace end.
  split; [exact Hin|]. split; [reflexivity|].
  match goal with
  | |- ?N /\ _ => assert (Hclean : N) by (intros dir e' H; not_in_trace H)
  end.
  split; [exact Hclean|].
  destruct (@run_scoring_failure_cleans_up _ _ _ _ _ env _ _ _ _ _ _ _
              Hrun Hin)
    as (C & ctx & scoring & run_dir & scored & returns & handled
        & Hrd & Htrace & _ & Hcaught & _).
  destruct (Hcaught eq_refl Hclean) as (Hr & _ & Hiff).
  split; [exact Hr|]. split; [|reflexivity].
  apply Hiff. reflexivity.
Defined.

(** C3, as the claim states it, fails on two kinds of run.  A scoring
    backend that raises [KeyboardInterrupt], which is no [Exception]: [run]
    raises the [KeyboardInterrupt] itself, nothing is logged, and the run
    directory it created is still there.  A scoring backend that raises a
    [RuntimeError] on a disk where the run directory cannot be deleted:
    [run] raises the [PermissionError] of the clean-up and the directory is
    still there. *)
Lemma run_scoring_failure_not_always_wrapped :
  (exists r st',
     run interrupted_env arithmetic
         (run_args "r1" ["4"; "six"]%string None true 32) (start empty_world)
     = (r, st') /\
     In (Ev_run_batch
           (Call3 [Some "4"; Some "6"]%string ["4"; "six"]%string
                  ["2+2?"; "3+3?"]%string)
           (Raised (Exn KeyboardInterrupt "interrupted")))
        (trace st') /\
     r = Raised (Exn KeyboardInterrupt "interrupted") /\
     forallb (fun ev => negb (is_logger_error ev) && negb (is_clean_up ev))
             (trace st') = true /\
     dirs (world st')
     = [root ++ ["arith"; "r1"]%string; root ++ ["arith"%string]]) /\
  (exists r st',
     run full_disk_env (suite_scored_by "fails_on_boom" arithmetic_cases)
         (run_args "r1" ["4"; "boom"]%string None true 32) (start empty_world)
     = (r, st') /\
     In (Ev_run_batch
           (Call3 [Some "4"; Some "6"]%string ["4"; "boom"]%string
                  ["2+2?"; "3+3?"]%string)
           (Raised (Exn (OtherError "RuntimeError") "scoring backend failed")))
        (trace st') /\
     r = Raised (Exn (OtherError "PermissionError") "cannot delete") /\
     dirs (world st')
     = [root ++ ["arith"; "r1"]%string; root ++ ["arith"%string]]).
Proof.
  split.
  - do 2 eexists. split; [cbv; reflexivity|].
    split; [in_trace|]. split; [reflexivity|]. split; reflexivity.
  - do 2 eexists. split; [cbv; reflexivity|].
    split; [in_trace|]. split; reflexivity.
Qed.

(** 65 cases scored in chunks of 32 and in chunks of 7: the same outputs,
    and three calls of sizes 32, 32 and 1 for the first run. *)
Lemma batching_is_transparent_witness :
  exists tr1 st1 tr2 st2,
    run env (suite_scored_by "exact_match" (numbered_cases 65))
        (run_args "r32" (numbered "a" 65) None false 32) (start empty_world)
    = (Returned tr1, st1) /\
    run env (suite_scored_by "exact_match" (numbered_cases 65))
        (run_args "r7" (numbered "a" 65) None false 7) (start empty_world)
    = (Returned tr2, st2) /\
    scored_per_index exact_match (trace st1) /\
    scored_per_index exact_match (trace st2) /\
    resolved (trace st1) = resolved (trace st2) /\
    test_case_outputs tr1 = test_case_outputs tr2 /\
    length (batch_events (trace st2)) = 10 /\
    map (fun cr => slice_sizes (fst cr)) (batch_events (trace st1))
    = [(32, 32, 32); (32, 32, 32); (1, 1, 1)].
Proof.
  do 4 eexists.
  match goal with |- ?R /\ _ => assert (Hrun1 : R) by (cbv; reflexivity) end.
  split; [exact Hrun1|].
  match goal with |- ?R /\ _ => assert (Hrun2 : R) by (cbv; reflexivity) end.
  split; [exact Hrun2|].
  match goal with |- ?P /\ _ => assert (Hper1 : P) by check_batches end.
  split; [exact Hper1|].
  match goal with |- ?P /\ _ => assert (Hper2 : P) by check_batches end.
  split; [exact Hper2|].
  match goal with |- ?P /\ _ => assert (Hsame : P) by reflexivity end.
  split; [exact Hsame|].
  destruct (@batching_is_transparent
              _ _ _ _ _ env _ _ _ _ _ _ _ _ _ exact_match Hrun1 Hrun2
              ltac:(cbv; reflexivity) ltac:(cbv; reflexivity)
              Hper1 Hper2 Hsame)
    as (Hout & _ & _ & Hsizes).
  split; [exact Hout|]. split; [reflexivity|].
  exact (Hsizes eq_refl eq_refl).
Defined.

(** The suite "arith" is persisted: a constructor call that names it with
    an unknown scoring method and no data, and one with other data, both
    give the persisted suite. *)
Lemma init_reuses_persisted_suite_witness :
  _get_suite_if_exists
    env (init_name (init_args "arith" (inr "no such method"%string) None None))
    persisted_world
  = (Returned (Some (self_suite arithmetic)), persisted_world) /\
  init_name (init_args "arith" (inl QACorrectness)
                       (Some ["1+1?"%string]) (Some ["2"%string]))
  = init_name (init_args "arith" (inr "no such method"%string) None None) /\
  exists ts st',
    __init__ env (init_args "arith" (inl QACorrectness)
                            (Some ["1+1?"%string]) (Some ["2"%string]))
             (start persisted_world)
    = (Returned ts, st') /\
    test_cases (self_suite ts) = arithmetic_cases /\
    scoring_method (self_suite ts) = OtherScoring "exact_match" /\
    world st' = persisted_world.
Proof.
  assert (Hget : _get_suite_if_exists
                   env (init_name (init_args "arith"
                                             (inr "no such method"%string)
                                             None None))
                   persisted_world
                 = (Returned (Some (self_suite arithmetic)), persisted_world))
    by reflexivity.
  split; [exact Hget|]. split; [reflexivity|].
  destruct (@init_reuses_persisted_suite
              _ _ _ _ _ env _
              (init_args "arith" (inl QACorrectness)
                         (Some ["1+1?"%string]) (Some ["2"%string]))
              _ _ _ Hget eq_refl)
    as (Hinit & Hsame & _).
  do 2 eexists. split; [rewrite Hsame; exact Hinit|].
  repeat split.
Defined.

(** Explicit lists, scored by question-answering correctness: the case of
    the new suite has no reference output although a reference list was
    supplied, and the same suite comes out without the list. *)
Lemma qa_correctness_ignores_references_witness :
  (forall d w0, _load_suite_from_args env d w0 = load_suite_from_args d w0) /\
  _get_suite_if_exists
    env (init_name (init_args "qa" (inr "qa_correctness"%string)
                              (Some ["2+2?"%string]) (Some ["4"%string])))
    empty_world
  = (Returned None, empty_world) /\
  _get_scoring_method
    env (init_scoring_method
           (init_args "qa" (inr "qa_correctness"%string)
                      (Some ["2+2?"%string]) (Some ["4"%string])))
    empty_world
  = (Returned QACorrectness, empty_world) /\
  exists ts st',
    __init__ env (init_args "qa" (inr "qa_correctness"%string)
                            (Some ["2+2?"%string]) (Some ["4"%string]))
             (start empty_world)
    = (Returned ts, st') /\
    test_cases (self_suite ts)
    = [{| input := "2+2?"; reference_output := None |}] /\
    fst (__init__ env
                  (with_references
                     (init_args "qa" (inr "qa_correctness"%string)
                                (Some ["2+2?"%string]) (Some ["4"%string]))
                     "answers" None)
                  (start empty_world))
    = Returned ts.
Proof.
  assert (Hloader : forall d w0,
             _load_suite_from_args env d w0 = load_suite_from_args d w0)
    by (intros d w0; reflexivity).
  assert (Hget : _get_suite_if_exists
                   env (init_name (init_args "qa" (inr "qa_correctness"%string)
                                             (Some ["2+2?"%string])
                                             (Some ["4"%string])))
                   empty_world
                 = (Returned None, empty_world)) by reflexivity.
  assert (Hmethod : _get_scoring_method
                      env (init_scoring_method
                             (init_args "qa" (inr "qa_correctness"%string)
                                        (Some ["2+2?"%string])
                                        (Some ["4"%string])))
                      empty_world
                    = (Returned QACorrectness, empty_world)) by reflexivity.
  split; [exact Hloader|]. split; [exact Hget|]. split; [exact Hmethod|].
  do 2 eexists.
  match goal with |- ?R /\ _ => assert (Hrun : R) by (cbv; reflexivity) end.
  split; [exact Hrun|].
  destruct (@qa_correctness_ignores_references
              _ _ _ env _ _ _ _ _ _ Hloader Hget Hmethod Hrun)
    as (_ & (texts & Hcases & Hsource) & Hsame).
  cbn in Hsource. injection Hsource as <-.
  split; [exact Hcases|].
  exact (proj1 (Hsame "answers"%string None)).
Defined.

(** Two cases with a context, one case per chunk: the second call gets the
    second context with the second candidate. *)
Lemma context_sliced_like_the_chunk_witness :
  exists r st',
    run env arithmetic
        (run_args "r1" ["4"; "six"]%string (Some ["c1"; "c2"]%string) false 1)
        (start empty_world)
    = (r, st') /\
    resolved (trace st')
    = Some (["4"; "six"]%string, Some ["c1"; "c2"]%string) /\
    In (Ev_run_batch
          (Call4 [Some "6"%string] ["six"%string] ["3+3?"%string]
                 ["c2"%string])
          (Returned [0%Z]))
       (trace st') /\
    exists i,
      slice ["4"; "six"]%string i (i + 1) = ["six"%string] /\
      slice ["c1"; "c2"]%string i (i + 1) = ["c2"%string].
Proof.
  do 2 eexists.
  match goal with |- ?R /\ _ => assert (Hrun : R) by (cbv; reflexivity) end.
  split; [exact Hrun|].
  match goal with |- ?R /\ _ => assert (Hres : R) by reflexivity end.
  split; [exact Hres|].
  match goal with |- ?I /\ _ => assert (Hin : I) by in_trace end.
  split; [exact Hin|].
  destruct (@context_sliced_like_the_chunk
              _ _ _ _ _ env _ _ _ _ _ _ _ Hrun Hres _ _ Hin)
    as (i & _ & Hcall).
  exists i. cbv zeta in Hcall.
  injection Hcall as _ Hcands _ Hctx.
  split; symmetry; assumption.
Defined.

(** A saved run of the arithmetic suite: the run is returned after the
    suite file and the run have been written. *)
Lemma run_persists_then_returns_witness :
  exists tr st',
    run env arithmetic (run_args "r1" ["4"; "six"]%string None true 32)
        (start empty_world)
    = (Returned tr, st') /\
    run_dir tr = Some (root ++ ["arith"; "r1"]%string) /\
    exists before md,
      trace st'
      = before
        ++ [Ev_initialize_metadata (Returned md);
            Ev_write_text (root ++ ["arith"; "suite.json"]%string)
                          "{suite arith}" (Returned tt);
            Ev_TestRun_save tr (Returned tt)].
Proof.
  do 2 eexists.
  match goal with |- ?R /\ _ => assert (Hrun : R) by (cbv; reflexivity) end.
  split; [exact Hrun|]. split; [reflexivity|].
  destruct (@run_persists_then_returns _ _ _ _ _ env _ _ _ _ _ Hrun)
    as (_ & Hret & _).
  destruct (Hret _ eq_refl)
    as (C & ctx & run_dir & md & before & _ & _ & _ & _ & Htrace).
  exists before, md. exact Htrace.
Defined.

(** [batch_size=0] ends in the internal error; [batch_size=-3] returns a
    run with no outputs. *)
Lemma run_does_not_check_batch_size_witness :
  (exists r st',
     run env arithmetic (run_args "r1" ["4"; "six"]%string None true 0)
         (start empty_world)
     = (r, st') /\
     forallb event_returned (trace st') = true /\
     resolved (trace st') = Some (["4"; "six"]%string, None) /\
     r = Raised (ExnFrom ArthurInternalError "failed to create run r1"
                   (Exn ValueError "range() arg 3 must not be zero")) /\
     dirs (world st') = [root ++ ["arith"%string]]) /\
  (exists r st',
     run env arithmetic (run_args "r1" ["4"; "six"]%string None true (-3))
         (start empty_world)
     = (r, st') /\
     forallb event_returned (trace st') = true /\
     resolved (trace st') = Some (["4"; "six"]%string, None) /\
     exists tr, r = Returned tr /\ test_case_outputs tr = []).
Proof.
  split.
  - do 2 eexists.
    match goal with |- ?R /\ _ => assert (Hrun : R) by (cbv; reflexivity) end.
    split; [exact Hrun|].
    match goal with |- ?P /\ _ => assert (Hall : P) by reflexivity end.
    split; [exact Hall|].
    match goal with |- ?P /\ _ => assert (Hres : P) by reflexivity end.
    split; [exact Hres|].
    destruct (@run_does_not_check_batch_size
                _ _ _ _ _ env _ _ _ _ _ _ _ Hrun Hall Hres eq_refl)
      as [Hzero _].
    destruct (Hzero eq_refl) as (Hr & _).
    split; [exact Hr | reflexivity].
  - do 2 eexists.
    match goal with |- ?R /\ _ => assert (Hrun : R) by (cbv; reflexivity) end.
    split; [exact Hrun|].
    match goal with |- ?P /\ _ => assert (Hall : P) by reflexivity end.
    split; [exact Hall|].
    match goal with |- ?P /\ _ => assert (Hres : P) by reflexivity end.
    split; [exact Hres|].
    destruct (@run_does_not_check_batch_size
                _ _ _ _ _ env _ _ _ _ _ _ _ Hrun Hall Hres eq_refl)
      as [_ Hneg].
    destruct (Hneg ltac:(cbv; reflexivity)) as (tr & Hr & Hout & _).
    exists tr. split; assumption.
Defined.

(** A scoring method that drops its last score: two candidates, one
    output, no error. *)
Lemma run_truncates_to_the_scores_witness :
  exists r st',
    run env (suite_scored_by "drops_last" arithmetic_cases)
        (run_args "r1" ["4"; "six"]%string None true 32) (start empty_world)
    = (r, st') /\
    forallb event_returned (trace st') = true /\
    resolved (trace st') = Some (["4"; "six"]%string, None) /\
    length (concat (batch_returns (trace st'))) < length ["4"; "six"]%string /\
    exists tr,
      r = Returned tr /\
      test_case_outputs tr = [{| output := "4"%string; score := 1%Z |}] /\
      files (world st')
      = [(root ++ ["arith"; "r1"; "run.json"]%string, "{run r1}"%string);
         (root ++ ["arith"; "suite.json"]%string, "{suite arith}"%string)].
Proof.
  do 2 eexists.
  match goal with |- ?R /\ _ => assert (Hrun : R) by (cbv; reflexivity) end.
  split; [exact Hrun|].
  match goal with |- ?P /\ _ => assert (Hall : P) by reflexivity end.
  split; [exact Hall|].
  match goal with |- ?P /\ _ => assert (Hres : P) by reflexivity end.
  split; [exact Hres|].
  match goal with |- ?P /\ _ => assert (Hfew : P) by (cbv; lia) end.
  split; [exact Hfew|].
  destruct (@run_truncates_to_the_scores
              _ _ _ _ _ env _ _ _ _ _ _ _ Hrun Hall Hres eq_refl
              ltac:(cbv; discriminate) Hfew)
    as (tr & Hr & Hout & _).
  exists tr. split; [exact Hr|]. split; [exact Hout | reflexivity].
Defined.

(* ===================================================================== *)
(** ** The further properties on the in-memory layer *)
(* ===================================================================== *)

(** A run without [save] whose scoring fails: the internal error is
    raised, and nothing on disk was created or removed. *)
Lemma run_without_save_leaves_disk_alone_witness :
  exists r st',
    run env (suite_scored_by "fails_on_boom" arithmetic_cases)
        (run_args "r1" ["4"; "boom"]%string None false 32) (start empty_world)
    = (r, st') /\
    arg_save (run_args "r1" ["4"; "boom"]%string None false 32) = false /\
    forallb (fun ev => negb (touches_disk ev)) (trace st') = true /\
    r = Raised (ExnFrom ArthurInternalError "failed to create run r1"
                  (Exn (OtherError "RuntimeError") "scoring backend failed")) /\
    world st' = empty_world.
Proof.
  do 2 eexists.
  match goal with |- ?R /\ _ => assert (Hrun : R) by (cbv; reflexivity) end.
  split; [exact Hrun|]. split; [reflexivity|].
  split; [|split; reflexivity].
  exact (@run_without_save_leaves_disk_alone
           _ _ _ _ _ env _ _ _ _ _ Hrun eq_refl).
Defined.

(** The run "r1" exists already: the [UserValueError] of
    [_create_run_dir] leaves [run] unwrapped, and the existing directory
    stays. *)
Lemma run_early_failure_not_wrapped_witness :
  exists r st',
    run env arithmetic (run_args "r1" ["4"; "six"]%string None true 32)
        (start world_with_run)
    = (r, st') /\
    In (Ev_create_run_dir "arith" "r1"
          (Raised (Exn UserValueError "run already exists")))
       (trace st') /\
    early_failure
      (Ev_create_run_dir "arith" "r1"
         (Raised (Exn UserValueError "run already exists")) : event Score DataFrame Metadata Scorer)
    = Some (Exn UserValueError "run already exists") /\
    r = Raised (Exn UserValueError "run already exists") /\
    batch_events (trace st') = [] /\
    world st' = world_with_run.
Proof.
  do 2 eexists.
  match goal with |- ?R /\ _ => assert (Hrun : R) by (cbv; reflexivity) end.
  split; [exact Hrun|].
  match goal with |- ?I /\ _ => assert (Hin : I) by in_trace end.
  split; [exact Hin|]. split; [reflexivity|].
  destruct (@run_early_failure_not_wrapped
              _ _ _ _ _ env _ _ _ _ _ _ _ Hrun Hin eq_refl)
    as (Hr & _ & Hnone & _).
  split; [exact Hr|]. split; [exact Hnone | reflexivity].
Defined.

(** The first of two chunks fails: the second candidate is never scored. *)
Lemma run_stops_at_first_failing_chunk_witness :
  exists r st',
    run env (suite_scored_by "fails_on_boom" arithmetic_cases)
        (run_args "r1" ["boom"; "6"]%string None true 1) (start empty_world)
    = (r, st') /\
    trace st'
    = firstn 3 (trace st')
      ++ Ev_run_batch
           (Call3 [Some "4"%string] ["boom"%string] ["2+2?"%string])
           (Raised (Exn (OtherError "RuntimeError") "scoring backend failed"))
         :: skipn 4 (trace st') /\
    forallb event_returned (firstn 3 (trace st')) = true /\
    forallb (fun ev => negb (is_run_batch ev)) (skipn 4 (trace st')) = true /\
    length (batch_events (trace st')) = 1.
Proof.
  do 2 eexists.
  match goal with |- ?R /\ _ => assert (Hrun : R) by (cbv; reflexivity) end.
  split; [exact Hrun|].
  match goal with |- ?T /\ _ => assert (Htrace : T) by reflexivity end.
  split; [exact Htrace|].
  destruct (@run_stops_at_first_failing_chunk
              _ _ _ _ _ env _ _ _ _ _ _ _ _ _ Hrun Htrace)
    as (Hbefore & Hafter & _).
  split; [exact Hbefore|]. split; [exact Hafter | reflexivity].
Defined.

(** The scoring fails and the run directory cannot be deleted: the caller
    gets the [PermissionError], and the directory is still there. *)
Lemma run_clean_up_failure_masks_scoring_error_witness :
  exists r st',
    run full_disk_env (suite_scored_by "fails_on_boom" arithmetic_cases)
        (run_args "r1" ["4"; "boom"]%string None true 32) (start empty_world)
    = (r, st') /\
    In (Ev_clean_up_run (root ++ ["arith"; "r1"]%string)
          (Raised (Exn (OtherError "PermissionError") "cannot delete")))
       (trace st') /\
    r = Raised (Exn (OtherError "PermissionError") "cannot delete") /\
    In (Ev_create_run_dir "arith" "r1"
          (Returned (root ++ ["arith"; "r1"]%string)))
       (trace st') /\
    dirs (world st')
    = [root ++ ["arith"; "r1"]%string; root ++ ["arith"%string]].
Proof.
  do 2 eexists.
  match goal with |- ?R /\ _ => assert (Hrun : R) by (cbv; reflexivity) end.
  split; [exact Hrun|].
  match goal with |- ?I /\ _ => assert (Hin : I) by in_trace end.
  split; [exact Hin|].
  destruct (@run_clean_up_failure_masks_scoring_error
              _ _ _ _ _ full_disk_env _ _ _ _ _ _ _ Hrun Hin)
    as (Hr & _ & Hdir & _).
  split; [exact Hr|]. split; [exact Hdir | reflexivity].
Defined.

(** The scoring succeeds and the suite file cannot be written: the caller
    gets the [OSError], and the run directory created for the run stays. *)
Lemma run_late_failure_keeps_run_dir_witness :
  exists r st',
    run full_disk_env arithmetic
        (run_args "r1" ["4"; "six"]%string None true 32) (start empty_world)
    = (r, st') /\
    In (Ev_write_text (root ++ ["arith"; "suite.json"]%string) "{suite arith}"
          (Raised (Exn (OtherError "OSError") "no space left on device")))
       (trace st') /\
    late_failure
      (Ev_write_text (root ++ ["arith"; "suite.json"]%string) "{suite arith}"
         (Raised (Exn (OtherError "OSError") "no space left on device"))
       : event Score DataFrame Metadata Scorer)
    = Some (Exn (OtherError "OSError") "no space left on device") /\
    r = Raised (Exn (OtherError "OSError") "no space left on device") /\
    forallb (fun x => negb (is_clean_up x) && negb (is_logger_error x))
            (trace st') = true /\
    dirs (world st')
    = [root ++ ["arith"; "r1"]%string; root ++ ["arith"%string]].
Proof.
  do 2 eexists.
  match goal with |- ?R /\ _ => assert (Hrun : R) by (cbv; reflexivity) end.
  split; [exact Hrun|].
  match goal with |- ?I /\ _ => assert (Hin : I) by in_trace end.
  split; [exact Hin|]. split; [reflexivity|].
  destruct (@run_late_failure_keeps_run_dir
              _ _ _ _ _ full_disk_env _ _ _ _ _ _ _ Hrun Hin eq_refl)
    as (Hr & _ & Hquiet & _).
  split; [exact Hr|]. split; [exact Hquiet | reflexivity].
Defined.

(** 65 cases in chunks of 7: the ten candidate slices, end to end, are the
    65 candidates. *)
Lemma run_scores_each_case_once_witness :
  exists tr st',
    run env (suite_scored_by "exact_match" (numbered_cases 65))
        (run_args "r7" (numbered "a" 65) None false 7) (start empty_world)
    = (Returned tr, st') /\
    (0 < arg_batch_size (run_args "r7" (numbered "a" 65) None false 7))%Z /\
    concat (map call_candidates (batch_calls (trace st'))) = numbered "a" 65 /\
    concat (map call_inputs (batch_calls (trace st'))) = numbered "q" 65 /\
    length (batch_calls (trace st')) = 10.
Proof.
  do 2 eexists.
  match goal with |- ?R /\ _ => assert (Hrun : R) by (cbv; reflexivity) end.
  split; [exact Hrun|].
  match goal with |- ?P /\ _ => assert (Hpos : P) by (cbv; reflexivity) end.
  split; [exact Hpos|].
  destruct (@run_scores_each_case_once _ _ _ _ _ env _ _ _ _ _ Hrun Hpos)
    as (C & ctx & Hres & Hcands & Hinputs & _).
  cbv in Hres. injection Hres as HC _. rewrite <- HC in Hcands.
  split; [exact Hcands|]. split; [exact Hinputs | reflexivity].
Defined.

(** 65 cases in chunks of 32 take three calls; an empty suite takes
    none. *)
Lemma run_number_of_scoring_calls_witness :
  (exists tr st',
     run env (suite_scored_by "exact_match" (numbered_cases 65))
         (run_args "r32" (numbered "a" 65) None false 32) (start empty_world)
     = (Returned tr, st') /\
     (0 < arg_batch_size (run_args "r32" (numbered "a" 65) None false 32))%Z /\
     Z.of_nat (length (batch_calls (trace st'))) = 3%Z) /\
  (exists tr st',
     run env (suite_scored_by "exact_match" [])
         (run_args "r0" [] None false 32) (start empty_world)
     = (Returned tr, st') /\
     (0 < arg_batch_size (run_args "r0" [] None false 32))%Z /\
     batch_calls (trace st') = [] /\
     test_case_outputs tr = []).
Proof.
  split.
  - do 2 eexists.
    match goal with |- ?R /\ _ => assert (Hrun : R) by (cbv; reflexivity) end.
    split; [exact Hrun|].
    match goal with |- ?P /\ _ => assert (Hpos : P) by (cbv; reflexivity) end.
    split; [exact Hpos|].
    destruct (@run_number_of_scoring_calls _ _ _ _ _ env _ _ _ _ _ Hrun Hpos)
      as [Hcount _].
    rewrite Hcount. reflexivity.
  - do 2 eexists.
    match goal with |- ?R /\ _ => assert (Hrun : R) by (cbv; reflexivity) end.
    split; [exact Hrun|].
    match goal with |- ?P /\ _ => assert (Hpos : P) by (cbv; reflexivity) end.
    split; [exact Hpos|].
    destruct (@run_number_of_scoring_calls _ _ _ _ _ env _ _ _ _ _ Hrun Hpos)
      as [_ Hempty].
    exact (Hempty eq_refl).
Defined.

(** Two cases and the default [batch_size]: one call, on everything. *)
Lemma run_single_call_when_batch_covers_suite_witness :
  exists tr st',
    run env arithmetic
        (run_args "r1" ["4"; "six"]%string (Some ["c1"; "c2"]%string) false
                  DEFAULT_BATCH_SIZE)
        (start empty_world)
    = (Returned tr, st') /\
    test_cases (self_suite arithmetic) <> [] /\
    (Z.of_nat (length (test_cases (self_suite arithmetic)))
     <= DEFAULT_BATCH_SIZE)%Z /\
    exists c,
      batch_calls (trace st') = [c] /\
      call_candidates c = ["4"; "six"]%string /\
      call_inputs c = ["2+2?"; "3+3?"]%string /\
      call_context c = Some ["c1"; "c2"]%string.
Proof.
  do 2 eexists.
  match goal with |- ?R /\ _ => assert (Hrun : R) by (cbv; reflexivity) end.
  split; [exact Hrun|].
  match goal with |- ?P /\ _ => assert (Hne : P) by (cbv; discriminate) end.
  split; [exact Hne|].
  match goal with |- ?P /\ _ => assert (Hle : P) by (cbv; discriminate) end.
  split; [exact Hle|].
  destruct (@run_single_call_when_batch_covers_suite
              _ _ _ _ _ env _ _ _ _ _ Hrun Hne Hle)
    as (C & ctx & c & Hres & Hcalls & _ & Hcands & Hinputs & Hctx).
  cbv in Hres. injection Hres as HC Hc.
  rewrite <- HC in Hcands. rewrite <- Hc in Hctx.
  exists c. split; [exact Hcalls|]. split; [exact Hcands|].
  split; [exact Hinputs | exact Hctx].
Defined.

(** A context of one entry for a suite of two cases, one case per chunk:
    the second call is made, with an empty context. *)
Lemma run_does_not_check_context_length_witness :
  exists r st',
    run env arithmetic
        (run_args "r1" ["4"; "six"]%string (Some ["c1"%string]) false 1)
        (start empty_world)
    = (r, st') /\
    (0 < arg_batch_size
           (run_args "r1" ["4"; "six"]%string (Some ["c1"%string]) false 1))%Z /\
    resolved (trace st') = Some (["4"; "six"]%string, Some ["c1"%string]) /\
    In (Ev_run_batch
          (Call4 [Some "6"%string] ["six"%string] ["3+3?"%string] [])
          (Returned []))
       (trace st') /\
    exists k,
      k * 1 < 2 /\
      ["six"%string] = firstn 1 (skipn (k * 1) ["4"; "six"]%string) /\
      Some (@nil string) = Some (firstn 1 (skipn (k * 1) ["c1"%string])).
Proof.
  do 2 eexists.
  match goal with |- ?R /\ _ => assert (Hrun : R) by (cbv; reflexivity) end.
  split; [exact Hrun|].
  match goal with |- ?P /\ _ => assert (Hpos : P) by (cbv; reflexivity) end.
  split; [exact Hpos|].
  match goal with |- ?P /\ _ => assert (Hres : P) by reflexivity end.
  split; [exact Hres|].
  match goal with |- ?I /\ _ => assert (Hin : I) by in_trace end.
  split; [exact Hin|].
  destruct (@run_does_not_check_context_length
              _ _ _ _ _ env _ _ _ _ _ _ _ _ _ Hrun Hpos Hres Hin)
    as (k & Hk & Hcands & Hctx & _).
  exists k. split; [exact Hk|]. split; [exact Hcands | exact Hctx].
Defined.

(** A backend that returns two scores per call, one case per chunk: both
    candidates are kept, and the second one gets the surplus score of the
    first call. *)
Lemma run_drops_surplus_scores_witness :
  exists tr st',
    run padding_env arithmetic
        (run_args "r1" ["4"; "6"]%string None false 1) (start empty_world)
    = (Returned tr, st') /\
    concat (batch_returns (trace st')) = [1; 0; 1; 0]%Z /\
    length (test_case_outputs tr) = Nat.min 2 4 /\
    map output (test_case_outputs tr) = ["4"; "6"]%string /\
    map score (test_case_outputs tr) = [1; 0]%Z.
Proof.
  do 2 eexists.
  match goal with |- ?R /\ _ => assert (Hrun : R) by (cbv; reflexivity) end.
  split; [exact Hrun|]. split; [reflexivity|].
  destruct (@run_drops_surplus_scores _ _ _ _ _ padding_env _ _ _ _ _ Hrun)
    as (C & ctx & Hres & Hlen & _ & Hmore).
  cbv in Hres. injection Hres as HC _.
  rewrite <- HC in Hlen, Hmore.
  split; [exact Hlen|].
  destruct (Hmore ltac:(cbv; lia)) as [Hout Hsc].
  split; [exact Hout | exact Hsc].
Defined.

(** A saved run with its provenance. *)
Lemma run_returns_provenance_and_run_dir_witness :
  exists tr st',
    run env arithmetic
        (run_args_with_provenance "r1" ["4"; "six"]%string true
           (Some "m"%string) (Some "v2"%string) None (Some "t"%string))
        (start empty_world)
    = (Returned tr, st') /\
    run_name tr = "r1"%string /\
    model_name tr = Some "m"%string /\
    model_version tr = Some "v2"%string /\
    foundation_model tr = None /\
    prompt_template tr = Some "t"%string /\
    run_dir tr = Some (root ++ ["arith"; "r1"]%string) /\
    run_metadata tr = 1.
Proof.
  do 2 eexists.
  match goal with |- ?R /\ _ => assert (Hrun : R) by (cbv; reflexivity) end.
  split; [exact Hrun|].
  destruct (@run_returns_provenance_and_run_dir
              _ _ _ _ _ env _ _ _ _ _ Hrun)
    as (Hname & Hmodel & Hversion & Hfm & Hpt & _ & Hdir & _).
  split; [exact Hname|]. split; [exact Hmodel|]. split; [exact Hversion|].
  split; [exact Hfm|]. split; [exact Hpt|].
  split; [|reflexivity].
  apply Hdir. in_trace.
Defined.

(** A constructor call without data: the loader raises, and no directory
    was created. *)
Lemma init_failure_creates_nothing_witness :
  exists e st',
    __init__ env (init_args "new" (inr "exact_match"%string) None None)
             (start empty_world)
    = (Raised e, st') /\
    e = Exn UserInputError "invalid or missing reference data" /\
    forallb (fun x => negb (touches_disk x && event_returned x))
            (trace st') = true /\
    world st' = empty_world.
Proof.
  do 2 eexists.
  match goal with |- ?R /\ _ => assert (Hrun : R) by (cbv; reflexivity) end.
  split; [exact Hrun|]. split; [reflexivity|].
  destruct (@init_failure_creates_nothing _ _ _ _ _ env _ _ _ _ Hrun)
    as [_ Hdisk].
  split; [exact Hdisk | reflexivity].
Defined.

(** The first construction of "new": the directory is created last, and
    the loader was given the reference column. *)
Lemma init_builds_suite_then_creates_directory_witness :
  _get_suite_if_exists
    env (init_name (init_args "new" (inr "exact_match"%string)
                              (Some ["1+1?"%string]) (Some ["2"%string])))
    empty_world
  = (Returned None, empty_world) /\
  exists ts st',
    __init__ env (init_args "new" (inr "exact_match"%string)
                            (Some ["1+1?"%string]) (Some ["2"%string]))
             (start empty_world)
    = (Returned ts, st') /\
    self_id ts = None /\
    name (self_suite ts) = "new"%string /\
    scoring_method (self_suite ts) = OtherScoring "exact_match" /\
    length (trace st') = 5 /\
    nth_error (trace st') 4
    = Some (Ev_create_test_suite_dir "new"
              (Returned (self_test_suite_dir ts))) /\
    dirs (world st') = [root ++ ["new"%string]; root ++ ["arith"%string]].
Proof.
  assert (Hget : _get_suite_if_exists
                   env (init_name (init_args "new" (inr "exact_match"%string)
                                             (Some ["1+1?"%string])
                                             (Some ["2"%string])))
                   empty_world
                 = (Returned None, empty_world)) by reflexivity.
  split; [exact Hget|].
  do 2 eexists.
  match goal with |- ?R /\ _ => assert (Hrun : R) by (cbv; reflexivity) end.
  split; [exact Hrun|].
  destruct (@init_builds_suite_then_creates_directory
              _ _ _ _ _ env _ _ _ _ _ Hget Hrun)
    as (method & cases & md & dir & Hts & Htrace & _).
  rewrite Htrace.
  injection Hts as Hmethod _ _ Hdir.
  split; [reflexivity|]. split; [reflexivity|].
  split; [reflexivity|]. split; [reflexivity|].
  split; [|reflexivity].
  cbn [nth_error]. now rewrite Hdir.
Defined.

(** "arith" is persisted: constructing it with other cases and another
    method, then saving, writes the persisted suite's document. *)
Lemma save_after_reuse_writes_persisted_suite_witness :
  _get_suite_if_exists
    env (init_name (init_args "arith" (inl QACorrectness)
                              (Some ["1+1?"%string]) (Some ["2"%string])))
    persisted_world
  = (Returned (Some (self_suite arithmetic)), persisted_world) /\
  exists r st',
    bind (__init__ env (init_args "arith" (inl QACorrectness)
                                  (Some ["1+1?"%string]) (Some ["2"%string])))
         (save env) (start persisted_world)
    = (r, st') /\
    r = Returned tt /\
    files (world st')
    = (root ++ ["arith"; "suite.json"]%string,
       json_of_suite (self_suite arithmetic))
      :: files persisted_world /\
    length (trace st') = 3.
Proof.
  assert (Hget : _get_suite_if_exists
                   env (init_name (init_args "arith" (inl QACorrectness)
                                             (Some ["1+1?"%string])
                                             (Some ["2"%string])))
                   persisted_world
                 = (Returned (Some (self_suite arithmetic)), persisted_world))
    by reflexivity.
  split; [exact Hget|].
  do 2 eexists.
  match goal with |- ?R /\ _ => assert (Hrun : R) by (cbv; reflexivity) end.
  split; [exact Hrun|].
  destruct (@save_after_reuse_writes_persisted_suite
              _ _ _ _ _ env _ _ _ _ _ _ Hget Hrun)
    as (Hr & Hworld & info & Htrace).
  split; [exact Hr|]. split; [now rewrite Hworld | now rewrite Htrace].
Defined.
